(** * Streaming delegate of homebridge-eufy-security: a shallow embedding

    The development follows [ProtectStreamingDelegate] (the streaming session
    manager): [prepareStream], [startStream], [handleStreamRequest],
    [stopStream], [shutdown], [adjustProbeSize] and the [probesize] getter.

    The class is stateful and talks to collaborators that live outside of it
    (the port reservoir, the FFmpeg process wrapper, the RTP demuxer, the
    camera accessory, the recording delegate).  The embedding is a state and
    exception monad over the fields of the class; every call that leaves the
    class is recorded in a trace, and what the collaborator answers (a value,
    or an exception) is read from a [World] that all statements quantify over.

    Numbers are integers ([Z]): ports, bitrates, counters and probe sizes are
    whole numbers far below 2^53, where JavaScript arithmetic is exact.  An
    [async] method runs as one step; the one place where a method waits for
    an event of its own ([await once(rtpDemuxer, 'rtp')] in [startStream])
    is cut in two, and the second half is an operation of its own. *)

From Stdlib Require Import List String ZArith Lia Bool.
Import ListNotations.

Local Open Scope Z_scope.

(** ** JavaScript objects used as maps

    [ongoingSessions] and [pendingSessions] are plain objects ([{}]) indexed
    by the session identifier.  The association list holds the own
    properties of the object, one pair per key, in the order in which the
    keys were added.  The prototype of the object is [Object.prototype]: a
    key the object does not own is still found there when it is one of the
    names in [inherited]. *)
Module JsObject.

Definition t (V : Type) : Type := list (string * V).

Definition empty {V : Type} : t V := [].

(** The property names of [Object.prototype].  Each of them is a function,
    and [__proto__] reads as [Object.prototype] itself: a value that is
    truthy, is neither [null] nor [undefined], and has none of the
    properties of a session record. *)
Definition inherited (k : string) : bool :=
  existsb (String.eqb k)
    ["constructor"; "hasOwnProperty"; "isPrototypeOf";
     "propertyIsEnumerable"; "toLocaleString"; "toString"; "valueOf";
     "__defineGetter__"; "__defineSetter__"; "__lookupGetter__";
     "__lookupSetter__"; "__proto__"]%string.

(** The own property under [k], if there is one.  [o[k]] is its value when
    there is one; with none, [o[k]] is the inherited member when
    [inherited k], and [undefined] otherwise.  The methods below test
    [inherited] wherever they read [o[k]] and find no own property. *)
Fixpoint get {V : Type} (k : string) (o : t V) : option V :=
  match o with
  | [] => None
  | (k', v) :: o' => if String.eqb k k' then Some v else get k o'
  end.

(** [o[k] = v]: an existing key keeps its position, a new key goes last.
    This is the assignment for every key but [__proto__], where it would
    give the object another prototype and store no property; the statements
    about a method that stores under an identifier leave that one out. *)
Fixpoint set {V : Type} (k : string) (v : V) (o : t V) : t V :=
  match o with
  | [] => [(k, v)]
  | (k', v') :: o' =>
      if String.eqb k k' then (k, v) :: o' else (k', v') :: set k v o'
  end.

(** [delete o[k]]: the own property goes, if there is one. *)
Definition delete {V : Type} (k : string) (o : t V) : t V :=
  filter (fun kv => negb (String.eqb k (fst kv))) o.

(** The object still has the prototype [{}] gave it: nothing was assigned
    under [__proto__].  The list of an object that was given another
    prototype says nothing of what the object inherits from it. *)
Definition plain {V : Type} (o : t V) : bool :=
  match get "__proto__" o with
  | Some _ => false
  | None => true
  end.

(** [Object.keys(o)]: the own keys, here in the order of the list.
    [Object.keys] lists the keys that are array indices first and the others
    in the order in which they were added; what is stated below of a loop
    over the keys is stated for every list, so for every order. *)
Definition keys {V : Type} (o : t V) : list string := map fst o.

End JsObject.

Arguments JsObject.inherited k : simpl never.

(** ** Data model *)

Inductive AddressVersion := ipv4 | ipv6.

(** Object identities of [FfmpegStreamingProcess] and [RtpDemuxer] instances. *)
Definition handle := nat.
Definition demuxer := nat.

Module Channel.
Record t := { id : Z; fps : Z; bitrate : Z }.
End Channel.

Module RtspEntry.
Record t := { channel : Channel.t; name : string; url : string }.
End RtspEntry.

Module Hints.
Record t := {
  transcode : bool;
  transcodeHighLatency : bool;
  hardwareTranscoding : bool;
  twoWayAudio : bool;
  probesize : Z
}.
End Hints.

Module FfmpegOptions.
Record t := { audioEncoder : list string; hostSystemMaxPixels : Z }.
End FfmpegOptions.

Module CameraAccessory.
Record t := { name : string; isOnline : bool; hints : Hints.t }.
End CameraAccessory.

Module ProtectRecordingDelegate.
Record t := { isRecording : bool }.
End ProtectRecordingDelegate.

Module SessionInfo.
Record t := {
  address : string;
  addressVersion : AddressVersion;
  videoPort : Z;
  videoReturnPort : Z;
  videoCryptoSuite : Z;
  videoSRTP : list Byte.byte;
  videoSSRC : Z;
  hasAudioSupport : bool;
  audioPort : Z;
  audioIncomingRtcpPort : Z;
  audioIncomingRtpPort : Z;
  rtpDemuxer : option demuxer;
  rtpPortReservations : list Z;
  talkBack : option string;
  audioCryptoSuite : Z;
  audioSRTP : list Byte.byte;
  audioSSRC : Z
}.
End SessionInfo.

(** The value type of [ongoingSessions]. *)
Record OngoingSession := {
  ffmpeg : list handle;
  rtpDemuxer : option demuxer;
  rtpPortReservations : list Z
}.

Module PrepareStreamRequest.
Record t := {
  sessionID : string;
  targetAddress : string;
  addressVersion : AddressVersion;
  audio_port : Z;
  audio_srtpCryptoSuite : Z;
  audio_srtp_key : list Byte.byte;
  audio_srtp_salt : list Byte.byte;
  video_port : Z;
  video_srtpCryptoSuite : Z;
  video_srtp_key : list Byte.byte;
  video_srtp_salt : list Byte.byte
}.
End PrepareStreamRequest.

Module PrepareStreamResponse.
Record t := {
  audio_port : Z;
  audio_srtp_key : list Byte.byte;
  audio_srtp_salt : list Byte.byte;
  audio_ssrc : Z;
  video_port : Z;
  video_srtp_key : list Byte.byte;
  video_srtp_salt : list Byte.byte;
  video_ssrc : Z
}.
End PrepareStreamResponse.

Module StartStreamRequest.
Record t := {
  sessionID : string;
  video_width : Z;
  video_height : Z;
  video_fps : Z;
  video_max_bit_rate : Z;
  audio_packet_time : Z;
  audio_max_bit_rate : Z
}.
End StartStreamRequest.

(** The fields of the class that the session logic reads or writes.
    [probesizeOverrideTimeout] holds the delay (in milliseconds) of the armed
    timer, [None] when no timer is armed. *)
Record ProtectStreamingDelegate := {
  ffmpegOptions : FfmpegOptions.t;
  hksv : option ProtectRecordingDelegate.t;
  ongoingSessions : JsObject.t OngoingSession;
  pendingSessions : JsObject.t SessionInfo.t;
  protectCamera : CameraAccessory.t;
  probesizeOverride : Z;
  probesizeOverrideCount : Z;
  probesizeOverrideTimeout : option Z;
  rtspEntry : option RtspEntry.t;
  savedBitrate : Z
}.

(** ** Calls that leave the class, and the trace *)

Inductive call :=
| ReservePort (ipFamily : AddressVersion) (portCount : Z)
| FreePort (port : Z)
| GenerateSynchronisationSource
| NewRtpDemuxer (d : demuxer) (ipFamily : AddressVersion)
    (inputPort rtcpPort rtpPort : Z)
| NewFfmpegStreamingProcess (h : handle) (sessionID : string)
    (probesize : option Z) (returnPort : option Z)
| NewWebSocket (endpoint : string)
| WebSocketTerminate
| FfmpegStop (h : handle)
| DemuxerClose (d : demuxer)
| DemuxerIsRunning (d : demuxer)
| FindRtsp (width height maxPixels : Z)
| GetBitrate (channelId : Z)
| SetBitrate (channelId : Z) (value : Z)
| RestartTimeshifting.

Inductive outcome :=
| Threw
| Returned
| ReturnedNum (n : Z)
| ReturnedBool (b : bool)
| ReturnedRtsp (r : option RtspEntry.t).

(** What the object does that can be seen from outside.  A log line is
    recorded by its format string; the values substituted into it are not. *)
Inductive event :=
| Called (c : call) (o : outcome)
| LogInfo (format : string)
| LogError (format : string)
| PrepareCallback (response : PrepareStreamResponse.t)
| StreamCallback (error : option string)
| SnapshotCallback (error : option string).

Inductive exn :=
| TypeError (msg : string)
| Thrown (c : call).

(** What the collaborators do, as a function of everything that has happened
    so far.  [throws] says whether a call raises; the other fields give the
    value it returns otherwise. *)
Record World := {
  throws : list event -> call -> bool;
  number : list event -> call -> Z;
  rtsp : list event -> call -> option RtspEntry.t;
  running : list event -> demuxer -> bool
}.

(** The state threaded through every method: the object, the trace of what it
    has done to the outside, and the number of collaborator objects it has
    constructed (the next fresh object identity). *)
Record State := {
  this : ProtectStreamingDelegate;
  trace : list event;
  allocated : nat
}.

(** ** The monad: state, and exceptions that keep the state reached *)

Inductive Result (A : Type) :=
| Ok (a : A)
| Throw (e : exn).
Arguments Ok {A} a.
Arguments Throw {A} e.

Definition M (A : Type) : Type := State -> Result A * State.

Definition ret {A : Type} (a : A) : M A := fun s => (Ok a, s).

Definition bind {A B : Type} (m : M A) (k : A -> M B) : M B :=
  fun s =>
    match m s with
    | (Ok a, s') => k a s'
    | (Throw e, s') => (Throw e, s')
    end.

Definition raise {A : Type} (e : exn) : M A := fun s => (Throw e, s).

(** [try { m } catch (error) { handler error }] *)
Definition try_catch {A : Type} (m : M A) (handler : exn -> M A) : M A :=
  fun s =>
    match m s with
    | (Ok a, s') => (Ok a, s')
    | (Throw e, s') => handler e s'
    end.

Declare Scope js_scope.
Delimit Scope js_scope with js.
Notation "x <- m ;; k" := (bind m (fun x => k))
  (at level 61, m at next level, right associativity) : js_scope.
Notation "m ;; k" := (bind m (fun _ => k))
  (at level 61, right associativity) : js_scope.
Local Open Scope js_scope.

Definition get : M ProtectStreamingDelegate := fun s => (Ok (this s), s).

Definition modify (f : ProtectStreamingDelegate -> ProtectStreamingDelegate)
  : M unit :=
  fun s => (Ok tt, {| this := f (this s); trace := trace s;
                      allocated := allocated s |}).

Definition emit (e : event) : M unit :=
  fun s => (Ok tt, {| this := this s; trace := trace s ++ [e];
                      allocated := allocated s |}).

Definition history : M (list event) := fun s => (Ok (trace s), s).

(** A fresh object identity for a collaborator constructed with [new]. *)
Definition fresh : M nat :=
  fun s => (Ok (allocated s), {| this := this s; trace := trace s;
                                 allocated := S (allocated s) |}).

(** [for (const x of l) { f x }], and [l.map(f)] used for its effects. *)
Fixpoint for_each {A : Type} (l : list A) (f : A -> M unit) : M unit :=
  match l with
  | [] => ret tt
  | x :: l' => f x ;; for_each l' f
  end.

(** Final state of a computation, whatever its result. *)
Definition exec {A : Type} (m : M A) (s : State) : State := snd (m s).

(** Field updates of [this]. *)
Definition with_ongoingSessions (v : JsObject.t OngoingSession)
  (d : ProtectStreamingDelegate) : ProtectStreamingDelegate :=
  {| ffmpegOptions := ffmpegOptions d; hksv := hksv d;
     ongoingSessions := v; pendingSessions := pendingSessions d;
     protectCamera := protectCamera d;
     probesizeOverride := probesizeOverride d;
     probesizeOverrideCount := probesizeOverrideCount d;
     probesizeOverrideTimeout := probesizeOverrideTimeout d;
     rtspEntry := rtspEntry d; savedBitrate := savedBitrate d |}.

Definition with_pendingSessions (v : JsObject.t SessionInfo.t)
  (d : ProtectStreamingDelegate) : ProtectStreamingDelegate :=
  {| ffmpegOptions := ffmpegOptions d; hksv := hksv d;
     ongoingSessions := ongoingSessions d; pendingSessions := v;
     protectCamera := protectCamera d;
     probesizeOverride := probesizeOverride d;
     probesizeOverrideCount := probesizeOverrideCount d;
     probesizeOverrideTimeout := probesizeOverrideTimeout d;
     rtspEntry := rtspEntry d; savedBitrate := savedBitrate d |}.

Definition with_probesizeOverride (v : Z)
  (d : ProtectStreamingDelegate) : ProtectStreamingDelegate :=
  {| ffmpegOptions := ffmpegOptions d; hksv := hksv d;
     ongoingSessions := ongoingSessions d;
     pendingSessions := pendingSessions d;
     protectCamera := protectCamera d;
     probesizeOverride := v;
     probesizeOverrideCount := probesizeOverrideCount d;
     probesizeOverrideTimeout := probesizeOverrideTimeout d;
     rtspEntry := rtspEntry d; savedBitrate := savedBitrate d |}.

Definition with_probesizeOverrideCount (v : Z)
  (d : ProtectStreamingDelegate) : ProtectStreamingDelegate :=
  {| ffmpegOptions := ffmpegOptions d; hksv := hksv d;
     ongoingSessions := ongoingSessions d;
     pendingSessions := pendingSessions d;
     protectCamera := protectCamera d;
     probesizeOverride := probesizeOverride d;
     probesizeOverrideCount := v;
     probesizeOverrideTimeout := probesizeOverrideTimeout d;
     rtspEntry := rtspEntry d; savedBitrate := savedBitrate d |}.

Definition with_probesizeOverrideTimeout (v : option Z)
  (d : ProtectStreamingDelegate) : ProtectStreamingDelegate :=
  {| ffmpegOptions := ffmpegOptions d; hksv := hksv d;
     ongoingSessions := ongoingSessions d;
     pendingSessions := pendingSessions d;
     protectCamera := protectCamera d;
     probesizeOverride := probesizeOverride d;
     probesizeOverrideCount := probesizeOverrideCount d;
     probesizeOverrideTimeout := v;
     rtspEntry := rtspEntry d; savedBitrate := savedBitrate d |}.

Definition with_rtspEntry (v : option RtspEntry.t)
  (d : ProtectStreamingDelegate) : ProtectStreamingDelegate :=
  {| ffmpegOptions := ffmpegOptions d; hksv := hksv d;
     ongoingSessions := ongoingSessions d;
     pendingSessions := pendingSessions d;
     protectCamera := protectCamera d;
     probesizeOverride := probesizeOverride d;
     probesizeOverrideCount := probesizeOverrideCount d;
     probesizeOverrideTimeout := probesizeOverrideTimeout d;
     rtspEntry := v; savedBitrate := savedBitrate d |}.

Definition with_savedBitrate (v : Z)
  (d : ProtectStreamingDelegate) : ProtectStreamingDelegate :=
  {| ffmpegOptions := ffmpegOptions d; hksv := hksv d;
     ongoingSessions := ongoingSessions d;
     pendingSessions := pendingSessions d;
     protectCamera := protectCamera d;
     probesizeOverride := probesizeOverride d;
     probesizeOverrideCount := probesizeOverrideCount d;
     probesizeOverrideTimeout := probesizeOverrideTimeout d;
     rtspEntry := rtspEntry d; savedBitrate := v |}.

Definition with_hksv (v : option ProtectRecordingDelegate.t)
  (d : ProtectStreamingDelegate) : ProtectStreamingDelegate :=
  {| ffmpegOptions := ffmpegOptions d; hksv := v;
     ongoingSessions := ongoingSessions d;
     pendingSessions := pendingSessions d;
     protectCamera := protectCamera d;
     probesizeOverride := probesizeOverride d;
     probesizeOverrideCount := probesizeOverrideCount d;
     probesizeOverrideTimeout := probesizeOverrideTimeout d;
     rtspEntry := rtspEntry d; savedBitrate := savedBitrate d |}.

Definition with_protectCamera (v : CameraAccessory.t)
  (d : ProtectStreamingDelegate) : ProtectStreamingDelegate :=
  {| ffmpegOptions := ffmpegOptions d; hksv := hksv d;
     ongoingSessions := ongoingSessions d;
     pendingSessions := pendingSessions d;
     protectCamera := v;
     probesizeOverride := probesizeOverride d;
     probesizeOverrideCount := probesizeOverrideCount d;
     probesizeOverrideTimeout := probesizeOverrideTimeout d;
     rtspEntry := rtspEntry d; savedBitrate := savedBitrate d |}.

(** Both session tables have the prototype they were made with. *)
Definition plain_tables (d : ProtectStreamingDelegate) : bool :=
  JsObject.plain (ongoingSessions d) && JsObject.plain (pendingSessions d).

(** The object the constructor builds for a camera. *)
Definition constructor (camera : CameraAccessory.t)
  (options : FfmpegOptions.t) (recording : option ProtectRecordingDelegate.t)
  : ProtectStreamingDelegate :=
  {| ffmpegOptions := options; hksv := recording;
     ongoingSessions := JsObject.empty;
     pendingSessions := JsObject.empty;
     protectCamera := camera;
     probesizeOverride := 0;
     probesizeOverrideCount := 0;
     probesizeOverrideTimeout := None;
     rtspEntry := None; savedBitrate := 0 |}.

Definition initial (d : ProtectStreamingDelegate) : State :=
  {| this := d; trace := []; allocated := O |}.

Notation "' pat <- m ;; k" :=
  (bind m (fun x => match x with pat => k end))
  (at level 61, pat pattern, m at next level, right associativity) : js_scope.

(** JavaScript truthiness of a number. *)
Definition truthy (n : Z) : bool := negb (n =? 0).

Definition update_trace (s : State) (e : event) : State :=
  {| this := this s; trace := trace s ++ [e]; allocated := allocated s |}.

(** ** The methods of the class *)

Section Methods.

Variable w : World.

(** A call to a collaborator that may raise. *)
Definition invoke (c : call) : M unit :=
  fun s =>
    if throws w (trace s) c
    then (Throw (Thrown c), update_trace s (Called c Threw))
    else (Ok tt, update_trace s (Called c Returned)).

Definition invoke_num (c : call) : M Z :=
  fun s =>
    if throws w (trace s) c
    then (Throw (Thrown c), update_trace s (Called c Threw))
    else let n := number w (trace s) c in
         (Ok n, update_trace s (Called c (ReturnedNum n))).

Definition invoke_rtsp (c : call) : M (option RtspEntry.t) :=
  fun s =>
    if throws w (trace s) c
    then (Throw (Thrown c), update_trace s (Called c Threw))
    else let r := rtsp w (trace s) c in
         (Ok r, update_trace s (Called c (ReturnedRtsp r))).

(** Calls that report through their result only: the port reservoir answers
    [-1] when it has no port to give, and the constructors and the
    synchronisation source generator return a value. *)
Definition ask_num (c : call) : M Z :=
  fun s => let n := number w (trace s) c in
           (Ok n, update_trace s (Called c (ReturnedNum n))).

Definition construct (c : call) : M unit := emit (Called c Returned).

(** [rtpDemuxer.isRunning] *)
Definition isRunning (d : demuxer) : M bool :=
  fun s => let b := running w (trace s) d in
           (Ok b, update_trace s (Called (DemuxerIsRunning d) (ReturnedBool b))).

(** *** The probe size *)

(** [get probesize()] *)
Definition probesize (d : ProtectStreamingDelegate) : Z :=
  if truthy (probesizeOverride d) then probesizeOverride d
  else Hints.probesize (CameraAccessory.hints (protectCamera d)).

Definition adjustProbeSize : M unit :=
  d <- get ;;
  (match probesizeOverrideTimeout d with
   | Some _ => modify (with_probesizeOverrideTimeout None)
   | None => ret tt
   end) ;;
  modify (fun d => with_probesizeOverrideCount (probesizeOverrideCount d + 1) d) ;;
  modify (fun d => with_probesizeOverride (probesize d * 2) d) ;;
  d <- get ;;
  (if probesizeOverride d >? 5000000
   then modify (with_probesizeOverride 5000000)
   else ret tt) ;;
  d <- get ;;
  emit (LogError "The FFmpeg process ended unexpectedly due to issues with the media stream provided by the UniFi Protect livestream API. Adjusting the settings we use for FFmpeg %s to use safer values at the expense of some additional streaming startup latency.") ;;
  if probesizeOverrideCount d <? 10
  then modify (with_probesizeOverrideTimeout (Some (1000 * 60 * 10)))
  else ret tt.

(** The function handed to [setTimeout] in [adjustProbeSize]. *)
Definition probesizeOverrideTimeout_callback : M unit :=
  modify (with_probesizeOverride 0) ;;
  modify (with_probesizeOverrideTimeout None).

(** The event loop runs the callback of an armed timer once its delay has
    passed; a timer that was cleared, or never armed, does not fire. *)
Definition timer_fires : M unit :=
  d <- get ;;
  match probesizeOverrideTimeout d with
  | Some _ => probesizeOverrideTimeout_callback
  | None => ret tt
  end.

(** *** prepareStream *)

(** The closure [reservePort] of [prepareStream].  It captures the two local
    variables [reservePortFailed] and [rtpPortReservations], passed here as
    a pair and returned updated. *)
Definition reservePort (captured : bool * list Z)
  (ipFamily : AddressVersion) (portCount : Z) : M (Z * (bool * list Z)) :=
  let '(reservePortFailed, reservations) := captured in
  if reservePortFailed then ret (-1, captured)
  else
    assignedPort <- ask_num (ReservePort ipFamily portCount) ;;
    if assignedPort =? -1
    then ret (assignedPort, (true, reservations))
    else
      ret (assignedPort,
           (false,
            (reservations ++ [assignedPort])
              ++ (if portCount =? 2 then [assignedPort + 1] else []))).

Definition prepareStream (request : PrepareStreamRequest.t) : M unit :=
  d <- get ;;
  let addressVersion := PrepareStreamRequest.addressVersion request in
  let isAudioEnabled := true in
  let hasAudioSupport :=
    isAudioEnabled
    && Nat.ltb 0 (List.length (FfmpegOptions.audioEncoder (ffmpegOptions d))) in
  let twoWay :=
    hasAudioSupport
    && Hints.twoWayAudio (CameraAccessory.hints (protectCamera d)) in
  ' (audioIncomingRtcpPort, captured) <-
      reservePort (false, []) addressVersion 1 ;;
  ' (audioIncomingPort, captured) <-
      (if twoWay then reservePort captured addressVersion 1
       else ret (-1, captured)) ;;
  ' (audioIncomingRtpPort, captured) <-
      (if twoWay then reservePort captured addressVersion 2
       else ret (-1, captured)) ;;
  audioSSRC <- ask_num GenerateSynchronisationSource ;;
  (if negb hasAudioSupport
   then emit (LogInfo "Audio support disabled.%s")
   else ret tt) ;;
  rtpDemuxer <-
    (if twoWay then
       x <- fresh ;;
       construct (NewRtpDemuxer x addressVersion audioIncomingPort
                    audioIncomingRtcpPort audioIncomingRtpPort) ;;
       emit (LogError "Unable to open the return audio channel.") ;;
       ret (Some x)
     else ret None) ;;
  ' (videoReturnPort, captured) <- reservePort captured addressVersion 1 ;;
  videoSSRC <- ask_num GenerateSynchronisationSource ;;
  (if fst captured
   then emit (LogError "Unable to reserve the UDP ports needed to begin streaming.")
   else ret tt) ;;
  let sessionInfo :=
    {| SessionInfo.address := PrepareStreamRequest.targetAddress request;
       SessionInfo.addressVersion := addressVersion;
       SessionInfo.audioCryptoSuite :=
         PrepareStreamRequest.audio_srtpCryptoSuite request;
       SessionInfo.audioIncomingRtcpPort := audioIncomingRtcpPort;
       SessionInfo.audioIncomingRtpPort := audioIncomingRtpPort;
       SessionInfo.audioPort := PrepareStreamRequest.audio_port request;
       SessionInfo.audioSRTP :=
         PrepareStreamRequest.audio_srtp_key request
           ++ PrepareStreamRequest.audio_srtp_salt request;
       SessionInfo.audioSSRC := audioSSRC;
       SessionInfo.hasAudioSupport := hasAudioSupport;
       SessionInfo.rtpDemuxer := rtpDemuxer;
       SessionInfo.rtpPortReservations := snd captured;
       SessionInfo.talkBack := None;
       SessionInfo.videoCryptoSuite :=
         PrepareStreamRequest.video_srtpCryptoSuite request;
       SessionInfo.videoPort := PrepareStreamRequest.video_port request;
       SessionInfo.videoReturnPort := videoReturnPort;
       SessionInfo.videoSRTP :=
         PrepareStreamRequest.video_srtp_key request
           ++ PrepareStreamRequest.video_srtp_salt request;
       SessionInfo.videoSSRC := videoSSRC |} in
  let response :=
    {| PrepareStreamResponse.audio_port :=
         if twoWay then audioIncomingPort else audioIncomingRtcpPort;
       PrepareStreamResponse.audio_srtp_key :=
         PrepareStreamRequest.audio_srtp_key request;
       PrepareStreamResponse.audio_srtp_salt :=
         PrepareStreamRequest.audio_srtp_salt request;
       PrepareStreamResponse.audio_ssrc := audioSSRC;
       PrepareStreamResponse.video_port := videoReturnPort;
       PrepareStreamResponse.video_srtp_key :=
         PrepareStreamRequest.video_srtp_key request;
       PrepareStreamResponse.video_srtp_salt :=
         PrepareStreamRequest.video_srtp_salt request;
       PrepareStreamResponse.video_ssrc := videoSSRC |} in
  modify (fun d =>
            with_pendingSessions
              (JsObject.set (PrepareStreamRequest.sessionID request)
                 sessionInfo (pendingSessions d)) d) ;;
  emit (PrepareCallback response).

(** *** startStream *)

(** The tail of [startStream] for two-way audio, from the construction of
    the return audio process on.  [ongoingSessions[sessionID]] is read
    again here: if the session was stopped in the meantime the property
    access raises ([.ffmpeg] of [undefined], or [.push] of the [undefined]
    that [.ffmpeg] is on an inherited member). *)
Definition launchReturnAudio (sessionID : string) : M unit :=
  h <- fresh ;;
  construct (NewFfmpegStreamingProcess h sessionID None None) ;;
  d <- get ;;
  match JsObject.get sessionID (ongoingSessions d) with
  | None =>
      raise (TypeError
               (if JsObject.inherited sessionID
                then "Cannot read properties of undefined (reading 'push')"
                else "Cannot read properties of undefined (reading 'ffmpeg')"))
  | Some o =>
      modify (with_ongoingSessions
                (JsObject.set sessionID
                   {| ffmpeg := ffmpeg o ++ [h];
                      rtpDemuxer := rtpDemuxer o;
                      rtpPortReservations := rtpPortReservations o |}
                   (ongoingSessions d)))
  end.

Definition talkbackUnavailable (error : exn) : M unit :=
  emit (LogError "Unable to connect to the return audio channel: %s").

(** What [startStream] does when [await once(sessionInfo.rtpDemuxer, 'rtp')]
    resumes: the method is suspended there until the demuxer sees its first
    packet, and other methods run in between. *)
Definition startStream_resume (sessionID : string) (x : demuxer)
  (ws : bool) : M unit :=
  try_catch
    (r <- isRunning x ;;
     if negb r
     then (if ws then construct WebSocketTerminate else ret tt)
     else launchReturnAudio sessionID)
    talkbackUnavailable.

(** The part of [startStream] that saves the bitrate of the camera: "only
    if we're the first stream". *)
Definition startStream_saveBitrate (channelId : Z) : M unit :=
  d <- get ;;
  if negb (truthy (savedBitrate d)) then
    b <- invoke_num (GetBitrate channelId) ;;
    modify (with_savedBitrate b) ;;
    if b <? 0 then modify (with_savedBitrate 0) else ret tt
  else ret tt.

(** The rest of [startStream], once the stream profile is chosen: the
    requested bitrate is pushed to the camera, the FFmpeg process is
    launched, the session moves from pending to ongoing, and for two-way
    audio the return channel is set up. *)
Definition startStream_launch (request : StartStreamRequest.t)
  (sessionInfo : SessionInfo.t) (hints : Hints.t) (channelId : Z) : M unit :=
  let sessionID := StartStreamRequest.sessionID request in
  invoke (SetBitrate channelId
            (StartStreamRequest.video_max_bit_rate request * 1000)) ;;
  d <- get ;;
  let size := probesize d in
  emit (LogInfo "Streaming request from %s%s: %sx%s@%sfps, %s kbps. %s %s, %s kbps.") ;;
  let twoWay :=
    SessionInfo.hasAudioSupport sessionInfo && Hints.twoWayAudio hints in
  h <- fresh ;;
  construct
    (NewFfmpegStreamingProcess h sessionID (Some size)
       (if twoWay then None
        else Some (SessionInfo.videoReturnPort sessionInfo))) ;;
  modify (fun d =>
            with_ongoingSessions
              (JsObject.set sessionID
                 {| ffmpeg := [h];
                    rtpDemuxer := SessionInfo.rtpDemuxer sessionInfo;
                    rtpPortReservations :=
                      SessionInfo.rtpPortReservations sessionInfo |}
                 (ongoingSessions d)) d) ;;
  modify (fun d =>
            with_pendingSessions
              (JsObject.delete sessionID (pendingSessions d)) d) ;;
  if negb (SessionInfo.hasAudioSupport sessionInfo)
     || negb (Hints.twoWayAudio hints)
  then ret tt
  else
    try_catch
      ((match SessionInfo.talkBack sessionInfo with
        | Some endpoint => construct (NewWebSocket endpoint)
        | None => ret tt
        end) ;;
       match SessionInfo.rtpDemuxer sessionInfo with
       | Some _ => ret tt
       | None => launchReturnAudio sessionID
       end)
      talkbackUnavailable.

(** [startStream] when [pendingSessions[request.sessionID]] is a member
    inherited from [Object.prototype].  Reading [addressVersion] and
    [address] of it gives [undefined] and raises nothing, so the method runs
    as for a session until it builds the arguments of FFmpeg, after the
    bitrate was pushed and the request logged: there
    [sessionInfo.videoSSRC.toString()] raises. *)
Definition startStream_inherited (request : StartStreamRequest.t) : M unit :=
  d <- get ;;
  let camera := protectCamera d in
  let hints := CameraAccessory.hints camera in
  if negb (CameraAccessory.isOnline camera) then
    emit (LogError "Unable to start video stream: the camera is offline or unavailable.") ;;
    emit (StreamCallback
            (Some (String.append (CameraAccessory.name camera)
                     ": Unable to start video stream: the camera is offline or unavailable.")))
  else
    let isTranscoding :=
      Hints.transcode hints
      || ((StartStreamRequest.audio_packet_time request >=? 60)
          && Hints.transcodeHighLatency hints) in
    entry <-
      invoke_rtsp
        (FindRtsp
           (if isTranscoding && Hints.hardwareTranscoding hints
            then 3840 else StartStreamRequest.video_width request)
           (if isTranscoding && Hints.hardwareTranscoding hints
            then 2160 else StartStreamRequest.video_height request)
           (if isTranscoding
            then FfmpegOptions.hostSystemMaxPixels (ffmpegOptions d)
            else 0)) ;;
    modify (with_rtspEntry entry) ;;
    match entry with
    | None =>
        emit (LogError "%s %sx%s, %s fps, %s kbps.") ;;
        emit (StreamCallback
                (Some (String.append (CameraAccessory.name camera)
                         ": Unable to start video stream: no valid RTSP stream profile was found.")))
    | Some profile =>
        let channelId := Channel.id (RtspEntry.channel profile) in
        startStream_saveBitrate channelId ;;
        invoke (SetBitrate channelId
                  (StartStreamRequest.video_max_bit_rate request * 1000)) ;;
        emit (LogInfo "Streaming request from %s%s: %sx%s@%sfps, %s kbps. %s %s, %s kbps.") ;;
        raise (TypeError "Cannot read properties of undefined (reading 'toString')")
    end.

(** [startStream].  [sessionInfo] is [pendingSessions[request.sessionID]]: a
    pending session, or [undefined], whose [addressVersion] cannot be read,
    or an inherited member. *)
Definition startStream (request : StartStreamRequest.t) : M unit :=
  let sessionID := StartStreamRequest.sessionID request in
  d <- get ;;
  match JsObject.get sessionID (pendingSessions d) with
  | None =>
      if JsObject.inherited sessionID then startStream_inherited request
      else
        raise (TypeError "Cannot read properties of undefined (reading 'addressVersion')")
  | Some sessionInfo =>
      let camera := protectCamera d in
      let hints := CameraAccessory.hints camera in
      if negb (CameraAccessory.isOnline camera) then
        emit (LogError "Unable to start video stream: the camera is offline or unavailable.") ;;
        emit (StreamCallback
                (Some (String.append (CameraAccessory.name camera)
                         ": Unable to start video stream: the camera is offline or unavailable.")))
      else
        let isTranscoding :=
          Hints.transcode hints
          || ((StartStreamRequest.audio_packet_time request >=? 60)
              && Hints.transcodeHighLatency hints) in
        entry <-
          invoke_rtsp
            (FindRtsp
               (if isTranscoding && Hints.hardwareTranscoding hints
                then 3840 else StartStreamRequest.video_width request)
               (if isTranscoding && Hints.hardwareTranscoding hints
                then 2160 else StartStreamRequest.video_height request)
               (if isTranscoding
                then FfmpegOptions.hostSystemMaxPixels (ffmpegOptions d)
                else 0)) ;;
        modify (with_rtspEntry entry) ;;
        match entry with
        | None =>
            emit (LogError "%s %sx%s, %s fps, %s kbps.") ;;
            emit (StreamCallback
                    (Some (String.append (CameraAccessory.name camera)
                             ": Unable to start video stream: no valid RTSP stream profile was found.")))
        | Some profile =>
            let channelId := Channel.id (RtspEntry.channel profile) in
            startStream_saveBitrate channelId ;;
            startStream_launch request sessionInfo hints channelId
        end
  end.

(** *** stopStream and shutdown *)

(** [this.hksv?.isRecording]: falsy when there is no recording delegate. *)
Definition hksv_isRecording (d : ProtectStreamingDelegate) : bool :=
  match hksv d with
  | Some recording => ProtectRecordingDelegate.isRecording recording
  | None => false
  end.

(** The body of the [try] block of [stopStream].  The two guards
    [if (this.ongoingSessions[sessionId])] and
    [if (this.pendingSessions[sessionId])] are passed by a session record
    and by an inherited member alike; of the latter, [.ffmpeg] and
    [.rtpPortReservations] are [undefined], and the loop over the one and
    [.map] of the other raise. *)
Definition stopStream_try (sessionId : string) : M unit :=
  d <- get ;;
  (match JsObject.get sessionId (ongoingSessions d) with
   | Some o =>
       for_each (ffmpeg o) (fun ffmpegProcess => invoke (FfmpegStop ffmpegProcess)) ;;
       (match rtpDemuxer o with
        | Some x => invoke (DemuxerClose x)
        | None => ret tt
        end) ;;
       emit (LogInfo "Stopped video streaming session.") ;;
       for_each (rtpPortReservations o) (fun x => invoke (FreePort x))
   | None =>
       if JsObject.inherited sessionId
       then raise (TypeError "undefined is not iterable")
       else ret tt
   end) ;;
  (match JsObject.get sessionId (pendingSessions d) with
   | Some p =>
       for_each (SessionInfo.rtpPortReservations p)
         (fun x => invoke (FreePort x))
   | None =>
       if JsObject.inherited sessionId
       then raise (TypeError "Cannot read properties of undefined (reading 'map')")
       else ret tt
   end) ;;
  modify (fun d =>
            with_pendingSessions
              (JsObject.delete sessionId (pendingSessions d)) d) ;;
  modify (fun d =>
            with_ongoingSessions
              (JsObject.delete sessionId (ongoingSessions d)) d) ;;
  d <- get ;;
  if Nat.eqb (List.length (JsObject.keys (ongoingSessions d))) 0 then
    if hksv_isRecording d
    then invoke RestartTimeshifting
    else if truthy (savedBitrate d) then
      (match rtspEntry d with
       | Some profile =>
           invoke (SetBitrate (Channel.id (RtspEntry.channel profile))
                     (savedBitrate d))
       | None => ret tt
       end) ;;
      modify (with_savedBitrate 0)
    else ret tt
  else ret tt.

Definition stopStream_catch (error : exn) : M unit :=
  emit (LogError "Error occurred while ending the FFmpeg video processes: %s.").

Definition stopStream (sessionId : string) : M unit :=
  try_catch (stopStream_try sessionId) stopStream_catch.

Definition shutdown : M unit :=
  d <- get ;;
  for_each (JsObject.keys (ongoingSessions d)) stopStream.

(** *** handleStreamRequest and handleSnapshotRequest *)

Inductive StreamingRequest :=
| START (request : StartStreamRequest.t)
| RECONFIGURE (sessionID : string) (video_max_bit_rate : Z)
| STOP (sessionID : string).

Definition handleStreamRequest (request : StreamingRequest) : M unit :=
  match request with
  | START r => startStream r
  | RECONFIGURE _ video_max_bit_rate =>
      emit (LogInfo "Streaming parameters adjustment requested by HomeKit: %sx%s, %s fps, %s kbps.") ;;
      d <- get ;;
      (match rtspEntry d with
       | Some profile =>
           invoke (SetBitrate (Channel.id (RtspEntry.channel profile))
                     (video_max_bit_rate * 1000))
       | None => ret tt
       end) ;;
      emit (StreamCallback None)
  | STOP sessionID =>
      stopStream sessionID ;;
      emit (StreamCallback None)
  end.

Definition handleSnapshotRequest : M unit :=
  d <- get ;;
  if negb (CameraAccessory.isOnline (protectCamera d)) then
    emit (LogError "Unable to retrieve a snapshot: the camera is offline or unavailable.") ;;
    emit (SnapshotCallback
            (Some (String.append (CameraAccessory.name (protectCamera d))
                     ": Unable to retrieve a snapshot")))
  else emit (SnapshotCallback None).

(** ** The life of one delegate

    Everything that can happen to the object: a call of one of its methods,
    the resumption of a suspended [startStream], the probe-size timer
    running out, and the camera or the recording delegate changing state
    on their own. *)
Inductive operation :=
| PrepareStream (request : PrepareStreamRequest.t)
| HandleStreamRequest (request : StreamingRequest)
| HandleSnapshotRequest
| RtpReceived (sessionID : string) (x : demuxer) (ws : bool)
| Shutdown
| AdjustProbeSize
| TimerFires
| CameraChanges (camera : CameraAccessory.t)
| RecordingChanges (recording : option ProtectRecordingDelegate.t).

Definition perform (op : operation) : M unit :=
  match op with
  | PrepareStream request => prepareStream request
  | HandleStreamRequest request => handleStreamRequest request
  | HandleSnapshotRequest => handleSnapshotRequest
  | RtpReceived sessionID x ws => startStream_resume sessionID x ws
  | Shutdown => shutdown
  | AdjustProbeSize => adjustProbeSize
  | TimerFires => timer_fires
  | CameraChanges camera => modify (with_protectCamera camera)
  | RecordingChanges recording => modify (with_hksv recording)
  end.

(** A method that raises rejects its promise; the object stays as the
    method left it and the next operation runs on it. *)
Fixpoint run (ops : list operation) (s : State) : State :=
  match ops with
  | [] => s
  | op :: ops' => run ops' (exec (perform op) s)
  end.

End Methods.

(** ** Vocabulary of the statements *)

(** No collaborator raises, whatever has happened before. *)
Definition no_throws (w : World) : Prop :=
  forall tr c, throws w tr c = false.

(** What a computation adds to the trace when run from [s]. *)
Definition events_of {A : Type} (m : M A) (s : State) : list event :=
  skipn (List.length (trace s)) (trace (exec m s)).

(** Partial correctness of a computation, result and final state included;
    an exception is a result like any other. *)
Definition triple {A : Type} (P : State -> Prop) (m : M A)
  (Q : Result A -> State -> Prop) : Prop :=
  forall s, P s -> Q (fst (m s)) (snd (m s)).

Definition preserves {A : Type} (I : State -> Prop) (m : M A) : Prop :=
  forall s, I s -> I (snd (m s)).

(** A property of the object alone, seen as a property of the state. *)
Definition on_this (J : ProtectStreamingDelegate -> Prop) : State -> Prop :=
  fun s => J (this s).

Definition is_adjustment (op : operation) : bool :=
  match op with
  | AdjustProbeSize => true
  | _ => false
  end.

(** How many of [ops] are calls of [adjustProbeSize]. *)
Definition adjustments (ops : list operation) : nat :=
  List.length (filter is_adjustment ops).

(** The three fields of the probe-size state. *)
Definition probe_state (d : ProtectStreamingDelegate) : Z * Z * option Z :=
  (probesizeOverride d, probesizeOverrideCount d, probesizeOverrideTimeout d).

Definition hint (s : State) : Z :=
  Hints.probesize (CameraAccessory.hints (protectCamera (this s))).

(** ** Sample configurations *)

Definition front_door : CameraAccessory.t :=
  {| CameraAccessory.name := "Front door";
     CameraAccessory.isOnline := true;
     CameraAccessory.hints :=
       {| Hints.transcode := false;
          Hints.transcodeHighLatency := true;
          Hints.hardwareTranscoding := false;
          Hints.twoWayAudio := false;
          Hints.probesize := 16384 |} |}.

Definition aac_options : FfmpegOptions.t :=
  {| FfmpegOptions.audioEncoder := ["-codec:a"; "libfdk_aac"]%string;
     FfmpegOptions.hostSystemMaxPixels := 8294400 |}.

(** A delegate fresh from the constructor, without recording support. *)
Definition fresh_delegate : State :=
  initial (constructor front_door aac_options None).

Definition main_profile : RtspEntry.t :=
  {| RtspEntry.channel :=
       {| Channel.id := 0; Channel.fps := 15; Channel.bitrate := 2000000 |};
     RtspEntry.name := "High";
     RtspEntry.url := "rtsp://camera/live0" |}.

(** A world in which nothing raises: the reservoir hands out ports from
    50000 on, the camera has one stream profile and reports a bitrate of
    3,000,000, and demuxers keep running. *)
Definition quiet : World :=
  {| throws := fun _ _ => false;
     number := fun tr c =>
       match c with
       | ReservePort _ _ => 50000 + 2 * Z.of_nat (List.length tr)
       | GetBitrate _ => 3000000
       | _ => Z.of_nat (List.length tr)
       end;
     rtsp := fun _ _ => Some main_profile;
     running := fun _ _ => true |}.

(** Nine failures, each followed by the decay of the override, then a
    tenth failure. *)
Definition flaky_stream : list operation :=
  List.concat (repeat [AdjustProbeSize; TimerFires] 9) ++ [AdjustProbeSize].

(** ** Vocabulary for [prepareStream] *)

(** A computation that returns a value, never an exception. *)
Definition returns {A : Type} (P : State -> Prop) (m : M A)
  (Q : A -> State -> Prop) : Prop :=
  forall s, P s -> exists a, fst (m s) = Ok a /\ Q a (snd (m s)).

Definition is_reservation (e : event) : bool :=
  match e with
  | Called (ReservePort _ _) _ => true
  | _ => false
  end.

(** The reservoir answered [-1]. *)
Definition is_failed_reservation (e : event) : bool :=
  match e with
  | Called (ReservePort _ _) (ReturnedNum n) => n =? -1
  | _ => false
  end.

Definition is_prepare_callback (e : event) : bool :=
  match e with
  | PrepareCallback _ => true
  | _ => false
  end.

(** After the first failed reservation the reservoir is not called again. *)
Fixpoint quiet_after_failure (evs : list event) : bool :=
  match evs with
  | [] => true
  | e :: rest =>
      if is_failed_reservation e
      then forallb (fun e' => negb (is_reservation e')) rest
      else quiet_after_failure rest
  end.

(** Where [prepareStream] stands while it reserves ports: [failed] is its
    local variable [reservePortFailed], [tr0] the trace it started from. *)
Definition reserving (tr0 : list event) (failed : bool) (s : State) : Prop :=
  exists evs,
    trace s = tr0 ++ evs
    /\ quiet_after_failure evs = true
    /\ (failed = false -> existsb is_failed_reservation evs = false)
    /\ forallb (fun e => negb (is_prepare_callback e)) evs = true.

(** A camera with two-way audio, and a reservoir with a single port left. *)
Definition intercom : CameraAccessory.t :=
  {| CameraAccessory.name := "Intercom";
     CameraAccessory.isOnline := true;
     CameraAccessory.hints :=
       {| Hints.transcode := false;
          Hints.transcodeHighLatency := true;
          Hints.hardwareTranscoding := false;
          Hints.twoWayAudio := true;
          Hints.probesize := 16384 |} |}.

Definition one_port_left : World :=
  {| throws := fun _ _ => false;
     number := fun tr c =>
       match c with
       | ReservePort _ _ => if existsb is_reservation tr then -1 else 50000
       | _ => 7
       end;
     rtsp := fun _ _ => Some main_profile;
     running := fun _ _ => true |}.

Definition living_room : PrepareStreamRequest.t :=
  {| PrepareStreamRequest.sessionID := "session-a";
     PrepareStreamRequest.targetAddress := "192.168.1.20";
     PrepareStreamRequest.addressVersion := ipv4;
     PrepareStreamRequest.audio_port := 60002;
     PrepareStreamRequest.audio_srtpCryptoSuite := 0;
     PrepareStreamRequest.audio_srtp_key := [];
     PrepareStreamRequest.audio_srtp_salt := [];
     PrepareStreamRequest.video_port := 60000;
     PrepareStreamRequest.video_srtpCryptoSuite := 0;
     PrepareStreamRequest.video_srtp_key := [];
     PrepareStreamRequest.video_srtp_salt := [] |}.

Definition watch : StartStreamRequest.t :=
  {| StartStreamRequest.sessionID := "session-a";
     StartStreamRequest.video_width := 1280;
     StartStreamRequest.video_height := 720;
     StartStreamRequest.video_fps := 30;
     StartStreamRequest.video_max_bit_rate := 299;
     StartStreamRequest.audio_packet_time := 20;
     StartStreamRequest.audio_max_bit_rate := 24 |}.

Definition intercom_delegate : State :=
  initial (constructor intercom aac_options None).

(** ** Vocabulary for [stopStream] and [shutdown] *)

Definition add_events (s : State) (evs : list event) : State :=
  {| this := this s; trace := trace s ++ evs; allocated := allocated s |}.

Definition stopped (processes : list handle) : list event :=
  map (fun h => Called (FfmpegStop h) Returned) processes.

Definition freed (ports : list Z) : list event :=
  map (fun x => Called (FreePort x) Returned) ports.

(** The trace of [stopStream] when nothing raises. *)
Definition teardown_trace (d : ProtectStreamingDelegate)
  (sessionId : string) : list event :=
  (match JsObject.get sessionId (ongoingSessions d) with
   | Some o =>
       stopped (ffmpeg o)
         ++ (match rtpDemuxer o with
             | Some x => [Called (DemuxerClose x) Returned]
             | None => []
             end)
         ++ [LogInfo "Stopped video streaming session."]
         ++ freed (rtpPortReservations o)
   | None => []
   end)
    ++ (match JsObject.get sessionId (pendingSessions d) with
        | Some p => freed (SessionInfo.rtpPortReservations p)
        | None => []
        end)
    ++ (if Nat.eqb
             (List.length
                (JsObject.keys (JsObject.delete sessionId (ongoingSessions d))))
             0
        then
          if hksv_isRecording d then [Called RestartTimeshifting Returned]
          else if truthy (savedBitrate d) then
            match rtspEntry d with
            | Some profile =>
                [Called (SetBitrate (Channel.id (RtspEntry.channel profile))
                           (savedBitrate d)) Returned]
            | None => []
            end
          else []
        else []).

(** The object [stopStream] leaves when nothing raises. *)
Definition teardown_state (d : ProtectStreamingDelegate)
  (sessionId : string) : ProtectStreamingDelegate :=
  let d' :=
    with_ongoingSessions (JsObject.delete sessionId (ongoingSessions d))
      (with_pendingSessions (JsObject.delete sessionId (pendingSessions d)) d)
  in
  if Nat.eqb
       (List.length
          (JsObject.keys (JsObject.delete sessionId (ongoingSessions d)))) 0
     && negb (hksv_isRecording d) && truthy (savedBitrate d)
  then with_savedBitrate 0 d'
  else d'.

(** The same for the loop of [shutdown] over a list of identifiers. *)
Fixpoint teardown_all (ids : list string) (d : ProtectStreamingDelegate)
  : ProtectStreamingDelegate * list event :=
  match ids with
  | [] => (d, [])
  | sessionId :: ids' =>
      let '(d', evs) := teardown_all ids' (teardown_state d sessionId) in
      (d', teardown_trace d sessionId ++ evs)
  end.

(** A call was made, whatever came of it. *)
Definition called (c : call) (evs : list event) : Prop :=
  exists o, In (Called c o) evs.

(** The calls among the events: what the outside sees of a method. *)
Definition side_effects (evs : list event) : list event :=
  filter (fun e => match e with Called _ _ => true | _ => false end) evs.

(** The values passed to [setBitrate], in order. *)
Definition bitrate_calls (evs : list event) : list Z :=
  flat_map (fun e => match e with
                     | Called (SetBitrate _ value) _ => [value]
                     | _ => []
                     end) evs.


(** C2 as the specification states it, for a stop that leaves no ongoing
    session while a bitrate is saved. *)
Definition saved_bitrate_restored (w : World) (sessionId : string)
  (s : State) : Prop :=
  let d := this s in
  let s' := exec (stopStream w sessionId) s in
  let evs := events_of (stopStream w sessionId) s in
  JsObject.keys (JsObject.delete sessionId (ongoingSessions d)) = [] ->
  savedBitrate d <> 0 ->
  if hksv_isRecording d
  then called RestartTimeshifting evs /\ bitrate_calls evs = []
  else bitrate_calls evs = [savedBitrate d]
       /\ savedBitrate (this s') = 0
       /\ forall sessionId',
           bitrate_calls (events_of (stopStream w sessionId') s') = [].

(** C3 as the specification states it. *)
Definition stop_twice_as_once (w : World) (sessionId : string) (s : State)
  : Prop :=
  side_effects
    (events_of (stopStream w sessionId ;; stopStream w sessionId) s)
  = side_effects (events_of (stopStream w sessionId) s).

(** C7 as the specification states it: after [shutdown] no session is
    tracked and every port of a tracked session has been freed. *)
Definition shutdown_complete (w : World) (s : State) : Prop :=
  let d := this s in
  let s' := exec (shutdown w) s in
  let evs := events_of (shutdown w) s in
  ongoingSessions (this s') = []
  /\ pendingSessions (this s') = []
  /\ (forall sessionId o x,
        JsObject.get sessionId (ongoingSessions d) = Some o ->
        In x (rtpPortReservations o) -> called (FreePort x) evs)
  /\ (forall sessionId p x,
        JsObject.get sessionId (pendingSessions d) = Some p ->
        In x (SessionInfo.rtpPortReservations p) -> called (FreePort x) evs).

(** ** Sample sessions *)

Definition kitchen : PrepareStreamRequest.t :=
  {| PrepareStreamRequest.sessionID := "session-b";
     PrepareStreamRequest.targetAddress := "192.168.1.21";
     PrepareStreamRequest.addressVersion := ipv4;
     PrepareStreamRequest.audio_port := 60012;
     PrepareStreamRequest.audio_srtpCryptoSuite := 0;
     PrepareStreamRequest.audio_srtp_key := [];
     PrepareStreamRequest.audio_srtp_salt := [];
     PrepareStreamRequest.video_port := 60010;
     PrepareStreamRequest.video_srtpCryptoSuite := 0;
     PrepareStreamRequest.video_srtp_key := [];
     PrepareStreamRequest.video_srtp_salt := [] |}.

Definition watch_kitchen : StartStreamRequest.t :=
  {| StartStreamRequest.sessionID := "session-b";
     StartStreamRequest.video_width := 1920;
     StartStreamRequest.video_height := 1080;
     StartStreamRequest.video_fps := 30;
     StartStreamRequest.video_max_bit_rate := 802;
     StartStreamRequest.audio_packet_time := 20;
     StartStreamRequest.audio_max_bit_rate := 24 |}.

(** As [quiet], but stopping an FFmpeg process raises. *)
Definition stop_fails : World :=
  {| throws := fun _ c =>
       match c with
       | FfmpegStop _ => true
       | _ => false
       end;
     number := number quiet;
     rtsp := rtsp quiet;
     running := running quiet |}.

Definition is_profile_lookup (e : event) : bool :=
  match e with
  | Called (FindRtsp _ _ _) _ => true
  | _ => false
  end.

(** As [quiet], but the camera has a stream profile only the first time it
    is asked for one. *)
Definition profile_lost : World :=
  {| throws := throws quiet;
     number := number quiet;
     rtsp := fun tr _ =>
       if existsb is_profile_lookup tr then None else Some main_profile;
     running := running quiet |}.

(** One two-way audio session prepared and started, where stopping FFmpeg
    will raise. *)
Definition intercom_streaming : State :=
  run stop_fails
    [PrepareStream living_room; HandleStreamRequest (START watch)]
    intercom_delegate.

(** The same session in a world where nothing raises. *)
Definition intercom_streaming_quiet : State :=
  run quiet
    [PrepareStream living_room; HandleStreamRequest (START watch)]
    intercom_delegate.

(** One session streams; a second one was prepared, and its start found no
    stream profile. *)
Definition second_viewer_rejected : State :=
  run profile_lost
    [PrepareStream living_room; HandleStreamRequest (START watch);
     PrepareStream kitchen; HandleStreamRequest (START watch_kitchen)]
    fresh_delegate.

(** One session streams and nothing else has happened. *)
Definition one_viewer : State :=
  run quiet
    [PrepareStream living_room; HandleStreamRequest (START watch)]
    fresh_delegate.

(** A delegate whose recording delegate is recording, with no session. *)
Definition recording_delegate : State :=
  initial (constructor front_door aac_options
             (Some {| ProtectRecordingDelegate.isRecording := true |})).

(** A session that was prepared and never started. *)
Definition prepared_only : State :=
  run quiet [PrepareStream living_room] fresh_delegate.

(** ** Vocabulary for invariants that also watch the trace *)

(** [J] holds of the object, and everything added to the trace since [tr0]
    satisfies [P]. *)
Definition tracked (J : ProtectStreamingDelegate -> Prop) (P : event -> bool)
  (tr0 : list event) : State -> Prop :=
  fun s =>
    J (this s) /\ exists evs, trace s = tr0 ++ evs /\ forallb P evs = true.

Definition no_setBitrate (e : event) : bool :=
  match e with
  | Called (SetBitrate _ _) _ => false
  | _ => true
  end.

Definition any_event (e : event) : bool := true.

(** As [quiet], but the camera reports a bitrate of -1. *)
Definition bitrate_unknown : World :=
  {| throws := throws quiet;
     number := fun tr c =>
       match c with
       | GetBitrate _ => -1
       | _ => number quiet tr c
       end;
     rtsp := rtsp quiet;
     running := running quiet |}.

Definition prepared_bitrate_unknown : State :=
  run bitrate_unknown [PrepareStream living_room] fresh_delegate.

(** ** Vocabulary for the ports of a session *)

(** The ports the reservoir handed out, in order: one for a single
    reservation, two neighbours for a pair, none for an answer of [-1]. *)
Definition granted (evs : list event) : list Z :=
  flat_map (fun e => match e with
                     | Called (ReservePort _ portCount) (ReturnedNum n) =>
                         if n =? -1 then []
                         else if portCount =? 2 then [n; n + 1] else [n]
                     | _ => []
                     end) evs.

(** The ports given back to the reservoir, in order. *)
Definition freed_ports (evs : list event) : list Z :=
  flat_map (fun e => match e with
                     | Called (FreePort x) _ => [x]
                     | _ => []
                     end) evs.

(** What [prepareStream] may do before it calls back; a demuxer is built
    only for two-way audio. *)
Definition prepare_event (twoWay : bool) (e : event) : bool :=
  match e with
  | Called (ReservePort _ _) _ => true
  | Called GenerateSynchronisationSource _ => true
  | Called (NewRtpDemuxer _ _ _ _ _) _ => twoWay
  | LogInfo _ => true
  | LogError _ => true
  | _ => false
  end.

(** Where [prepareStream] stands before it stores the session: the object is
    still the one of [s0], and [reservations] (its local variable
    [rtpPortReservations]) lists what the reservoir has granted so far. *)
Definition preparing (twoWay : bool) (s0 : State) (reservations : list Z)
  (s : State) : Prop :=
  this s = this s0
  /\ exists evs,
      trace s = trace s0 ++ evs
      /\ reservations = granted evs
      /\ forallb (prepare_event twoWay) evs = true.

Definition is_some {A : Type} (x : option A) : bool :=
  match x with
  | Some _ => true
  | None => false
  end.

(** Whether [prepareStream] sets up two-way audio for this object. *)
Definition twoWayAudio_enabled (d : ProtectStreamingDelegate) : bool :=
  Nat.ltb 0 (List.length (FfmpegOptions.audioEncoder (ffmpegOptions d)))
  && Hints.twoWayAudio (CameraAccessory.hints (protectCamera d)).

(** Whether [startStream] launches the return audio process right away: the
    session has two-way audio and no demuxer to wait for. *)
Definition launches_return_audio (info : SessionInfo.t) (hints : Hints.t)
  : bool :=
  SessionInfo.hasAudioSupport info && Hints.twoWayAudio hints
  && negb (is_some (SessionInfo.rtpDemuxer info)).

(** The FFmpeg processes [startStream] constructs. *)
Definition launched (evs : list event) : list handle :=
  flat_map (fun e => match e with
                     | Called (NewFfmpegStreamingProcess h _ _ _) _ => [h]
                     | _ => []
                     end) evs.

(** The session of [living_room], prepared, started and stopped. *)
Definition watch_and_leave : list operation :=
  [PrepareStream living_room; HandleStreamRequest (START watch);
   HandleStreamRequest (STOP "session-a")].

Definition no_getBitrate (e : event) : bool :=
  match e with
  | Called (GetBitrate _) _ => false
  | _ => true
  end.

(** A camera that is offline. *)
Definition unplugged : CameraAccessory.t :=
  {| CameraAccessory.name := "Garage";
     CameraAccessory.isOnline := false;
     CameraAccessory.hints := CameraAccessory.hints front_door |}.

(** A session prepared while the camera was online; then the camera went
    offline. *)
Definition prepared_then_unplugged : State :=
  run quiet [PrepareStream living_room; CameraChanges unplugged]
    fresh_delegate.

(** As [quiet], but the camera has no stream profile to offer. *)
Definition no_profile : World :=
  {| throws := throws quiet;
     number := number quiet;
     rtsp := fun _ _ => None;
     running := running quiet |}.

(** The session an operation is about, if it is about one. *)
Definition session_of (op : operation) : option string :=
  match op with
  | PrepareStream request => Some (PrepareStreamRequest.sessionID request)
  | HandleStreamRequest (START request) =>
      Some (StartStreamRequest.sessionID request)
  | HandleStreamRequest (RECONFIGURE sessionID _) => Some sessionID
  | HandleStreamRequest (STOP sessionID) => Some sessionID
  | RtpReceived sessionID _ _ => Some sessionID
  | _ => None
  end.

Definition is_shutdown (op : operation) : bool :=
  match op with
  | Shutdown => true
  | _ => false
  end.

(** The records kept under one identifier. *)
Definition records_of (k : string) (d : ProtectStreamingDelegate)
  : option OngoingSession * option SessionInfo.t :=
  (JsObject.get k (ongoingSessions d), JsObject.get k (pendingSessions d)).

(** What holds of the probe-size state from the constructor on. *)
Definition probe_invariant (d : ProtectStreamingDelegate) : Prop :=
  probesizeOverride d <= 5000000
  /\ forall delay,
      probesizeOverrideTimeout d = Some delay ->
      delay = 600000 /\ probesizeOverrideCount d < 10.

(** As [quiet], but every demuxer has been closed. *)
Definition demuxers_closed : World :=
  {| throws := throws quiet;
     number := number quiet;
     rtsp := rtsp quiet;
     running := fun _ _ => false |}.

(** ** Vocabulary for what a method adds to the trace in any world *)

(** The method only adds to the trace. *)
Definition extends {A : Type} (m : M A) : Prop :=
  forall s, exists evs, trace (snd (m s)) = trace s ++ evs.

(** The first thing the method does is the call [c]. *)
Definition starts_with {A : Type} (c : call) (m : M A) : Prop :=
  forall s, exists o evs, trace (snd (m s)) = trace s ++ Called c o :: evs.

(** Both records of a session are gone. *)
Definition session_gone (sessionId : string) (d : ProtectStreamingDelegate)
  : Prop :=
  JsObject.get sessionId (ongoingSessions d) = None
  /\ JsObject.get sessionId (pendingSessions d) = None.

(** Two sessions stream; stopping the FFmpeg process of the first one will
    raise, stopping that of the second will not. *)
Definition first_stop_fails : World :=
  {| throws := fun _ c =>
       match c with
       | FfmpegStop 0%nat => true
       | _ => false
       end;
     number := number quiet;
     rtsp := rtsp quiet;
     running := running quiet |}.

Definition two_viewers : State :=
  run first_stop_fails
    [PrepareStream living_room; HandleStreamRequest (START watch);
     PrepareStream kitchen; HandleStreamRequest (START watch_kitchen)]
    fresh_delegate.

(** ** Identifiers that name an inherited member *)

(** C8 as the specification states it: with no pending session under the
    identifier, [startStream] raises before it does anything that can be
    seen, so before the offline check and without calling the callback. *)
Definition unknown_session_throws (w : World)
  (request : StartStreamRequest.t) (s : State) : Prop :=
  JsObject.get (StartStreamRequest.sessionID request)
    (pendingSessions (this s)) = None ->
  (exists msg, fst (startStream w request s) = Throw (TypeError msg))
  /\ events_of (startStream w request) s = [].

(** A request to start the session ["constructor"]. *)
Definition watch_constructor : StartStreamRequest.t :=
  {| StartStreamRequest.sessionID := "constructor";
     StartStreamRequest.video_width := 1280;
     StartStreamRequest.video_height := 720;
     StartStreamRequest.video_fps := 30;
     StartStreamRequest.video_max_bit_rate := 299;
     StartStreamRequest.audio_packet_time := 20;
     StartStreamRequest.audio_max_bit_rate := 24 |}.

(** A delegate fresh from the constructor, for a camera that is offline. *)
Definition unplugged_delegate : State :=
  initial (constructor unplugged aac_options None).

(** ** Vocabulary for a teardown in which a call may raise *)

(** What [stopStream] does up to the removal of the two records, when
    nothing raises: the first part of [teardown_trace]. *)
Definition teardown_steps (d : ProtectStreamingDelegate)
  (sessionId : string) : list event :=
  (match JsObject.get sessionId (ongoingSessions d) with
   | Some o =>
       stopped (ffmpeg o)
         ++ (match rtpDemuxer o with
             | Some x => [Called (DemuxerClose x) Returned]
             | None => []
             end)
         ++ [LogInfo "Stopped video streaming session."]
         ++ freed (rtpPortReservations o)
   | None => []
   end)
    ++ (match JsObject.get sessionId (pendingSessions d) with
        | Some p => freed (SessionInfo.rtpPortReservations p)
        | None => []
        end).

(** What it does after the removal: the rest of [teardown_trace]. *)
Definition restore_steps (d : ProtectStreamingDelegate)
  (sessionId : string) : list event :=
  if Nat.eqb
       (List.length
          (JsObject.keys (JsObject.delete sessionId (ongoingSessions d))))
       0
  then
    if hksv_isRecording d then [Called RestartTimeshifting Returned]
    else if truthy (savedBitrate d) then
      match rtspEntry d with
      | Some profile =>
          [Called (SetBitrate (Channel.id (RtspEntry.channel profile))
                     (savedBitrate d)) Returned]
      | None => []
      end
    else []
  else [].

(** The object once the two records of [sessionId] are removed and nothing
    else is changed. *)
Definition records_removed (d : ProtectStreamingDelegate)
  (sessionId : string) : ProtectStreamingDelegate :=
  with_ongoingSessions (JsObject.delete sessionId (ongoingSessions d))
    (with_pendingSessions (JsObject.delete sessionId (pendingSessions d)) d).

(** Whether the world lets every call among [evs] return, when they are made
    one after the other from the trace [tr]. *)
Fixpoint passes (w : World) (tr : list event) (evs : list event) : bool :=
  match evs with
  | [] => true
  | e :: rest =>
      (match e with
       | Called c _ => negb (throws w tr c)
       | _ => true
       end)
      && passes w (tr ++ [e]) rest
  end.

(** One event of such a list carried out: a call is made, a log line is
    written. *)
Definition step (w : World) (e : event) : M unit :=
  match e with
  | Called c _ => invoke w c
  | _ => emit e
  end.

(** An event as it stands in such a list: a call that returns. *)
Definition planned (e : event) : bool :=
  match e with
  | Called _ Returned => true
  | Called _ _ => false
  | _ => true
  end.

(** The part of [stopStream_try] that follows its two guards: the records
    are removed, and when no session is left the settings are restored. *)
Definition stopStream_restore (w : World) (sessionId : string) : M unit :=
  modify (fun d =>
            with_pendingSessions
              (JsObject.delete sessionId (pendingSessions d)) d) ;;
  modify (fun d =>
            with_ongoingSessions
              (JsObject.delete sessionId (ongoingSessions d)) d) ;;
  d <- get ;;
  if Nat.eqb (List.length (JsObject.keys (ongoingSessions d))) 0 then
    if hksv_isRecording d
    then invoke w RestartTimeshifting
    else if truthy (savedBitrate d) then
      (match rtspEntry d with
       | Some profile =>
           invoke w (SetBitrate (Channel.id (RtspEntry.channel profile))
                       (savedBitrate d))
       | None => ret tt
       end) ;;
      modify (with_savedBitrate 0)
    else ret tt
  else ret tt.

(** The log line of the [catch] of [stopStream]. *)
Definition teardown_error : event :=
  LogError "Error occurred while ending the FFmpeg video processes: %s.".

(** A session prepared and started under the identifier ["constructor"]. *)
Definition hallway : PrepareStreamRequest.t :=
  {| PrepareStreamRequest.sessionID := "constructor";
     PrepareStreamRequest.targetAddress := "192.168.1.22";
     PrepareStreamRequest.addressVersion := ipv4;
     PrepareStreamRequest.audio_port := 60022;
     PrepareStreamRequest.audio_srtpCryptoSuite := 0;
     PrepareStreamRequest.audio_srtp_key := [];
     PrepareStreamRequest.audio_srtp_salt := [];
     PrepareStreamRequest.video_port := 60020;
     PrepareStreamRequest.video_srtpCryptoSuite := 0;
     PrepareStreamRequest.video_srtp_key := [];
     PrepareStreamRequest.video_srtp_salt := [] |}.

Definition constructor_streaming : State :=
  run quiet
    [PrepareStream hallway; HandleStreamRequest (START watch_constructor)]
    fresh_delegate.

(** ** The security system accessory

    [SecuritySystemPlatformAccessory] translates between the guard modes of
    a Eufy station and the four states of a HomeKit security system, by the
    four mode numbers of the configuration. *)
Module SecuritySystem.

Record Config := { hkHome : Z; hkAway : Z; hkNight : Z; hkOff : Z }.

(** The table [modes] of [convertMode]: HomeKit state, Eufy mode. *)
Definition modes (config : Config) : list (Z * Z) :=
  [(0, hkHome config); (1, hkAway config); (2, hkNight config);
   (3, hkOff config)].

(** [convertMode]: the HomeKit state of the first entry whose Eufy mode is
    [eufyMode]; with no such entry, [modeObj[0].hk] reads a property of
    [undefined]. *)
Definition convertMode (config : Config) (eufyMode : Z) : Result Z :=
  match filter (fun m => snd m =? eufyMode) (modes config) with
  | m :: _ => Ok (fst m)
  | [] => Throw (TypeError "Cannot read properties of undefined (reading 'hk')")
  end.

(** [convertStatusCodeToHomekit]: the [switch] has a case for each Eufy mode
    it knows and falls out of the function ([undefined], here [None]) for
    every other code. *)
Definition convertStatusCodeToHomekit (config : Config) (code : Z)
  : Result (option Z) :=
  let converted :=
    match convertMode config code with
    | Ok hk => Ok (Some hk)
    | Throw e => Throw e
    end in
  if code =? 0 then converted
  else if code =? 1 then converted
  else if code =? 2 then converted
  else if code =? 3 then converted
  else if code =? 4 then converted
  else if code =? 5 then converted
  else if code =? 47 then converted
  else if code =? 63 then converted
  else Ok None.

(** What [handleSecuritySystemTargetStateSet] does to the outside. *)
Inductive action :=
| SetStationProperty (guardMode : Z)
| UpdateCharacteristic (value : Z)
| LogError (message : string)
| Callback.

(** The [switch] of [handleSecuritySystemTargetStateSet]: the Eufy mode
    configured for a HomeKit state, [-1] for any other value. *)
Definition targetMode (config : Config) (value : Z) : Z :=
  if value =? 0 then hkHome config
  else if value =? 1 then hkAway config
  else if value =? 2 then hkNight config
  else if value =? 3 then hkOff config
  else -1.

(** [handleSecuritySystemTargetStateSet].  [setThrows] and [updateThrows]
    say whether [setStationProperty] and [updateCharacteristic] raise; a call
    that raises is recorded, and the [catch] logs. *)
Definition handleSecuritySystemTargetStateSet (config : Config)
  (setThrows updateThrows : bool) (value : Z) : list action :=
  let mode := targetMode config value in
  (if mode =? -1
   then [LogError "Error Setting security mode! (mode returned -1)"]
   else if setThrows
   then [SetStationProperty mode; LogError "Error Setting security mode!"]
   else if updateThrows
   then [SetStationProperty mode; UpdateCharacteristic value;
         LogError "Error Setting security mode!"]
   else [SetStationProperty mode; UpdateCharacteristic value])
    ++ [Callback].

Definition is_callback (a : action) : bool :=
  match a with
  | Callback => true
  | _ => false
  end.

Definition station_modes (actions : list action) : list Z :=
  flat_map (fun a => match a with
                     | SetStationProperty mode => [mode]
                     | _ => []
                     end) actions.

(** The usual configuration: home 1, away 0, night 3, off 63. *)
Definition usual : Config :=
  {| hkHome := 1; hkAway := 0; hkNight := 3; hkOff := 63 |}.

End SecuritySystem.

(** ** The livestream manager

    [ProtectLivestream] keeps the one livestream of a camera that the Eufy
    station delivers, and hands it to whoever asks with [getLocalLivestream].
    A station and a device are known here by what the class reads of them
    (the name of the station, the serial number of the device); streams are
    object identities; the readings of [Date.now()] are arguments, in
    milliseconds.  Debug log lines are left out of the trace. *)
Module Livestream.

Record StationStream := {
  station : string;
  device : string;
  metadata : Z;
  videostream : nat;
  audiostream : nat;
  createdAt : Z
}.

(** The fields of the class, with [serial] for [this.device.getSerial()] and
    [waiting] for the number of listeners that [once('livestream start')]
    has registered and that have not run yet. *)
Record t := {
  stationStream : option StationStream;
  livestreamStartedAt : option Z;
  livestreamIsStarting : bool;
  serial : string;
  waiting : nat
}.

Inductive action :=
| Unpipe (stream : nat)
| Destroy (stream : nat)
| StartStationLivestream (deviceSerial : string)
| StopStationLivestream (deviceSerial : string)
| Returned (stream : StationStream)
| Resolved (stream : StationStream)
| Rejected (reason : string)
| LogWarn (message : string).

(** The state the constructor leaves, for a camera with this serial. *)
Definition constructor (deviceSerial : string) : t :=
  {| stationStream := None; livestreamStartedAt := None;
     livestreamIsStarting := false; serial := deviceSerial; waiting := O |}.

Definition initialize (l : t) : t * list action :=
  ({| stationStream := None; livestreamStartedAt := None;
      livestreamIsStarting := livestreamIsStarting l;
      serial := serial l; waiting := waiting l |},
   match stationStream l with
   | Some current =>
       [Unpipe (audiostream current); Destroy (audiostream current);
        Unpipe (videostream current); Destroy (videostream current)]
   | None => []
   end).

(** [startAndGetLocalLiveStream]: the station is asked to start unless a
    start is already under way, and the caller waits for the next
    ['livestream start']. *)
Definition startAndGetLocalLiveStream (l : t) : t * list action :=
  if negb (livestreamIsStarting l)
  then ({| stationStream := stationStream l;
           livestreamStartedAt := livestreamStartedAt l;
           livestreamIsStarting := true;
           serial := serial l; waiting := S (waiting l) |},
        [StartStationLivestream (serial l)])
  else ({| stationStream := stationStream l;
           livestreamStartedAt := livestreamStartedAt l;
           livestreamIsStarting := livestreamIsStarting l;
           serial := serial l; waiting := S (waiting l) |},
        []).

Definition getLocalLivestream (l : t) : t * list action :=
  match stationStream l with
  | Some current => (l, [Returned current])
  | None => startAndGetLocalLiveStream l
  end.

(** One listener of ['livestream start']. *)
Definition listener (l : t) : t * list action :=
  match stationStream l with
  | Some current =>
      ({| stationStream := stationStream l;
          livestreamStartedAt := livestreamStartedAt l;
          livestreamIsStarting := false;
          serial := serial l; waiting := waiting l |},
       [Resolved current])
  | None => (l, [Rejected "no started livestream found"])
  end.

Fixpoint listeners (n : nat) (l : t) : t * list action :=
  match n with
  | O => (l, [])
  | S n' =>
      let '(l1, out1) := listener l in
      let '(l2, out2) := listeners n' l1 in
      (l2, out1 ++ out2)
  end.

(** [this.emit('livestream start')]: every waiting listener runs, once. *)
Definition emit_livestream_start (l : t) : t * list action :=
  listeners (waiting l)
    {| stationStream := stationStream l;
       livestreamStartedAt := livestreamStartedAt l;
       livestreamIsStarting := livestreamIsStarting l;
       serial := serial l; waiting := O |}.

Definition stopLocalLiveStream (l : t) : t * list action :=
  let '(l1, out) := initialize l in
  (l1, StopStationLivestream (serial l) :: out).

Definition onStationLivestreamStop (deviceSerial : string) (l : t)
  : t * list action :=
  if String.eqb deviceSerial (serial l) then initialize l else (l, []).

(** [onStationLivestreamStart].  [checked], [started] and [created] are the
    three readings of [Date.now()], in the order the method takes them.
    [(checked - createdAt) / 1000 < 5] on whole milliseconds is
    [checked - createdAt < 5000]. *)
Definition onStationLivestreamStart (stationName deviceSerial : string)
  (streamMetadata : Z) (video audio : nat) (checked started created : Z)
  (l : t) : t * list action :=
  if String.eqb deviceSerial (serial l) then
    if match stationStream l with
       | Some current => checked - createdAt current <? 5000
       | None => false
       end
    then (l, [LogWarn "Second livestream was started from station. Ignore."])
    else
      let '(l1, out1) := initialize l in
      let l2 :=
        {| stationStream :=
             Some {| station := stationName; device := deviceSerial;
                     metadata := streamMetadata; videostream := video;
                     audiostream := audio; createdAt := created |};
           livestreamStartedAt := Some started;
           livestreamIsStarting := livestreamIsStarting l1;
           serial := serial l1; waiting := waiting l1 |} in
      let '(l3, out3) := emit_livestream_start l2 in
      (l3, out1 ++ out3)
  else (l, []).

Inductive operation :=
| GetLocalLivestream
| StopLocalLiveStream
| StationLivestreamStop (deviceSerial : string)
| StationLivestreamStart (stationName deviceSerial : string)
    (streamMetadata : Z) (video audio : nat) (checked started created : Z).

Definition perform (op : operation) (l : t) : t * list action :=
  match op with
  | GetLocalLivestream => getLocalLivestream l
  | StopLocalLiveStream => stopLocalLiveStream l
  | StationLivestreamStop deviceSerial =>
      onStationLivestreamStop deviceSerial l
  | StationLivestreamStart stationName deviceSerial streamMetadata video audio
      checked started created =>
      onStationLivestreamStart stationName deviceSerial streamMetadata video
        audio checked started created l
  end.

Fixpoint run (ops : list operation) (l : t) : t * list action :=
  match ops with
  | [] => (l, [])
  | op :: ops' =>
      let '(l1, out1) := perform op l in
      let '(l2, out2) := run ops' l1 in
      (l2, out1 ++ out2)
  end.

(** The station is never asked to start while an earlier request to start
    has not been answered by a livestream: [outstanding] says whether one is
    open at the start of the trace. *)
Fixpoint starts_answered (outstanding : bool) (out : list action) : bool :=
  match out with
  | [] => true
  | StartStationLivestream _ :: rest =>
      negb outstanding && starts_answered true rest
  | Resolved _ :: rest => starts_answered false rest
  | _ :: rest => starts_answered outstanding rest
  end.

(** Whether a request to start is open at the end of the trace. *)
Fixpoint outstanding_after (outstanding : bool) (out : list action) : bool :=
  match out with
  | [] => outstanding
  | StartStationLivestream _ :: rest => outstanding_after true rest
  | Resolved _ :: rest => outstanding_after false rest
  | _ :: rest => outstanding_after outstanding rest
  end.

Definition resolved (out : list action) : list StationStream :=
  flat_map (fun a => match a with
                     | Resolved stream => [stream]
                     | _ => []
                     end) out.

End Livestream.

(** * Properties *)

(** ** The monad *)

Lemma preserves_ret {A : Type} (I : State -> Prop) (a : A) :
  preserves I (ret a).
Proof. intros s Hs. exact Hs. Qed.

Lemma preserves_raise {A : Type} (I : State -> Prop) (e : exn) :
  preserves I (@raise A e).
Proof. intros s Hs. exact Hs. Qed.

Lemma preserves_get (I : State -> Prop) : preserves I get.
Proof. intros s Hs. exact Hs. Qed.

Lemma preserves_bind {A B : Type} (I : State -> Prop) (m : M A)
  (k : A -> M B) :
  preserves I m -> (forall a, preserves I (k a)) -> preserves I (bind m k).
Proof.
  intros Hm Hk s Hs. unfold bind.
  specialize (Hm s Hs). destruct (m s) as [[a | e] s']; cbn in *.
  - apply Hk, Hm.
  - exact Hm.
Qed.

Lemma preserves_try_catch {A : Type} (I : State -> Prop) (m : M A)
  (handler : exn -> M A) :
  preserves I m -> (forall e, preserves I (handler e)) ->
  preserves I (try_catch m handler).
Proof.
  intros Hm Hh s Hs. unfold try_catch.
  specialize (Hm s Hs). destruct (m s) as [[a | e] s']; cbn in *.
  - exact Hm.
  - apply Hh, Hm.
Qed.

Lemma preserves_for_each {A : Type} (I : State -> Prop) (l : list A)
  (f : A -> M unit) :
  (forall x, preserves I (f x)) -> preserves I (for_each l f).
Proof.
  intros Hf. induction l as [| x l IH]; cbn [for_each].
  - apply preserves_ret.
  - apply preserves_bind; [apply Hf | intros _; exact IH].
Qed.

Section OnThis.

Variable J : ProtectStreamingDelegate -> Prop.

Lemma preserves_modify (f : ProtectStreamingDelegate -> ProtectStreamingDelegate) :
  (forall d, J d -> J (f d)) -> preserves (on_this J) (modify f).
Proof. intros Hf s Hs. apply Hf, Hs. Qed.

Lemma preserves_emit (e : event) : preserves (on_this J) (emit e).
Proof. intros s Hs. exact Hs. Qed.

Lemma preserves_fresh : preserves (on_this J) fresh.
Proof. intros s Hs. exact Hs. Qed.

Lemma preserves_invoke (w : World) (c : call) :
  preserves (on_this J) (invoke w c).
Proof. intros s Hs. unfold invoke. destruct (throws w (trace s) c); exact Hs. Qed.

Lemma preserves_invoke_num (w : World) (c : call) :
  preserves (on_this J) (invoke_num w c).
Proof.
  intros s Hs. unfold invoke_num. destruct (throws w (trace s) c); exact Hs.
Qed.

Lemma preserves_invoke_rtsp (w : World) (c : call) :
  preserves (on_this J) (invoke_rtsp w c).
Proof.
  intros s Hs. unfold invoke_rtsp. destruct (throws w (trace s) c); exact Hs.
Qed.

Lemma preserves_ask_num (w : World) (c : call) :
  preserves (on_this J) (ask_num w c).
Proof. intros s Hs. exact Hs. Qed.

Lemma preserves_construct (c : call) : preserves (on_this J) (construct c).
Proof. intros s Hs. exact Hs. Qed.

Lemma preserves_isRunning (w : World) (x : demuxer) :
  preserves (on_this J) (isRunning w x).
Proof. intros s Hs. exact Hs. Qed.

End OnThis.

(** Walks through a method, one monadic construct at a time, and leaves the
    field updates to be checked against the invariant. *)
Ltac frame_step :=
  lazymatch goal with
  | |- preserves _ (bind _ _) => apply preserves_bind; [| intros ?]
  | |- preserves _ (ret _) => apply preserves_ret
  | |- preserves _ (raise _) => apply preserves_raise
  | |- preserves _ get => apply preserves_get
  | |- preserves _ (try_catch _ _) => apply preserves_try_catch; [| intros ?]
  | |- preserves _ (for_each _ _) => apply preserves_for_each; intros ?
  | |- preserves _ (emit _) => apply preserves_emit
  | |- preserves _ (modify _) =>
      apply preserves_modify;
      let d := fresh "d" in let H := fresh "H" in
      intros d H; cbn; try exact H
  | |- preserves _ fresh => apply preserves_fresh
  | |- preserves _ (invoke _ _) => apply preserves_invoke
  | |- preserves _ (invoke_num _ _) => apply preserves_invoke_num
  | |- preserves _ (invoke_rtsp _ _) => apply preserves_invoke_rtsp
  | |- preserves _ (ask_num _ _) => apply preserves_ask_num
  | |- preserves _ (construct _) => apply preserves_construct
  | |- preserves _ (isRunning _ _) => apply preserves_isRunning
  | |- preserves _ (match ?x with _ => _ end) => destruct x
  | |- preserves _ (let _ := _ in _) => cbv zeta
  end.

Ltac frame := repeat frame_step.

(** ** The probe size *)

Section ProbeSize.

Variable w : World.

Lemma adjustProbeSize_fields (s : State) :
  let d := this s in
  let s' := exec adjustProbeSize s in
  fst (adjustProbeSize s) = Ok tt
  /\ probesizeOverrideCount (this s') = probesizeOverrideCount d + 1
  /\ probesizeOverride (this s') = Z.min (probesize d * 2) 5000000
  /\ probesizeOverrideTimeout (this s')
     = (if probesizeOverrideCount d + 1 <? 10 then Some 600000 else None)
  /\ protectCamera (this s') = protectCamera d.
Proof.
  unfold adjustProbeSize, exec, bind, get, modify, emit, ret.
  unfold probesize, with_probesizeOverride, with_probesizeOverrideCount,
    with_probesizeOverrideTimeout. cbn.
  set (e := if truthy (probesizeOverride (this s)) then _ else _).
  destruct (probesizeOverrideTimeout (this s)) eqn:T; cbn; fold e;
    destruct (Z.gtb_spec (e * 2) 5000000) as [E | E]; cbn;
    destruct (probesizeOverrideCount (this s) + 1 <? 10); cbn;
    repeat split; try exact T; lia.
Qed.

Lemma probesize_after_adjust (s : State) :
  probesize (this (exec adjustProbeSize s))
  = Z.min (probesize (this s) * 2) 5000000.
Proof.
  destruct (adjustProbeSize_fields s) as (_ & _ & Ho & _ & Hc).
  unfold probesize at 1. rewrite Ho, Hc. unfold truthy.
  destruct (Z.eqb_spec (Z.min (probesize (this s) * 2) 5000000) 0) as [E | E];
    cbn; [| reflexivity].
  rewrite E. unfold probesize in *. unfold truthy in *.
  destruct (Z.eqb_spec (probesizeOverride (this s)) 0); cbn in *; lia.
Qed.

Lemma timer_fires_fields (s : State) :
  let d := this s in
  let s' := exec timer_fires s in
  probesizeOverrideCount (this s') = probesizeOverrideCount d
  /\ probesizeOverrideTimeout (this s') = None
  /\ probesizeOverride (this s')
     = match probesizeOverrideTimeout d with
       | Some _ => 0
       | None => probesizeOverride d
       end
  /\ protectCamera (this s') = protectCamera d.
Proof.
  unfold timer_fires, probesizeOverrideTimeout_callback, exec, bind, get,
    modify, ret. cbn.
  destruct (probesizeOverrideTimeout (this s)) eqn:E; cbn; auto.
Qed.

Lemma reservePort_frame (J : ProtectStreamingDelegate -> Prop)
  (captured : bool * list Z) (ipFamily : AddressVersion) (portCount : Z) :
  preserves (on_this J) (reservePort w captured ipFamily portCount).
Proof. unfold reservePort. frame. Qed.

Lemma prepareStream_probe (p : Z * Z * option Z)
  (request : PrepareStreamRequest.t) :
  preserves (on_this (fun d => probe_state d = p)) (prepareStream w request).
Proof.
  unfold prepareStream.
  repeat first [apply reservePort_frame | frame_step].
Qed.

Lemma launchReturnAudio_probe (p : Z * Z * option Z) (sessionID : string) :
  preserves (on_this (fun d => probe_state d = p))
    (launchReturnAudio sessionID).
Proof. unfold launchReturnAudio. frame. Qed.

Lemma startStream_probe (p : Z * Z * option Z)
  (request : StartStreamRequest.t) :
  preserves (on_this (fun d => probe_state d = p)) (startStream w request).
Proof.
  unfold startStream, startStream_inherited, startStream_saveBitrate,
    startStream_launch, talkbackUnavailable.
  repeat first [apply launchReturnAudio_probe | frame_step].
Qed.

Lemma stopStream_probe (p : Z * Z * option Z) (sessionId : string) :
  preserves (on_this (fun d => probe_state d = p)) (stopStream w sessionId).
Proof. unfold stopStream, stopStream_try, stopStream_catch. frame. Qed.

Lemma perform_probe (p : Z * Z * option Z) (op : operation) :
  is_adjustment op = false -> op <> TimerFires ->
  preserves (on_this (fun d => probe_state d = p)) (perform w op).
Proof.
  intros Ha Ht. destruct op; cbn [perform]; try discriminate; try congruence.
  - apply prepareStream_probe.
  - destruct request; cbn [handleStreamRequest].
    + apply startStream_probe.
    + frame.
    + repeat first [apply stopStream_probe | frame_step].
  - unfold handleSnapshotRequest. frame.
  - unfold startStream_resume, talkbackUnavailable.
    repeat first [apply launchReturnAudio_probe | frame_step].
  - unfold shutdown. repeat first [apply stopStream_probe | frame_step].
  - frame.
  - frame.
Qed.

End ProbeSize.

Section ProbeSizeHistory.

Variable w : World.

Lemma perform_probe_state (op : operation) (s : State) :
  is_adjustment op = false -> op <> TimerFires ->
  probesizeOverride (this (exec (perform w op) s)) = probesizeOverride (this s)
  /\ probesizeOverrideCount (this (exec (perform w op) s))
     = probesizeOverrideCount (this s)
  /\ probesizeOverrideTimeout (this (exec (perform w op) s))
     = probesizeOverrideTimeout (this s).
Proof.
  intros Ha Ht.
  pose proof (perform_probe w (probe_state (this s)) op Ha Ht s eq_refl) as H.
  unfold on_this, probe_state in H. inversion H. auto.
Qed.

Lemma perform_count (op : operation) (s : State) :
  probesizeOverrideCount (this (exec (perform w op) s))
  = probesizeOverrideCount (this s) + (if is_adjustment op then 1 else 0).
Proof.
  destruct op;
    try (lazymatch goal with
         | |- context [perform w ?o] =>
             destruct (perform_probe_state o s eq_refl ltac:(discriminate))
               as (_ & Hc & _)
         end;
         cbn [is_adjustment]; rewrite Hc; lia).
  - cbn [perform is_adjustment].
    destruct (adjustProbeSize_fields s) as (_ & Hc & _). exact Hc.
  - cbn [perform is_adjustment].
    destruct (timer_fires_fields s) as (Hc & _). rewrite Hc. lia.
Qed.

Lemma run_count (ops : list operation) (s : State) :
  probesizeOverrideCount (this (run w ops s))
  = probesizeOverrideCount (this s) + Z.of_nat (adjustments ops).
Proof.
  revert s. induction ops as [| op ops IH]; intros s; cbn [run].
  - unfold adjustments. cbn. lia.
  - rewrite IH, perform_count. unfold adjustments. cbn [filter].
    destruct (is_adjustment op); cbn [List.length]; lia.
Qed.

(** Once the counter has reached ten no timer is armed, and this stays so. *)
Lemma perform_permanent (op : operation) (s : State) :
  (10 <= probesizeOverrideCount (this s) ->
   probesizeOverrideTimeout (this s) = None) ->
  10 <= probesizeOverrideCount (this (exec (perform w op) s)) ->
  probesizeOverrideTimeout (this (exec (perform w op) s)) = None.
Proof.
  intros Hinv.
  destruct op;
    try (lazymatch goal with
         | |- context [perform w ?o] =>
             destruct (perform_probe_state o s eq_refl ltac:(discriminate))
               as (_ & Hc & Ht)
         end;
         rewrite Hc, Ht; exact Hinv).
  - cbn [perform].
    destruct (adjustProbeSize_fields s) as (_ & Hc & _ & Ht & _).
    rewrite Hc, Ht. intros H10.
    destruct (Z.ltb_spec (probesizeOverrideCount (this s) + 1) 10);
      [lia | reflexivity].
  - cbn [perform]. intros _.
    destruct (timer_fires_fields s) as (_ & Ht & _). exact Ht.
Qed.

Lemma run_permanent (ops : list operation) (s : State) :
  (10 <= probesizeOverrideCount (this s) ->
   probesizeOverrideTimeout (this s) = None) ->
  10 <= probesizeOverrideCount (this (run w ops s)) ->
  probesizeOverrideTimeout (this (run w ops s)) = None.
Proof.
  revert s. induction ops as [| op ops IH]; intros s Hinv; cbn [run].
  - exact Hinv.
  - apply IH. apply perform_permanent. exact Hinv.
Qed.

(** With no timer armed, only [adjustProbeSize] changes the override. *)
Lemma run_override_kept (ops : list operation) (s : State) :
  adjustments ops = O ->
  probesizeOverrideTimeout (this s) = None ->
  probesizeOverride (this (run w ops s)) = probesizeOverride (this s).
Proof.
  revert s. induction ops as [| op ops IH]; intros s Hn Ht; cbn [run].
  - reflexivity.
  - unfold adjustments in Hn. cbn [filter] in Hn.
    destruct (is_adjustment op) eqn:Ha; [discriminate |].
    assert (Hstep :
      probesizeOverride (this (exec (perform w op) s))
      = probesizeOverride (this s)
      /\ probesizeOverrideTimeout (this (exec (perform w op) s)) = None).
    { destruct op; try discriminate;
        try (lazymatch goal with
             | |- context [perform w ?o] =>
                 destruct (perform_probe_state o s eq_refl ltac:(discriminate))
                   as (Ho & _ & Ht')
             end;
             rewrite Ho, Ht'; split; [reflexivity | exact Ht]).
      cbn [perform].
      destruct (timer_fires_fields s) as (_ & Ht' & Ho & _).
      rewrite Ho, Ht, Ht'. split; reflexivity. }
    destruct Hstep as [Ho Ht'].
    rewrite IH; [exact Ho | exact Hn | exact Ht'].
Qed.

Lemma probesize_after_adjustments (n : nat) (s : State) :
  probesize (this (run w (repeat AdjustProbeSize n) s))
  = match n with
    | O => probesize (this s)
    | S _ => Z.min (probesize (this s) * 2 ^ Z.of_nat n) 5000000
    end.
Proof.
  revert s. induction n as [| n IH]; intros s.
  - reflexivity.
  - cbn [repeat run perform]. rewrite IH, probesize_after_adjust.
    destruct n as [| m].
    + change (2 ^ Z.of_nat 1) with 2. reflexivity.
    + set (e := probesize (this s)).
      replace (Z.of_nat (S (S m))) with (Z.of_nat (S m) + 1) by lia.
      rewrite Z.pow_add_r, Z.pow_1_r by lia.
      assert (Hp : 1 <= 2 ^ Z.of_nat (S m)) by (apply Z.pow_le_mono_r with (b := 0) (a := 2) (c := Z.of_nat (S m)); lia).
      set (p := 2 ^ Z.of_nat (S m)) in *.
      destruct (Z.min_spec (e * 2) 5000000) as [[H1 H2] | [H1 H2]];
        rewrite H2.
      * f_equal. ring.
      * rewrite !Z.min_r; nia.
Qed.

Lemma override_after_adjustments (n : nat) (s : State) :
  0 < probesize (this s) ->
  0 < probesizeOverride (this (run w (repeat AdjustProbeSize (S n)) s)).
Proof.
  revert s. induction n as [| n IH]; intros s Hpos.
  - cbn [repeat run perform].
    destruct (adjustProbeSize_fields s) as (_ & _ & Ho & _). rewrite Ho. lia.
  - change (repeat AdjustProbeSize (S (S n)))
      with (AdjustProbeSize :: repeat AdjustProbeSize (S n)).
    cbn [run perform]. apply IH. rewrite probesize_after_adjust. lia.
Qed.

Lemma adjustments_repeat (n : nat) :
  adjustments (repeat AdjustProbeSize n) = n.
Proof.
  unfold adjustments. induction n as [| n IH]; cbn; [reflexivity |].
  f_equal. exact IH.
Qed.

End ProbeSizeHistory.

(** C4.  Starting with a failure counter of zero, each of the first nine calls
    of [adjustProbeSize] leaves a decay timer of ten minutes armed, and when
    that timer runs out the override is back to zero.  From the tenth call on
    no timer is armed: whatever happens to the delegate afterwards, no timer
    is ever armed again, the override is changed by nothing but further calls
    of [adjustProbeSize], and it is positive when the probe size was. *)
Theorem adjustProbeSize_ten_failures (w : World) (s : State) (n : nat) :
  probesizeOverrideCount (this s) = 0 ->
  let s' := run w (repeat AdjustProbeSize n) s in
  ((1 <= n < 10)%nat ->
     probesizeOverrideTimeout (this s') = Some (10 * 60 * 1000)
     /\ probesizeOverride (this (exec timer_fires s')) = 0
     /\ probesizeOverrideTimeout (this (exec timer_fires s')) = None)
  /\ ((10 <= n)%nat ->
        probesizeOverrideTimeout (this s') = None
        /\ (0 < probesize (this s) -> 0 < probesizeOverride (this s'))
        /\ forall ops : list operation,
            probesizeOverrideTimeout (this (run w ops s')) = None
            /\ (adjustments ops = O ->
                probesizeOverride (this (run w ops s'))
                = probesizeOverride (this s'))).
Proof.
  intros Hc s'.
  assert (Hn : probesizeOverrideCount (this s') = Z.of_nat n).
  { unfold s'. rewrite run_count, adjustments_repeat. lia. }
  split.
  - intros [H1 H9]. destruct n as [| m]; [lia |].
    assert (Ht : probesizeOverrideTimeout (this s') = Some 600000).
    { unfold s'. rewrite <- Nat.add_1_r, repeat_app.
      clear Hn s'.
      assert (Hrun : forall a b s0, run w (a ++ b) s0 = run w b (run w a s0)).
      { induction a as [| x a IH]; intros b s0; cbn [app run];
          [reflexivity | apply IH]. }
      rewrite Hrun. cbn [repeat run perform].
      destruct (adjustProbeSize_fields (run w (repeat AdjustProbeSize m) s))
        as (_ & _ & _ & Ht & _).
      rewrite Ht, run_count, adjustments_repeat, Hc.
      destruct (Z.ltb_spec (0 + Z.of_nat m + 1) 10); [reflexivity | lia]. }
    split; [exact Ht |].
    destruct (timer_fires_fields s') as (_ & Hnone & Ho & _).
    rewrite Ho, Ht. split; [reflexivity | exact Hnone].
  - intros H10.
    assert (Ht : probesizeOverrideTimeout (this s') = None).
    { unfold s'. apply run_permanent; [rewrite Hc; lia |].
      fold s'. lia. }
    split; [exact Ht |]. split.
    + intros Hpos. destruct n as [| m]; [lia |].
      apply override_after_adjustments. exact Hpos.
    + intros ops. split.
      * apply run_permanent; [intros _; exact Ht |].
        rewrite run_count. lia.
      * intros Hno. apply run_override_kept; assumption.
Qed.

Lemma adjustProbeSize_ten_failures_witness :
  probesizeOverrideTimeout
    (this (run quiet (repeat AdjustProbeSize 3) fresh_delegate))
  = Some (10 * 60 * 1000)
  /\ probesizeOverrideTimeout
       (this (run quiet (repeat AdjustProbeSize 10) fresh_delegate))
     = None.
Proof.
  split.
  - exact (proj1 (proj1 (adjustProbeSize_ten_failures quiet fresh_delegate 3
                           eq_refl) ltac:(lia))).
  - exact (proj1 (proj2 (adjustProbeSize_ten_failures quiet fresh_delegate 10
                           eq_refl) ltac:(lia))).
Defined.

(** C5.  Each call of [adjustProbeSize] adds one to the failure counter and
    sets the override to twice the effective probe size, capped at 5,000,000;
    the effective probe size is the override when it is not zero and the
    camera hint otherwise.  Hence, from an override of zero and a hint [h],
    [n] calls in a row (at least one, or any number when [h] is within the
    cap) leave an effective probe size of [min (h * 2^n) 5000000]. *)
Theorem adjustProbeSize_doubles (w : World) (s : State) (h : Z) (n : nat) :
  probesizeOverride (this s) = 0 ->
  hint s = h ->
  (0 < n)%nat \/ h <= 5000000 ->
  let s' := run w (repeat AdjustProbeSize n) s in
  probesize (this s') = Z.min (h * 2 ^ Z.of_nat n) 5000000
  /\ probesizeOverrideCount (this s')
     = probesizeOverrideCount (this s) + Z.of_nat n
  /\ (forall s0 : State,
        probesizeOverrideCount (this (exec adjustProbeSize s0))
        = probesizeOverrideCount (this s0) + 1
        /\ probesizeOverride (this (exec adjustProbeSize s0))
           = Z.min (2 * probesize (this s0)) 5000000)
  /\ (forall d : ProtectStreamingDelegate,
        probesize d
        = if probesizeOverride d =? 0
          then Hints.probesize (CameraAccessory.hints (protectCamera d))
          else probesizeOverride d).
Proof.
  intros Ho Hh Hn s'.
  assert (He : probesize (this s) = h).
  { unfold probesize, truthy. rewrite Ho. exact Hh. }
  repeat split.
  - unfold s'. rewrite probesize_after_adjustments, He.
    destruct n as [| m]; [| reflexivity].
    cbn. destruct Hn as [Hn | Hn]; lia.
  - unfold s'. rewrite run_count, adjustments_repeat. reflexivity.
  - destruct (adjustProbeSize_fields s0) as (_ & Hc & _). exact Hc.
  - destruct (adjustProbeSize_fields s0) as (_ & _ & Hov & _).
    rewrite Hov. f_equal. ring.
  - intros d. unfold probesize, truthy.
    destruct (probesizeOverride d =? 0); reflexivity.
Qed.

Lemma adjustProbeSize_doubles_witness :
  probesize (this (run quiet (repeat AdjustProbeSize 3) fresh_delegate))
  = 131072
  /\ probesize (this (run quiet (repeat AdjustProbeSize 9) fresh_delegate))
     = 5000000.
Proof.
  split.
  - exact (proj1 (adjustProbeSize_doubles quiet fresh_delegate 16384 3
                    eq_refl eq_refl (or_introl (Nat.lt_0_succ 2)))).
  - exact (proj1 (adjustProbeSize_doubles quiet fresh_delegate 16384 9
                    eq_refl eq_refl (or_introl (Nat.lt_0_succ 8)))).
Defined.

(** C9.  Whatever happens to a delegate, the failure counter never goes down:
    after any sequence of operations it is the counter before plus the number
    of calls of [adjustProbeSize] among them.  The decay timer leaves the
    counter alone and only clears the override.  So, from a counter of zero,
    ten calls in total leave no timer armed, however many decays or other
    operations came in between. *)
Theorem probesizeOverrideCount_cumulative (w : World)
  (ops : list operation) (s : State) :
  probesizeOverrideCount (this s) = 0 ->
  let s' := run w ops s in
  probesizeOverrideCount (this s) <= probesizeOverrideCount (this s')
  /\ probesizeOverrideCount (this s') = Z.of_nat (adjustments ops)
  /\ (forall s0 : State,
        probesizeOverrideCount (this (exec timer_fires s0))
        = probesizeOverrideCount (this s0)
        /\ (probesizeOverrideTimeout (this s0) <> None ->
            probesizeOverride (this (exec timer_fires s0)) = 0))
  /\ (forall (op : operation) (s0 : State),
        probesizeOverrideCount (this s0)
        <= probesizeOverrideCount (this (exec (perform w op) s0)))
  /\ ((10 <= adjustments ops)%nat ->
      probesizeOverrideTimeout (this s') = None).
Proof.
  intros Hc s'.
  assert (Hn : probesizeOverrideCount (this s') = Z.of_nat (adjustments ops)).
  { unfold s'. rewrite run_count, Hc. lia. }
  split; [rewrite Hn, Hc; lia |].
  split; [exact Hn |].
  split; [| split].
  - intros s0. destruct (timer_fires_fields s0) as (H & _ & Ho & _).
    split; [exact H |].
    intros Harmed. rewrite Ho.
    destruct (probesizeOverrideTimeout (this s0));
      [reflexivity | congruence].
  - intros op s0. rewrite perform_count. destruct (is_adjustment op); lia.
  - intros H10. unfold s'. apply run_permanent; [rewrite Hc; lia |].
    fold s'. lia.
Qed.

Lemma probesizeOverrideCount_cumulative_witness :
  probesizeOverrideTimeout (this (run quiet flaky_stream fresh_delegate))
  = None.
Proof.
  exact (proj2 (proj2 (proj2 (proj2
           (probesizeOverrideCount_cumulative quiet flaky_stream
              fresh_delegate eq_refl)))) (le_n 10)).
Defined.

(** ** Traces *)

Lemma events_of_app {A : Type} (m : M A) (s : State) (evs : list event) :
  trace (exec m s) = trace s ++ evs -> events_of m s = evs.
Proof.
  intros H. unfold events_of. rewrite H.
  rewrite skipn_app, skipn_all, Nat.sub_diag. reflexivity.
Qed.

(** ** startStream without a pending session *)

(** C8, as the code has it.  When no pending session is recorded under the
    identifier of the request, the identifier is not the name of a member
    that every object inherits, and [pendingSessions] has the prototype it
    was made with, [startStream] raises a [TypeError] at its first property
    access: the state is untouched, so the trace shows no
    offline check and no call of the callback, and the exception leaves
    [handleStreamRequest] as well. *)
Theorem startStream_unknown_session (w : World)
  (request : StartStreamRequest.t) (s : State) :
  JsObject.plain (pendingSessions (this s)) = true ->
  JsObject.inherited (StartStreamRequest.sessionID request) = false ->
  JsObject.get (StartStreamRequest.sessionID request)
    (pendingSessions (this s)) = None ->
  (exists msg, fst (startStream w request s) = Throw (TypeError msg))
  /\ exec (startStream w request) s = s
  /\ events_of (startStream w request) s = []
  /\ handleStreamRequest w (START request) s = startStream w request s.
Proof.
  intros _ Hname Hnone.
  assert (E : exists msg, startStream w request s = (Throw (TypeError msg), s)).
  { unfold startStream, bind, get, raise. cbn. rewrite Hnone, Hname. eauto. }
  destruct E as (msg & E).
  split; [exists msg; rewrite E; reflexivity |].
  split; [unfold exec; rewrite E; reflexivity |].
  split; [| reflexivity].
  apply events_of_app. unfold exec. rewrite E. cbn. rewrite app_nil_r.
  reflexivity.
Qed.

Lemma startStream_unknown_session_witness :
  exec (startStream quiet watch) fresh_delegate = fresh_delegate.
Proof.
  exact (proj1 (proj2 (startStream_unknown_session quiet watch fresh_delegate
                         eq_refl eq_refl eq_refl))).
Defined.

(** C8 as stated fails: no session is pending under ["constructor"], yet
    [pendingSessions["constructor"]] is the function every object inherits,
    and reading [addressVersion] of it raises nothing.  With the camera
    offline [startStream] then returns normally, after the offline check has
    logged its error and the callback has been called with it. *)
Lemma startStream_inherited_name :
  ~ unknown_session_throws quiet watch_constructor unplugged_delegate.
Proof.
  intros H. destruct (H eq_refl) as [_ Hevs]. vm_compute in Hevs.
  discriminate Hevs.
Qed.

(** ** prepareStream and the port reservoir *)

Lemma returns_bind {A B : Type} (P : State -> Prop) (m : M A)
  (k : A -> M B) (Q1 : A -> State -> Prop) (Q : B -> State -> Prop) :
  returns P m Q1 -> (forall a, returns (Q1 a) (k a) Q) ->
  returns P (bind m k) Q.
Proof.
  intros Hm Hk s Hs. unfold bind.
  destruct (Hm s Hs) as (a & E & Hq).
  destruct (m s) as [r s1]. cbn in E, Hq. subst r. apply Hk, Hq.
Qed.

Lemma returns_ret {A : Type} (P : State -> Prop) (a : A) :
  returns P (ret a) (fun _ s => P s).
Proof. intros s Hs. exists a. split; [reflexivity | exact Hs]. Qed.

Lemma returns_get (P : State -> Prop) : returns P get (fun _ s => P s).
Proof. intros s Hs. exists (this s). split; [reflexivity | exact Hs]. Qed.

Lemma failed_is_reservation (e : event) :
  is_failed_reservation e = true -> is_reservation e = true.
Proof.
  destruct e as [c o | | | | |]; cbn; try congruence.
  destruct c; cbn; congruence.
Qed.

Lemma quiet_no_failure (evs : list event) (e : event) :
  existsb is_failed_reservation evs = false ->
  quiet_after_failure (evs ++ [e]) = true
  /\ (is_failed_reservation e = false ->
      existsb is_failed_reservation (evs ++ [e]) = false).
Proof.
  induction evs as [| a evs IH]; cbn.
  - intros _. destruct (is_failed_reservation e); auto.
  - intros H. apply orb_false_iff in H. destruct H as [Ha Hr].
    rewrite Ha. cbn. apply IH, Hr.
Qed.

Lemma quiet_other (evs : list event) (e : event) :
  quiet_after_failure evs = true -> is_reservation e = false ->
  quiet_after_failure (evs ++ [e]) = true.
Proof.
  intros Hq He. induction evs as [| a evs IH]; cbn in *.
  - destruct (is_failed_reservation e) eqn:F; [| reflexivity].
    apply failed_is_reservation in F. congruence.
  - destruct (is_failed_reservation a).
    + rewrite forallb_app, Hq. cbn. rewrite He. reflexivity.
    + apply IH, Hq.
Qed.

Lemma quiet_split (before after : list event) (e : event) :
  quiet_after_failure (before ++ e :: after) = true ->
  is_failed_reservation e = true ->
  Forall (fun e' => is_reservation e' = false) after.
Proof.
  intros Hq He. induction before as [| a before IH]; cbn in Hq.
  - rewrite He in Hq. rewrite forallb_forall in Hq.
    apply Forall_forall. intros x Hx. specialize (Hq x Hx).
    destruct (is_reservation x); [discriminate | reflexivity].
  - destruct (is_failed_reservation a).
    + rewrite forallb_app in Hq. cbn in Hq.
      rewrite (failed_is_reservation e He) in Hq. cbn in Hq.
      rewrite andb_false_r in Hq. discriminate.
    + apply IH, Hq.
Qed.

Section Reserving.

Variable w : World.
Variable tr0 : list event.

Lemma reserving_event (failed : bool) (s : State) (e : event) :
  is_reservation e = false -> is_prepare_callback e = false ->
  reserving tr0 failed s -> reserving tr0 failed (update_trace s e).
Proof.
  intros Hr Hc (evs & Ht & Hq & Hf & Hcb). exists (evs ++ [e]).
  cbn. rewrite Ht, app_assoc. split; [reflexivity |].
  split; [apply quiet_other; assumption |]. split.
  - intros Hfalse. rewrite existsb_app, (Hf Hfalse). cbn.
    destruct (is_failed_reservation e) eqn:F; [| reflexivity].
    apply failed_is_reservation in F. congruence.
  - rewrite forallb_app, Hcb. cbn. rewrite Hc. reflexivity.
Qed.

Lemma returns_modify (failed : bool)
  (f : ProtectStreamingDelegate -> ProtectStreamingDelegate) :
  returns (reserving tr0 failed) (modify f)
    (fun _ s => reserving tr0 failed s).
Proof. intros s Hs. exists tt. split; [reflexivity | exact Hs]. Qed.

Lemma returns_fresh (failed : bool) :
  returns (reserving tr0 failed) fresh (fun _ s => reserving tr0 failed s).
Proof. intros s Hs. exists (allocated s). split; [reflexivity | exact Hs]. Qed.

Lemma returns_emit (failed : bool) (e : event) :
  is_reservation e = false -> is_prepare_callback e = false ->
  returns (reserving tr0 failed) (emit e) (fun _ s => reserving tr0 failed s).
Proof.
  intros Hr Hc s Hs. exists tt. split; [reflexivity |].
  apply reserving_event; assumption.
Qed.

Lemma returns_ask_num (failed : bool) (c : call) :
  is_reservation (Called c Returned) = false ->
  returns (reserving tr0 failed) (ask_num w c)
    (fun _ s => reserving tr0 failed s).
Proof.
  intros Hr s Hs. eexists. split; [reflexivity |].
  apply reserving_event; [destruct c; cbn in *; congruence | reflexivity | exact Hs].
Qed.

Lemma reservePort_reserving (captured : bool * list Z)
  (ipFamily : AddressVersion) (portCount : Z) :
  returns (reserving tr0 (fst captured))
    (reservePort w captured ipFamily portCount)
    (fun r s => reserving tr0 (fst (snd r)) s).
Proof.
  destruct captured as [[|] reservations]; intros s Hs; unfold reservePort.
  - eexists. split; [reflexivity | exact Hs].
  - unfold bind, ask_num, ret. cbn.
    set (n := number w (trace s) (ReservePort ipFamily portCount)).
    destruct Hs as (evs & Ht & Hq & Hf & Hcb).
    specialize (Hf eq_refl).
    destruct (quiet_no_failure evs
                (Called (ReservePort ipFamily portCount) (ReturnedNum n)) Hf)
      as [Hq' Hf'].
    assert (Hcb' :
      forallb (fun e => negb (is_prepare_callback e))
        (evs ++ [Called (ReservePort ipFamily portCount) (ReturnedNum n)])
      = true).
    { rewrite forallb_app, Hcb. reflexivity. }
    destruct (n =? -1) eqn:E; eexists; (split; [reflexivity |]);
      exists (evs ++ [Called (ReservePort ipFamily portCount) (ReturnedNum n)]);
      cbn; rewrite Ht, app_assoc; (split; [reflexivity |]);
      (split; [exact Hq' |]); (split; [| exact Hcb']).
    + discriminate.
    + intros _. apply Hf'. cbn. exact E.
Qed.

Lemma returns_ret_captured (p : Z) (captured : bool * list Z) :
  returns (reserving tr0 (fst captured)) (ret (p, captured))
    (fun r s => reserving tr0 (fst (snd r)) s).
Proof. intros s Hs. eexists. split; [reflexivity | exact Hs]. Qed.

Lemma returns_callback (failed : bool) (response : PrepareStreamResponse.t) :
  returns (reserving tr0 failed) (emit (PrepareCallback response))
    (fun _ s =>
       exists evs response',
         trace s = tr0 ++ evs ++ [PrepareCallback response']
         /\ quiet_after_failure evs = true
         /\ forallb (fun e => negb (is_prepare_callback e)) evs = true).
Proof.
  intros s (evs & Ht & Hq & _ & Hcb). exists tt. split; [reflexivity |].
  exists evs, response. cbn. rewrite Ht, app_assoc. auto.
Qed.

Ltac reserve_step :=
  eapply returns_bind;
  [ first [ apply returns_get
          | apply reservePort_reserving
          | apply returns_ask_num; reflexivity
          | apply returns_emit; reflexivity
          | apply returns_fresh
          | apply returns_modify
          | apply returns_ret ]
  | let a := fresh "a" in intros a; cbv beta ].

Lemma prepareStream_reserving (request : PrepareStreamRequest.t) :
  returns (reserving tr0 false) (prepareStream w request)
    (fun _ s =>
       exists evs response,
         trace s = tr0 ++ evs ++ [PrepareCallback response]
         /\ quiet_after_failure evs = true
         /\ forallb (fun e => negb (is_prepare_callback e)) evs = true).
Proof.
  unfold prepareStream.
  eapply returns_bind; [apply returns_get | intros d]. cbv zeta.
  eapply returns_bind;
    [apply (reservePort_reserving (false, [])) | intros [p1 c1]].
  cbn [fst snd].
  destruct (Nat.ltb 0 (List.length (FfmpegOptions.audioEncoder (ffmpegOptions d))));
    destruct (Hints.twoWayAudio (CameraAccessory.hints (protectCamera d)));
    cbn [andb negb].
  all: eapply returns_bind;
    [first [apply reservePort_reserving | apply returns_ret_captured]
    | intros [p2 c2]]; cbn [fst snd].
  all: eapply returns_bind;
    [first [apply reservePort_reserving | apply returns_ret_captured]
    | intros [p3 c3]]; cbn [fst snd].
  all: reserve_step.
  all: eapply returns_bind;
    [first [apply returns_emit; reflexivity | apply returns_ret] | intros ?; cbv beta].
  all: eapply returns_bind;
    [first [ apply returns_ret
           | reserve_step;
             eapply returns_bind;
             [unfold construct; apply returns_emit; reflexivity | intros ?; cbv beta];
             eapply returns_bind;
             [apply returns_emit; reflexivity | intros ?; cbv beta];
             apply returns_ret ]
    | intros x].
  all: eapply returns_bind; [apply reservePort_reserving | intros [p4 c4]];
    cbn [fst snd].
  all: reserve_step.
  all: apply returns_bind with (Q1 := fun _ s => reserving tr0 (fst c4) s);
    [destruct (fst c4);
     [apply returns_emit; reflexivity | apply returns_ret]
    | intros ?; cbv beta].
  all: eapply returns_bind; [apply returns_modify | intros ?; cbv beta].
  all: apply returns_callback.
Qed.

End Reserving.

(** C6.  [prepareStream] always returns after calling the callback once, as
    the last thing it does and with a response; and once the reservoir has
    answered [-1] to a reservation, the rest of the attempt makes no further
    reservation call. *)
Theorem prepareStream_reservation_failure (w : World)
  (request : PrepareStreamRequest.t) (s : State) :
  let evs := events_of (prepareStream w request) s in
  fst (prepareStream w request s) = Ok tt
  /\ (exists before response,
        evs = before ++ [PrepareCallback response]
        /\ Forall (fun e => is_prepare_callback e = false) before)
  /\ (forall before e after,
        evs = before ++ e :: after ->
        is_failed_reservation e = true ->
        Forall (fun e' => is_reservation e' = false) after).
Proof.
  intros evs.
  destruct (prepareStream_reserving w (trace s) request s) as
    (a & E & done & response & Ht & Hq & Hcb).
  { exists []. rewrite app_nil_r. cbn. auto. }
  assert (Hevs : evs = done ++ [PrepareCallback response]).
  { apply events_of_app. exact Ht. }
  destruct a. split; [exact E |]. split.
  - exists done, response. split; [exact Hevs |].
    apply Forall_forall. intros x Hx.
    rewrite forallb_forall in Hcb. specialize (Hcb x Hx).
    destruct (is_prepare_callback x); [discriminate | reflexivity].
  - intros before e after Hsplit He.
    apply (quiet_split before after e); [| exact He].
    rewrite <- Hsplit, Hevs. apply quiet_other; [exact Hq | reflexivity].
Qed.

Lemma prepareStream_reservation_failure_witness :
  Forall (fun e' => is_reservation e' = false)
    (skipn 2 (events_of (prepareStream one_port_left living_room)
                intercom_delegate)).
Proof.
  exact (proj2 (proj2 (prepareStream_reservation_failure one_port_left
                         living_room intercom_delegate))
           [Called (ReservePort ipv4 1) (ReturnedNum 50000)]
           (Called (ReservePort ipv4 1) (ReturnedNum (-1)))
           _ eq_refl eq_refl).
Defined.

(** ** Objects as maps *)

Lemma get_delete {V : Type} (k k' : string) (o : JsObject.t V) :
  JsObject.get k (JsObject.delete k' o)
  = if String.eqb k' k then None else JsObject.get k o.
Proof.
  unfold JsObject.delete.
  induction o as [| [k0 v] o IH]; cbn.
  - destruct (String.eqb k' k); reflexivity.
  - destruct (String.eqb_spec k' k0) as [E0 | N0]; cbn.
    + subst k0. rewrite IH.
      destruct (String.eqb_spec k' k) as [E | N].
      * reflexivity.
      * destruct (String.eqb_spec k k'); [congruence | reflexivity].
    + destruct (String.eqb_spec k k0) as [E | N].
      * subst k0. destruct (String.eqb_spec k' k); [congruence | reflexivity].
      * exact IH.
Qed.

Lemma get_delete_same {V : Type} (k : string) (o : JsObject.t V) :
  JsObject.get k (JsObject.delete k o) = None.
Proof. rewrite get_delete, String.eqb_refl. reflexivity. Qed.

Lemma delete_delete {V : Type} (k : string) (o : JsObject.t V) :
  JsObject.delete k (JsObject.delete k o) = JsObject.delete k o.
Proof.
  unfold JsObject.delete.
  induction o as [| [k0 v] o IH]; cbn; [reflexivity |].
  destruct (String.eqb k k0) eqn:E; cbn; [exact IH |].
  rewrite E. cbn. f_equal. exact IH.
Qed.

Lemma get_none_all {V : Type} (o : JsObject.t V) :
  (forall k, JsObject.get k o = None) -> o = [].
Proof.
  destruct o as [| [k v] o]; [reflexivity |].
  intros H. specialize (H k). cbn in H. rewrite String.eqb_refl in H.
  discriminate.
Qed.

Lemma get_not_key {V : Type} (k : string) (o : JsObject.t V) :
  existsb (String.eqb k) (JsObject.keys o) = false -> JsObject.get k o = None.
Proof.
  induction o as [| [k0 v] o IH]; cbn; [reflexivity |].
  destruct (String.eqb k k0); cbn; [discriminate | exact IH].
Qed.

Lemma keys_nil {V : Type} (o : JsObject.t V) :
  JsObject.keys o = [] -> o = [].
Proof. destruct o; [reflexivity | discriminate]. Qed.

(** ** stopStream when nothing raises *)

Section Teardown.

Variable w : World.
Hypothesis quiet_world : no_throws w.

Lemma invoke_quiet (c : call) (s : State) :
  invoke w c s = (Ok tt, add_events s [Called c Returned]).
Proof. unfold invoke. rewrite quiet_world. reflexivity. Qed.

Lemma add_events_nil (s : State) : add_events s [] = s.
Proof. destruct s. unfold add_events. cbn. rewrite app_nil_r. reflexivity. Qed.

Lemma add_events_app (s : State) (a b : list event) :
  add_events (add_events s a) b = add_events s (a ++ b).
Proof. unfold add_events. cbn. rewrite app_assoc. reflexivity. Qed.

Lemma for_each_invoke_quiet {A : Type} (f : A -> call) (l : list A)
  (s : State) :
  for_each l (fun x => invoke w (f x)) s
  = (Ok tt, add_events s (map (fun x => Called (f x) Returned) l)).
Proof.
  revert s. induction l as [| x l IH]; intros s; cbn [for_each map].
  - rewrite add_events_nil. reflexivity.
  - unfold bind. rewrite invoke_quiet, IH, add_events_app. reflexivity.
Qed.

Lemma stopStream_try_quiet (sessionId : string) (s : State) :
  JsObject.inherited sessionId = false ->
  stopStream_try w sessionId s
  = (Ok tt,
     {| this := teardown_state (this s) sessionId;
        trace := trace s ++ teardown_trace (this s) sessionId;
        allocated := allocated s |}).
Proof.
  intros Hname.
  unfold stopStream_try, teardown_trace, teardown_state, stopped, freed.
  rewrite Hname. cbv iota.
  unfold bind at 1. unfold get at 1. cbn [fst snd].
  set (d := this s).
  unfold bind at 1.
  assert (E1 :
    (match JsObject.get sessionId (ongoingSessions d) with
     | Some o =>
         for_each (ffmpeg o) (fun p => invoke w (FfmpegStop p)) ;;
         (match rtpDemuxer o with
          | Some x => invoke w (DemuxerClose x)
          | None => ret tt
          end) ;;
         emit (LogInfo "Stopped video streaming session.") ;;
         for_each (rtpPortReservations o) (fun x => invoke w (FreePort x))
     | None => ret tt
     end) s
    = (Ok tt,
       add_events s
         (match JsObject.get sessionId (ongoingSessions d) with
          | Some o =>
              map (fun h => Called (FfmpegStop h) Returned) (ffmpeg o)
                ++ (match rtpDemuxer o with
                    | Some x => [Called (DemuxerClose x) Returned]
                    | None => []
                    end)
                ++ [LogInfo "Stopped video streaming session."]
                ++ map (fun x => Called (FreePort x) Returned)
                     (rtpPortReservations o)
          | None => []
          end))).
  { destruct (JsObject.get sessionId (ongoingSessions d)) as [o |].
    - unfold bind. rewrite for_each_invoke_quiet.
      destruct (rtpDemuxer o) as [x |].
      + rewrite invoke_quiet. unfold emit. cbn [fst snd].
        change {| this := this (add_events (add_events s (map (fun x0 => Called (FfmpegStop x0) Returned) (ffmpeg o))) [Called (DemuxerClose x) Returned]);
                  trace := trace (add_events (add_events s (map (fun x0 => Called (FfmpegStop x0) Returned) (ffmpeg o))) [Called (DemuxerClose x) Returned]) ++ [LogInfo "Stopped video streaming session."];
                  allocated := allocated (add_events (add_events s (map (fun x0 => Called (FfmpegStop x0) Returned) (ffmpeg o))) [Called (DemuxerClose x) Returned]) |}
          with (add_events (add_events (add_events s (map (fun x0 => Called (FfmpegStop x0) Returned) (ffmpeg o))) [Called (DemuxerClose x) Returned]) [LogInfo "Stopped video streaming session."]).
        rewrite for_each_invoke_quiet, !add_events_app, <- ?app_assoc.
        reflexivity.
      + unfold ret, emit. cbn [fst snd].
        change {| this := this (add_events s (map (fun x0 => Called (FfmpegStop x0) Returned) (ffmpeg o)));
                  trace := trace (add_events s (map (fun x0 => Called (FfmpegStop x0) Returned) (ffmpeg o))) ++ [LogInfo "Stopped video streaming session."];
                  allocated := allocated (add_events s (map (fun x0 => Called (FfmpegStop x0) Returned) (ffmpeg o))) |}
          with (add_events (add_events s (map (fun x0 => Called (FfmpegStop x0) Returned) (ffmpeg o))) [LogInfo "Stopped video streaming session."]).
        rewrite for_each_invoke_quiet, !add_events_app. reflexivity.
    - unfold ret. rewrite add_events_nil. reflexivity. }
  rewrite E1. clear E1.
  set (evs1 := match JsObject.get sessionId (ongoingSessions d) with
               | Some o => _ | None => [] end).
  unfold bind at 1.
  assert (E2 :
    (match JsObject.get sessionId (pendingSessions d) with
     | Some p =>
         for_each (SessionInfo.rtpPortReservations p)
           (fun x => invoke w (FreePort x))
     | None => ret tt
     end) (add_events s evs1)
    = (Ok tt,
       add_events (add_events s evs1)
         (match JsObject.get sessionId (pendingSessions d) with
          | Some p =>
              map (fun x => Called (FreePort x) Returned)
                (SessionInfo.rtpPortReservations p)
          | None => []
          end))).
  { destruct (JsObject.get sessionId (pendingSessions d)) as [p |].
    - apply for_each_invoke_quiet.
    - unfold ret. rewrite add_events_nil. reflexivity. }
  rewrite E2. clear E2.
  set (evs2 := match JsObject.get sessionId (pendingSessions d) with
               | Some p => _ | None => [] end).
  unfold bind, modify, get. cbn [fst snd this trace allocated add_events].
  cbn [ongoingSessions with_ongoingSessions with_pendingSessions
       savedBitrate rtspEntry hksv].
  fold d.
  replace (hksv_isRecording
             (with_ongoingSessions
                (JsObject.delete sessionId (ongoingSessions d))
                (with_pendingSessions
                   (JsObject.delete sessionId (pendingSessions d)) d)))
    with (hksv_isRecording d) by reflexivity.
  destruct (Nat.eqb
              (List.length
                 (JsObject.keys
                    (JsObject.delete sessionId (ongoingSessions d)))) 0);
    cbn [andb].
  - destruct (hksv_isRecording d); cbn [negb andb].
    + unfold invoke. rewrite quiet_world. unfold update_trace. cbn.
      rewrite <- ?app_assoc. reflexivity.
    + destruct (truthy (savedBitrate d)).
      * destruct (rtspEntry d) as [profile |].
        -- unfold invoke. rewrite quiet_world. unfold update_trace. cbn.
           rewrite <- ?app_assoc. reflexivity.
        -- unfold ret. cbn. rewrite ?app_nil_r, <- ?app_assoc. reflexivity.
      * unfold ret. cbn. rewrite ?app_nil_r, <- ?app_assoc. reflexivity.
  - unfold ret. cbn. rewrite ?app_nil_r, <- ?app_assoc. reflexivity.
Qed.

Lemma stopStream_quiet (sessionId : string) (s : State) :
  JsObject.inherited sessionId = false ->
  stopStream w sessionId s
  = (Ok tt,
     {| this := teardown_state (this s) sessionId;
        trace := trace s ++ teardown_trace (this s) sessionId;
        allocated := allocated s |}).
Proof.
  intros Hname.
  unfold stopStream, try_catch. rewrite stopStream_try_quiet by exact Hname.
  reflexivity.
Qed.

Lemma stopStream_events (sessionId : string) (s : State) :
  JsObject.inherited sessionId = false ->
  events_of (stopStream w sessionId) s = teardown_trace (this s) sessionId.
Proof.
  intros Hname.
  apply events_of_app. unfold exec. rewrite stopStream_quiet by exact Hname.
  reflexivity.
Qed.

Lemma stopStream_this (sessionId : string) (s : State) :
  JsObject.inherited sessionId = false ->
  this (exec (stopStream w sessionId) s) = teardown_state (this s) sessionId.
Proof.
  intros Hname. unfold exec. rewrite stopStream_quiet by exact Hname.
  reflexivity.
Qed.

Lemma for_each_stopStream_quiet (ids : list string) (s : State) :
  forallb (fun k => negb (JsObject.inherited k)) ids = true ->
  for_each ids (stopStream w) s
  = (Ok tt,
     {| this := fst (teardown_all ids (this s));
        trace := trace s ++ snd (teardown_all ids (this s));
        allocated := allocated s |}).
Proof.
  revert s. induction ids as [| sessionId ids IH]; intros s Hids;
    cbn [for_each teardown_all].
  - unfold ret. cbn. rewrite app_nil_r. destruct s; reflexivity.
  - cbn [forallb] in Hids. apply andb_prop in Hids. destruct Hids as [Hk Hids].
    apply negb_true_iff in Hk.
    unfold bind. rewrite stopStream_quiet by exact Hk.
    rewrite IH by exact Hids. cbn [this trace allocated].
    destruct (teardown_all ids (teardown_state (this s) sessionId))
      as [d' evs].
    cbn [fst snd]. rewrite <- app_assoc. reflexivity.
Qed.

End Teardown.

(** What a quiet teardown leaves in each field. *)
Lemma teardown_state_fields (d : ProtectStreamingDelegate)
  (sessionId : string) :
  ongoingSessions (teardown_state d sessionId)
  = JsObject.delete sessionId (ongoingSessions d)
  /\ pendingSessions (teardown_state d sessionId)
     = JsObject.delete sessionId (pendingSessions d)
  /\ hksv_isRecording (teardown_state d sessionId) = hksv_isRecording d
  /\ rtspEntry (teardown_state d sessionId) = rtspEntry d
  /\ savedBitrate (teardown_state d sessionId)
     = if Nat.eqb
            (List.length
               (JsObject.keys (JsObject.delete sessionId (ongoingSessions d))))
            0
          && negb (hksv_isRecording d) && truthy (savedBitrate d)
       then 0 else savedBitrate d.
Proof.
  unfold teardown_state.
  destruct (Nat.eqb _ 0 && negb (hksv_isRecording d)
            && truthy (savedBitrate d)); cbn; auto.
Qed.

Lemma bitrate_calls_app (a b : list event) :
  bitrate_calls (a ++ b) = bitrate_calls a ++ bitrate_calls b.
Proof. unfold bitrate_calls. apply flat_map_app. Qed.

Lemma bitrate_calls_stopped (l : list handle) : bitrate_calls (stopped l) = [].
Proof. induction l as [| x l IH]; [reflexivity | exact IH]. Qed.

Lemma bitrate_calls_freed (l : list Z) : bitrate_calls (freed l) = [].
Proof. induction l as [| x l IH]; [reflexivity | exact IH]. Qed.

Lemma teardown_bitrate_calls (d : ProtectStreamingDelegate)
  (sessionId : string) :
  bitrate_calls (teardown_trace d sessionId)
  = if Nat.eqb
         (List.length
            (JsObject.keys (JsObject.delete sessionId (ongoingSessions d))))
         0
       && negb (hksv_isRecording d) && truthy (savedBitrate d)
    then match rtspEntry d with
         | Some _ => [savedBitrate d]
         | None => []
         end
    else [].
Proof.
  unfold teardown_trace. rewrite !bitrate_calls_app.
  assert (E1 :
    bitrate_calls
      match JsObject.get sessionId (ongoingSessions d) with
      | Some o =>
          stopped (ffmpeg o)
            ++ (match rtpDemuxer o with
                | Some x => [Called (DemuxerClose x) Returned]
                | None => []
                end)
            ++ [LogInfo "Stopped video streaming session."]
            ++ freed (rtpPortReservations o)
      | None => []
      end = []).
  { destruct (JsObject.get sessionId (ongoingSessions d)) as [o |];
      [| reflexivity].
    rewrite !bitrate_calls_app, bitrate_calls_stopped, bitrate_calls_freed.
    destruct (rtpDemuxer o); reflexivity. }
  assert (E2 :
    bitrate_calls
      match JsObject.get sessionId (pendingSessions d) with
      | Some p => freed (SessionInfo.rtpPortReservations p)
      | None => []
      end = []).
  { destruct (JsObject.get sessionId (pendingSessions d));
      [apply bitrate_calls_freed | reflexivity]. }
  rewrite E1, E2. cbn [app].
  destruct (Nat.eqb _ 0); cbn [andb]; [| reflexivity].
  destruct (hksv_isRecording d); cbn [andb negb]; [reflexivity |].
  destruct (truthy (savedBitrate d)); [| reflexivity].
  destruct (rtspEntry d); reflexivity.
Qed.

(** An exception of the [try] block never leaves [stopStream]: it is logged. *)
Lemma stopStream_catches (w : World) (sessionId : string) (s : State) :
  fst (stopStream w sessionId s) = Ok tt
  /\ forall e,
       fst (stopStream_try w sessionId s) = Throw e ->
       trace (exec (stopStream w sessionId) s)
       = trace (exec (stopStream_try w sessionId) s)
           ++ [LogError "Error occurred while ending the FFmpeg video processes: %s."].
Proof.
  unfold stopStream, try_catch, exec.
  destruct (stopStream_try w sessionId s) as [[[] | e] s1]; cbn.
  - split; [reflexivity | discriminate].
  - split; [reflexivity | intros _ _; reflexivity].
Qed.

Lemma quiet_no_throws : no_throws quiet.
Proof. intros tr c. reflexivity. Qed.

Lemma called_returned (c : call) (evs : list event) :
  In (Called c Returned) evs -> called c evs.
Proof. intros H. exists Returned. exact H. Qed.

(** ** stopStream when a call raises *)

Lemma for_each_app {A : Type} (a b : list A) (f : A -> M unit) (s : State) :
  for_each (a ++ b) f s = bind (for_each a f) (fun _ => for_each b f) s.
Proof.
  revert s. induction a as [| x a IH]; intros s; cbn [app for_each].
  - reflexivity.
  - unfold bind. destruct (f x s) as [[[] | e] s1]; [| reflexivity].
    rewrite IH. reflexivity.
Qed.

Lemma step_planned (w : World) (e : event) (s : State) :
  planned e = true ->
  (match e with
   | Called c _ => negb (throws w (trace s) c)
   | _ => true
   end) = true ->
  step w e s = (Ok tt, add_events s [e]).
Proof.
  intros Hp Ht. destruct e as [c o | | | | |]; try reflexivity.
  destruct o; try discriminate.
  apply negb_true_iff in Ht. unfold step, invoke. rewrite Ht. reflexivity.
Qed.

Lemma play_passes (w : World) (l : list event) (s : State) :
  forallb planned l = true ->
  passes w (trace s) l = true ->
  for_each l (step w) s = (Ok tt, add_events s l).
Proof.
  revert s. induction l as [| e l IH]; intros s Hp Hpass;
    cbn [for_each forallb passes] in *.
  - unfold ret. rewrite add_events_nil. reflexivity.
  - apply andb_prop in Hp. destruct Hp as [He Hl].
    apply andb_prop in Hpass. destruct Hpass as [Ht Hrest].
    unfold bind. rewrite (step_planned w e s He Ht).
    rewrite IH by assumption. rewrite add_events_app. reflexivity.
Qed.

Lemma play_fails (w : World) (pre post : list event) (c : call) (o : outcome)
  (s : State) :
  forallb planned pre = true ->
  passes w (trace s) pre = true ->
  throws w (trace s ++ pre) c = true ->
  for_each (pre ++ Called c o :: post) (step w) s
  = (Throw (Thrown c), add_events s (pre ++ [Called c Threw])).
Proof.
  intros Hp Hpass Ht. rewrite for_each_app. unfold bind at 1.
  rewrite play_passes by assumption.
  cbn [for_each]. unfold bind, step, invoke. cbn [trace add_events].
  rewrite Ht. unfold update_trace, add_events. cbn. rewrite app_assoc.
  reflexivity.
Qed.

Lemma passes_split (w : World) (l : list event) (tr : list event) :
  passes w tr l = false ->
  exists pre c o post,
    l = pre ++ Called c o :: post
    /\ passes w tr pre = true
    /\ throws w (tr ++ pre) c = true.
Proof.
  revert tr. induction l as [| e l IH]; intros tr H; cbn [passes] in H.
  - discriminate.
  - apply andb_false_iff in H. destruct H as [H | H].
    + destruct e as [c o | | | | |]; try discriminate.
      apply negb_false_iff in H.
      exists [], c, o, l. rewrite app_nil_r. auto.
    + destruct (match e with
                | Called c _ => negb (throws w tr c)
                | _ => true
                end) eqn:He.
      * destruct (IH _ H) as (pre & c & o & post & El & Hpre & Ht).
        exists (e :: pre), c, o, post. rewrite El. split; [reflexivity |].
        split; [cbn [passes]; rewrite He, Hpre; reflexivity |].
        rewrite <- app_assoc in Ht. exact Ht.
      * destruct e as [c o | | | | |]; try discriminate.
        apply negb_false_iff in He.
        exists [], c, o, l. rewrite app_nil_r. auto.
Qed.

Lemma passes_app (w : World) (a b : list event) (tr : list event) :
  passes w tr (a ++ b) = passes w tr a && passes w (tr ++ a) b.
Proof.
  revert tr. induction a as [| e a IH]; intros tr; cbn [app passes].
  - rewrite app_nil_r. reflexivity.
  - rewrite IH, <- app_assoc, andb_assoc. reflexivity.
Qed.

Lemma no_throws_passes (w : World) (tr l : list event) :
  no_throws w -> passes w tr l = true.
Proof.
  intros Hq. revert tr. induction l as [| e l IH]; intros tr; cbn [passes];
    [reflexivity |].
  rewrite IH. destruct e; try reflexivity. rewrite Hq. reflexivity.
Qed.

Lemma planned_stopped (l : list handle) : forallb planned (stopped l) = true.
Proof. induction l as [| x l IH]; [reflexivity | exact IH]. Qed.

Lemma planned_freed (l : list Z) : forallb planned (freed l) = true.
Proof. induction l as [| x l IH]; [reflexivity | exact IH]. Qed.

Lemma teardown_steps_planned (d : ProtectStreamingDelegate)
  (sessionId : string) :
  forallb planned (teardown_steps d sessionId) = true.
Proof.
  unfold teardown_steps. rewrite forallb_app. apply andb_true_intro. split.
  - destruct (JsObject.get sessionId (ongoingSessions d)) as [o |];
      [| reflexivity].
    rewrite !forallb_app, planned_stopped, planned_freed.
    destruct (rtpDemuxer o); reflexivity.
  - destruct (JsObject.get sessionId (pendingSessions d));
      [apply planned_freed | reflexivity].
Qed.

Lemma teardown_trace_steps (d : ProtectStreamingDelegate)
  (sessionId : string) :
  teardown_trace d sessionId
  = teardown_steps d sessionId ++ restore_steps d sessionId.
Proof.
  unfold teardown_trace, teardown_steps, restore_steps.
  rewrite <- app_assoc. reflexivity.
Qed.

Lemma for_each_invoke_step {A : Type} (w : World) (f : A -> call)
  (l : list A) (s : State) :
  for_each l (fun x => invoke w (f x)) s
  = for_each (map (fun x => Called (f x) Returned) l) (step w) s.
Proof.
  revert s. induction l as [| x l IH]; intros s; cbn [for_each map];
    [reflexivity |].
  unfold bind. cbn [step]. destruct (invoke w (f x) s) as [[[] | e] s1];
    [apply IH | reflexivity].
Qed.

Lemma bind_steps (w : World) (m1 m2 : M unit) (a b : list event) :
  (forall s, m1 s = for_each a (step w) s) ->
  (forall s, m2 s = for_each b (step w) s) ->
  forall s, bind m1 (fun _ => m2) s = for_each (a ++ b) (step w) s.
Proof.
  intros H1 H2 s. rewrite for_each_app. unfold bind. rewrite H1.
  destruct (for_each a (step w) s) as [[[] | e] s1]; [apply H2 | reflexivity].
Qed.

Lemma stopStream_try_split (w : World) (sessionId : string) (s : State) :
  JsObject.inherited sessionId = false ->
  stopStream_try w sessionId s
  = bind (for_each (teardown_steps (this s) sessionId) (step w))
      (fun _ => stopStream_restore w sessionId) s.
Proof.
  intros Hname. unfold stopStream_try. rewrite Hname. cbv iota.
  unfold bind at 1. unfold get at 1. cbn [fst snd].
  set (d := this s).
  assert (E1 : forall s1,
    (match JsObject.get sessionId (ongoingSessions d) with
     | Some o =>
         for_each (ffmpeg o) (fun p => invoke w (FfmpegStop p)) ;;
         (match rtpDemuxer o with
          | Some x => invoke w (DemuxerClose x)
          | None => ret tt
          end) ;;
         emit (LogInfo "Stopped video streaming session.") ;;
         for_each (rtpPortReservations o) (fun x => invoke w (FreePort x))
     | None => ret tt
     end) s1
    = for_each
        (match JsObject.get sessionId (ongoingSessions d) with
         | Some o =>
             stopped (ffmpeg o)
               ++ (match rtpDemuxer o with
                   | Some x => [Called (DemuxerClose x) Returned]
                   | None => []
                   end)
               ++ [LogInfo "Stopped video streaming session."]
               ++ freed (rtpPortReservations o)
         | None => []
         end) (step w) s1).
  { destruct (JsObject.get sessionId (ongoingSessions d)) as [o |];
      [| reflexivity].
    apply bind_steps; [intros s1; apply for_each_invoke_step |].
    apply bind_steps.
    { intros s1. destruct (rtpDemuxer o) as [x |]; cbn [for_each step].
      - unfold bind. destruct (invoke w (DemuxerClose x) s1) as [[[] | e] s2];
          reflexivity.
      - reflexivity. }
    apply bind_steps.
    { intros s1. cbn [for_each step]. unfold bind, emit, ret. reflexivity. }
    intros s1. apply for_each_invoke_step. }
  assert (E2 : forall s1,
    (match JsObject.get sessionId (pendingSessions d) with
     | Some p =>
         for_each (SessionInfo.rtpPortReservations p)
           (fun x => invoke w (FreePort x))
     | None => ret tt
     end) s1
    = for_each
        (match JsObject.get sessionId (pendingSessions d) with
         | Some p => freed (SessionInfo.rtpPortReservations p)
         | None => []
         end) (step w) s1).
  { destruct (JsObject.get sessionId (pendingSessions d)) as [p |];
      [| reflexivity].
    intros s1. apply for_each_invoke_step. }
  unfold teardown_steps, stopStream_restore. fold d.
  unfold bind. rewrite for_each_app. unfold bind. rewrite E1.
  destruct (for_each _ (step w) s) as [[[] | e] s1]; [| reflexivity].
  rewrite E2.
  destruct (for_each _ (step w) s1) as [[[] | e] s2]; reflexivity.
Qed.

(** A call of the teardown raises: the [catch] logs it, nothing that comes
    after the call is done, and the object is as it was. *)
Lemma stopStream_throws (w : World) (sessionId : string) (s : State)
  (pre post : list event) (c : call) (o : outcome) :
  JsObject.inherited sessionId = false ->
  teardown_steps (this s) sessionId = pre ++ Called c o :: post ->
  passes w (trace s) pre = true ->
  throws w (trace s ++ pre) c = true ->
  stopStream w sessionId s
  = (Ok tt, add_events s (pre ++ [Called c Threw; teardown_error])).
Proof.
  intros Hname Hsplit Hpass Ht.
  unfold stopStream, try_catch. rewrite stopStream_try_split by exact Hname.
  unfold bind. rewrite Hsplit.
  assert (Hp : forallb planned pre = true).
  { pose proof (teardown_steps_planned (this s) sessionId) as H.
    rewrite Hsplit, forallb_app in H. apply andb_prop in H. apply H. }
  rewrite play_fails by assumption.
  unfold stopStream_catch, emit, add_events, teardown_error. cbn.
  rewrite <- !app_assoc. reflexivity.
Qed.

(** Every call of the teardown returns: the records are removed, and what is
    left is the restoring of the settings. *)
Lemma stopStream_try_removes (w : World) (sessionId : string) (s : State) :
  JsObject.inherited sessionId = false ->
  passes w (trace s) (teardown_steps (this s) sessionId) = true ->
  stopStream_try w sessionId s
  = stopStream_restore w sessionId
      (add_events s (teardown_steps (this s) sessionId)).
Proof.
  intros Hname Hpass.
  rewrite stopStream_try_split by exact Hname. unfold bind.
  rewrite play_passes;
    [reflexivity | apply teardown_steps_planned | exact Hpass].
Qed.

Lemma stopStream_restore_run (w : World) (sessionId : string) (s : State) :
  stopStream_restore w sessionId s
  = match restore_steps (this s) sessionId with
    | Called c _ :: _ =>
        if throws w (trace s) c
        then (Throw (Thrown c),
              {| this := records_removed (this s) sessionId;
                 trace := trace s ++ [Called c Threw];
                 allocated := allocated s |})
        else (Ok tt,
              {| this := teardown_state (this s) sessionId;
                 trace := trace s ++ restore_steps (this s) sessionId;
                 allocated := allocated s |})
    | _ =>
        (Ok tt,
         {| this := teardown_state (this s) sessionId;
            trace := trace s ++ restore_steps (this s) sessionId;
            allocated := allocated s |})
    end.
Proof.
  unfold stopStream_restore, restore_steps, teardown_state, records_removed.
  unfold bind, modify, get. cbn [fst snd this trace allocated].
  cbn [ongoingSessions with_ongoingSessions with_pendingSessions
       savedBitrate rtspEntry hksv].
  set (d := this s).
  replace (hksv_isRecording
             (with_ongoingSessions
                (JsObject.delete sessionId (ongoingSessions d))
                (with_pendingSessions
                   (JsObject.delete sessionId (pendingSessions d)) d)))
    with (hksv_isRecording d) by reflexivity.
  destruct (Nat.eqb
              (List.length
                 (JsObject.keys
                    (JsObject.delete sessionId (ongoingSessions d)))) 0);
    cbn [andb].
  - destruct (hksv_isRecording d); cbn [negb andb].
    + unfold invoke, update_trace. cbn [trace this allocated].
      destruct (throws w (trace s) RestartTimeshifting); reflexivity.
    + destruct (truthy (savedBitrate d)).
      * destruct (rtspEntry d) as [profile |].
        -- unfold invoke, update_trace. cbn [trace this allocated].
           destruct (throws w (trace s) _); reflexivity.
        -- unfold ret. cbn. rewrite app_nil_r. reflexivity.
      * unfold ret. cbn. rewrite app_nil_r. reflexivity.
  - unfold ret. cbn. rewrite app_nil_r. reflexivity.
Qed.





(** ** The saved bitrate *)

Lemma teardown_trace_again (d : ProtectStreamingDelegate)
  (sessionId : string) :
  teardown_trace (teardown_state d sessionId) sessionId
  = if Nat.eqb
         (List.length
            (JsObject.keys (JsObject.delete sessionId (ongoingSessions d))))
         0
       && hksv_isRecording d
    then [Called RestartTimeshifting Returned]
    else [].
Proof.
  unfold teardown_trace.
  destruct (teardown_state_fields d sessionId) as (Ho & Hp & Hr & He & Hs).
  rewrite Ho, Hp, Hr, He, Hs, !get_delete_same, delete_delete. cbn [app].
  destruct (Nat.eqb _ 0); cbn [andb]; [| reflexivity].
  destruct (hksv_isRecording d); cbn [andb negb]; [reflexivity |].
  destruct (truthy (savedBitrate d)) eqn:T; cbn [andb negb];
    [reflexivity | rewrite T; reflexivity].
Qed.

Lemma delegate_ext (a b : ProtectStreamingDelegate) :
  ffmpegOptions a = ffmpegOptions b -> hksv a = hksv b ->
  ongoingSessions a = ongoingSessions b ->
  pendingSessions a = pendingSessions b ->
  protectCamera a = protectCamera b ->
  probesizeOverride a = probesizeOverride b ->
  probesizeOverrideCount a = probesizeOverrideCount b ->
  probesizeOverrideTimeout a = probesizeOverrideTimeout b ->
  rtspEntry a = rtspEntry b -> savedBitrate a = savedBitrate b ->
  a = b.
Proof. destruct a, b; cbn; intros; subst; reflexivity. Qed.

Lemma teardown_state_rest (d : ProtectStreamingDelegate)
  (sessionId : string) :
  ffmpegOptions (teardown_state d sessionId) = ffmpegOptions d
  /\ hksv (teardown_state d sessionId) = hksv d
  /\ protectCamera (teardown_state d sessionId) = protectCamera d
  /\ probesizeOverride (teardown_state d sessionId) = probesizeOverride d
  /\ probesizeOverrideCount (teardown_state d sessionId)
     = probesizeOverrideCount d
  /\ probesizeOverrideTimeout (teardown_state d sessionId)
     = probesizeOverrideTimeout d.
Proof.
  unfold teardown_state.
  destruct (Nat.eqb _ 0 && negb (hksv_isRecording d)
            && truthy (savedBitrate d)); cbn; auto 10.
Qed.

Lemma teardown_state_again (d : ProtectStreamingDelegate)
  (sessionId : string) :
  teardown_state (teardown_state d sessionId) sessionId
  = teardown_state d sessionId.
Proof.
  set (t := teardown_state d sessionId).
  destruct (teardown_state_fields t sessionId) as (Ho & Hp & _ & He & Hs).
  destruct (teardown_state_rest t sessionId)
    as (H1 & H2 & H3 & H4 & H5 & H6).
  destruct (teardown_state_fields d sessionId)
    as (Ho' & Hp' & Hr' & _ & Hs').
  fold t in Ho', Hp', Hr', Hs'.
  apply delegate_ext; try assumption.
  - rewrite Ho, Ho', delete_delete. reflexivity.
  - rewrite Hp, Hp', delete_delete. reflexivity.
  - rewrite Hs, Hr', Ho', delete_delete, Hs'.
    clear.
    destruct (Nat.eqb _ 0); cbn [andb]; [| reflexivity].
    destruct (hksv_isRecording d); cbn [andb negb]; [reflexivity |].
    destruct (truthy (savedBitrate d)) eqn:T; cbn [andb negb].
    + reflexivity.
    + rewrite T. reflexivity.
Qed.

Lemma twice_stopStream_quiet (w : World) (sessionId : string) (s : State) :
  no_throws w ->
  JsObject.inherited sessionId = false ->
  (stopStream w sessionId ;; stopStream w sessionId) s
  = (Ok tt,
     {| this := teardown_state (this s) sessionId;
        trace :=
          trace s
            ++ teardown_trace (this s) sessionId
            ++ (if Nat.eqb
                     (List.length
                        (JsObject.keys
                           (JsObject.delete sessionId
                              (ongoingSessions (this s))))) 0
                   && hksv_isRecording (this s)
                then [Called RestartTimeshifting Returned]
                else []);
        allocated := allocated s |}).
Proof.
  intros Hq Hname. unfold bind. rewrite !(stopStream_quiet w Hq) by exact Hname.
  cbn [this trace allocated].
  rewrite teardown_trace_again, teardown_state_again, <- app_assoc.
  reflexivity.
Qed.

Lemma no_keys_length {V : Type} (o : JsObject.t V) :
  Nat.eqb (List.length (JsObject.keys o)) 0
  = match JsObject.keys o with [] => true | _ => false end.
Proof. destruct (JsObject.keys o); reflexivity. Qed.

(** C2.  The code at the failing input.  One session streams, with the
    bitrate of the camera (3,000,000) saved at its start; the start of a
    second session then finds no stream profile and leaves [rtspEntry] null.
    The stop of the first session now empties [ongoingSessions] while
    nothing is being recorded: it finds [rtspEntry] null, calls [setBitrate]
    not at all, and sets the saved bitrate to 0 all the same.  The bitrate
    of the camera stays at what the session asked for, and no later stop can
    restore it. *)
Theorem stopStream_bitrate_not_restored :
  let s := second_viewer_rejected in
  let s' := exec (stopStream profile_lost "session-a") s in
  let evs := events_of (stopStream profile_lost "session-a") s in
  (JsObject.keys (ongoingSessions (this s)) = ["session-a"%string]
   /\ savedBitrate (this s) = 3000000
   /\ hksv_isRecording (this s) = false
   /\ rtspEntry (this s) = None)
  /\ (evs = [Called (FfmpegStop 0%nat) Returned;
             LogInfo "Stopped video streaming session.";
             Called (FreePort 50000) Returned;
             Called (FreePort 50004) Returned]
      /\ bitrate_calls evs = []
      /\ ongoingSessions (this s') = []
      /\ savedBitrate (this s') = 0)
  /\ ~ saved_bitrate_restored profile_lost "session-a" s.
Proof.
  cbv zeta. split; [vm_compute; repeat split; reflexivity |].
  split; [vm_compute; repeat split; reflexivity |].
  intros H.
  assert (E : JsObject.keys
                (JsObject.delete "session-a"
                   (ongoingSessions (this second_viewer_rejected))) = [])
    by (vm_compute; reflexivity).
  assert (N : savedBitrate (this second_viewer_rejected) <> 0)
    by (vm_compute; discriminate).
  specialize (H E N). vm_compute in H. destruct H as [H _]. discriminate.
Qed.

(** ** Stopping twice *)

(** C3, as the code has it.  [stopStream] never raises, whatever the
    identifier and whatever raises in it, so it can be called twice, and
    with no session.  When nothing raises, the identifier is not the name
    of a member every object inherits and the session tables have the
    prototype they were made with, a second [stopStream] for the same
    identifier leaves the object as the first left it and adds nothing to
    what the outside sees, except that it restarts the timeshift buffer once
    more when the recording delegate is recording and no session is ongoing.
    So stopping twice is stopping once when nothing is being recorded. *)
Theorem stopStream_twice (w : World) (sessionId : string) (s : State) :
  let d := this s in
  let twice := (stopStream w sessionId ;; stopStream w sessionId) in
  fst (twice s) = Ok tt
  /\ (no_throws w ->
      plain_tables d = true ->
      JsObject.inherited sessionId = false ->
      (hksv_isRecording d = false -> stop_twice_as_once w sessionId s)
      /\ events_of twice s
         = events_of (stopStream w sessionId) s
             ++ (if Nat.eqb
                      (List.length
                         (JsObject.keys
                            (JsObject.delete sessionId (ongoingSessions d))))
                      0
                    && hksv_isRecording d
                 then [Called RestartTimeshifting Returned]
                 else [])
      /\ this (exec twice s) = this (exec (stopStream w sessionId) s)).
Proof.
  intros d twice. split.
  { unfold twice, bind.
    pose proof (proj1 (stopStream_catches w sessionId s)) as H1.
    destruct (stopStream w sessionId s) as [[[] | e] s1]; [| discriminate].
    exact (proj1 (stopStream_catches w sessionId s1)). }
  intros Hq _ Hname.
  assert (Htwice :
    events_of twice s
    = events_of (stopStream w sessionId) s
        ++ (if Nat.eqb
                 (List.length
                    (JsObject.keys
                       (JsObject.delete sessionId (ongoingSessions d)))) 0
               && hksv_isRecording d
            then [Called RestartTimeshifting Returned]
            else [])).
  { rewrite (stopStream_events w Hq) by exact Hname. apply events_of_app.
    unfold exec, twice.
    rewrite (twice_stopStream_quiet w sessionId s Hq Hname).
    reflexivity. }
  split; [| split; [exact Htwice |]].
  - intros R. unfold stop_twice_as_once. fold twice. rewrite Htwice, R.
    rewrite andb_false_r, app_nil_r. reflexivity.
  - unfold exec, twice.
    rewrite (twice_stopStream_quiet w sessionId s Hq Hname).
    rewrite (stopStream_quiet w Hq) by exact Hname.
    reflexivity.
Qed.

Lemma stopStream_twice_witness :
  stop_twice_as_once quiet "session-a" one_viewer.
Proof.
  refine (proj1 (proj2 (stopStream_twice quiet "session-a" one_viewer)
                   quiet_no_throws eq_refl eq_refl) _).
  vm_compute. reflexivity.
Defined.

(** C3 as stated fails, in two ways.  While the recording delegate is
    recording, each stop for an unknown session restarts the timeshift buffer
    again.  And with a session ongoing under ["constructor"] and nothing
    raising, each stop stops its process and frees its ports, then fails on
    the inherited [pendingSessions["constructor"]] before it removes the
    record: the second stop does all of it again. *)
Lemma stopStream_twice_restarts_twice :
  ~ stop_twice_as_once quiet "session-a" recording_delegate
  /\ ~ stop_twice_as_once quiet "constructor" constructor_streaming.
Proof.
  split; unfold stop_twice_as_once; vm_compute; discriminate.
Qed.

(** ** Invariants that also watch the trace *)

Section Tracked.

Variable w : World.
Variable J : ProtectStreamingDelegate -> Prop.
Variable P : event -> bool.
Variable tr0 : list event.

Lemma tracked_event (s : State) (e : event) :
  P e = true -> tracked J P tr0 s -> tracked J P tr0 (update_trace s e).
Proof.
  intros He (Hj & evs & Ht & Hp). split; [exact Hj |].
  exists (evs ++ [e]). cbn. rewrite Ht, app_assoc, forallb_app, Hp. cbn.
  rewrite He. auto.
Qed.

Lemma tracked_emit (e : event) :
  P e = true -> preserves (tracked J P tr0) (emit e).
Proof. intros He s Hs. apply tracked_event; assumption. Qed.

Lemma tracked_modify (f : ProtectStreamingDelegate -> ProtectStreamingDelegate) :
  (forall d, J d -> J (f d)) -> preserves (tracked J P tr0) (modify f).
Proof. intros Hf s (Hj & Hev). split; [apply Hf, Hj | exact Hev]. Qed.

Lemma tracked_fresh : preserves (tracked J P tr0) fresh.
Proof. intros s Hs. exact Hs. Qed.

Lemma tracked_invoke (c : call) :
  (forall o, P (Called c o) = true) ->
  preserves (tracked J P tr0) (invoke w c).
Proof.
  intros Hc s Hs. unfold invoke.
  destruct (throws w (trace s) c); apply tracked_event; auto.
Qed.

Lemma tracked_invoke_num (c : call) :
  (forall o, P (Called c o) = true) ->
  preserves (tracked J P tr0) (invoke_num w c).
Proof.
  intros Hc s Hs. unfold invoke_num.
  destruct (throws w (trace s) c); apply tracked_event; auto.
Qed.

Lemma tracked_construct (c : call) :
  (forall o, P (Called c o) = true) ->
  preserves (tracked J P tr0) (construct c).
Proof. intros Hc. apply tracked_emit, Hc. Qed.

(** [bind get k], keeping what is known of the object that [get] reads. *)
Lemma preserves_get_bind {B : Type} (I : State -> Prop)
  (k : ProtectStreamingDelegate -> M B) :
  (forall s, I s -> I (snd (k (this s) s))) -> preserves I (bind get k).
Proof. intros Hk s Hs. unfold bind, get. apply Hk, Hs. Qed.

End Tracked.

Ltac track_step :=
  first
    [ apply tracked_emit; reflexivity
    | apply tracked_invoke; intros ?; reflexivity
    | apply tracked_invoke_num; intros ?; reflexivity
    | apply tracked_construct; intros ?; reflexivity
    | apply tracked_fresh
    | apply tracked_modify;
      let d := fresh "d" in let H := fresh "H" in
      intros d H; cbn; exact H
    | frame_step ].

Ltac track := repeat track_step.

Lemma no_setBitrate_calls (evs : list event) :
  forallb no_setBitrate evs = true -> bitrate_calls evs = [].
Proof.
  unfold bitrate_calls.
  induction evs as [| e evs IH]; cbn [forallb flat_map]; [reflexivity |].
  intros H. apply andb_prop in H. destruct H as [He Hr].
  rewrite (IH Hr).
  destruct e as [c o | | | | |]; try reflexivity.
  destruct c; try reflexivity. discriminate.
Qed.

(** With nothing saved, [stopStream] does not call [setBitrate], whether or
    not a step of the teardown raises. *)
Lemma stopStream_nothing_saved (w : World) (sessionId : string) (s : State) :
  savedBitrate (this s) = 0 ->
  bitrate_calls (events_of (stopStream w sessionId) s) = []
  /\ savedBitrate (this (exec (stopStream w sessionId) s)) = 0.
Proof.
  intros Hs.
  assert (Hinv :
    preserves (tracked (fun d => savedBitrate d = 0) no_setBitrate (trace s))
      (stopStream w sessionId)).
  { unfold stopStream, stopStream_try, stopStream_catch.
    apply preserves_try_catch; [| intros e; track].
    apply preserves_bind; [apply preserves_get | intros d].
    apply preserves_bind; [track | intros _].
    apply preserves_bind; [track | intros _].
    apply preserves_bind; [track | intros _].
    apply preserves_bind; [track | intros _].
    apply preserves_get_bind. intros s1 Hs1.
    assert (E : savedBitrate (this s1) = 0) by apply Hs1.
    rewrite E. cbn [truthy Z.eqb negb].
    destruct (Nat.eqb _ 0); [| exact Hs1].
    destruct (hksv_isRecording (this s1)); [| exact Hs1].
    revert s1 Hs1 E. intros s1 Hs1 _. revert s1 Hs1.
    change (preserves
              (tracked (fun d => savedBitrate d = 0) no_setBitrate (trace s))
              (invoke w RestartTimeshifting)).
    track. }
  destruct (Hinv s) as (Hj & evs & Ht & Hp).
  { split; [exact Hs |]. exists []. rewrite app_nil_r. auto. }
  split; [| exact Hj].
  rewrite (events_of_app _ _ evs Ht). apply no_setBitrate_calls, Hp.
Qed.

(** ** Saving the bitrate at the start of a session *)

Lemma startStream_saveBitrate_quiet (w : World) (channelId : Z) (s : State) :
  no_throws w -> savedBitrate (this s) = 0 ->
  let b := number w (trace s) (GetBitrate channelId) in
  let s' := snd (startStream_saveBitrate w channelId s) in
  fst (startStream_saveBitrate w channelId s) = Ok tt
  /\ savedBitrate (this s') = Z.max b 0
  /\ trace s' = trace s ++ [Called (GetBitrate channelId) (ReturnedNum b)].
Proof.
  intros Hq Hs b s'. subst s'.
  unfold startStream_saveBitrate, bind, get, invoke_num, modify, ret.
  cbn. rewrite Hs. cbn. rewrite Hq. cbn. fold b.
  destruct (Z.ltb_spec b 0); cbn; repeat split; lia.
Qed.

Lemma startStream_launch_saved (w : World) (request : StartStreamRequest.t)
  (sessionInfo : SessionInfo.t) (hints : Hints.t) (channelId v : Z)
  (tr0 : list event) :
  preserves (tracked (fun d => savedBitrate d = v) any_event tr0)
    (startStream_launch w request sessionInfo hints channelId).
Proof.
  unfold startStream_launch, launchReturnAudio, talkbackUnavailable. track.
Qed.

Lemma startStream_started (w : World) (request : StartStreamRequest.t)
  (s : State) (sessionInfo : SessionInfo.t) (profile : RtspEntry.t) :
  no_throws w ->
  JsObject.get (StartStreamRequest.sessionID request)
    (pendingSessions (this s)) = Some sessionInfo ->
  CameraAccessory.isOnline (protectCamera (this s)) = true ->
  (forall c, rtsp w (trace s) c = Some profile) ->
  exists c,
    startStream w request s
    = (startStream_saveBitrate w (Channel.id (RtspEntry.channel profile)) ;;
       startStream_launch w request sessionInfo
         (CameraAccessory.hints (protectCamera (this s)))
         (Channel.id (RtspEntry.channel profile)))
        {| this := with_rtspEntry (Some profile) (this s);
           trace := trace s ++ [Called c (ReturnedRtsp (Some profile))];
           allocated := allocated s |}.
Proof.
  intros Hq Hp Ho Hr. unfold startStream.
  unfold bind at 1. unfold get at 1. cbv zeta. rewrite Hp, Ho. cbn [negb].
  unfold bind at 1. unfold invoke_rtsp at 1. rewrite Hq, Hr.
  unfold bind at 1. unfold modify at 1. cbn [this trace allocated update_trace].
  eexists. reflexivity.
Qed.

(** C10.  At a start that finds nothing saved, the bitrate the camera reports
    is read and saved, a negative one as 0.  A saved value of 0 is nothing
    saved: no [stopStream] restores a bitrate from it, whatever raises during
    the teardown, and the next start reads the bitrate of the camera again. *)
Theorem startStream_saves_bitrate (w : World)
  (request : StartStreamRequest.t) (s : State)
  (sessionInfo : SessionInfo.t) (profile : RtspEntry.t) (b : Z) :
  no_throws w ->
  JsObject.get (StartStreamRequest.sessionID request)
    (pendingSessions (this s)) = Some sessionInfo ->
  CameraAccessory.isOnline (protectCamera (this s)) = true ->
  (forall c, rtsp w (trace s) c = Some profile) ->
  (forall tr,
     number w tr (GetBitrate (Channel.id (RtspEntry.channel profile))) = b) ->
  savedBitrate (this s) = 0 ->
  let s' := exec (startStream w request) s in
  In (Called (GetBitrate (Channel.id (RtspEntry.channel profile)))
        (ReturnedNum b))
    (events_of (startStream w request) s)
  /\ savedBitrate (this s') = Z.max b 0
  /\ (b <= 0 ->
      savedBitrate (this s') = 0
      /\ forall w' sessionId,
          bitrate_calls (events_of (stopStream w' sessionId) s') = [])
  /\ (forall w' sessionId s0,
        savedBitrate (this s0) = 0 ->
        bitrate_calls (events_of (stopStream w' sessionId) s0) = []
        /\ savedBitrate (this (exec (stopStream w' sessionId) s0)) = 0).
Proof.
  intros Hq Hp Ho Hr Hb Hs s'.
  destruct (startStream_started w request s sessionInfo profile Hq Hp Ho Hr)
    as (c & E).
  set (ch := Channel.id (RtspEntry.channel profile)) in *.
  set (s1 := {| this := with_rtspEntry (Some profile) (this s);
                trace := trace s ++ [Called c (ReturnedRtsp (Some profile))];
                allocated := allocated s |}) in E.
  destruct (startStream_saveBitrate_quiet w ch s1 Hq Hs) as (E1 & E2 & E3).
  rewrite Hb in E2, E3.
  unfold bind in E.
  destruct (startStream_saveBitrate w ch s1) as [r s2].
  cbn [fst snd] in E1, E2, E3. subst r.
  destruct (startStream_launch_saved w request sessionInfo
              (CameraAccessory.hints (protectCamera (this s))) ch
              (Z.max b 0) (trace s2) s2) as (Hj & evs & Ht & _).
  { split; [exact E2 |]. exists []. rewrite app_nil_r. auto. }
  assert (Hexec :
    s' = snd (startStream_launch w request sessionInfo
                (CameraAccessory.hints (protectCamera (this s))) ch s2)).
  { unfold s', exec. rewrite E. reflexivity. }
  assert (Hsaved : savedBitrate (this s') = Z.max b 0).
  { rewrite Hexec. exact Hj. }
  split; [| split; [exact Hsaved | split]].
  - rewrite (events_of_app (startStream w request) s
               ([Called c (ReturnedRtsp (Some profile));
                 Called (GetBitrate ch) (ReturnedNum b)] ++ evs)).
    + right. left. reflexivity.
    + fold s'. rewrite Hexec, Ht, E3. unfold s1. cbn [trace].
      rewrite <- !app_assoc. reflexivity.
  - intros Hneg.
    assert (Hzero : savedBitrate (this s') = 0) by (rewrite Hsaved; lia).
    split; [exact Hzero |].
    intros w' sessionId. apply stopStream_nothing_saved, Hzero.
  - intros w' sessionId s0 H0. apply stopStream_nothing_saved, H0.
Qed.

Lemma bitrate_unknown_no_throws : no_throws bitrate_unknown.
Proof. intros tr c. reflexivity. Qed.

Lemma startStream_saves_bitrate_witness :
  savedBitrate
    (this (exec (startStream bitrate_unknown watch) prepared_bitrate_unknown))
  = Z.max (-1) 0.
Proof.
  refine (proj1 (proj2
            (startStream_saves_bitrate bitrate_unknown watch
               prepared_bitrate_unknown _ main_profile (-1)
               bitrate_unknown_no_throws _ _ _ _ _))).
  - vm_compute. reflexivity.
  - reflexivity.
  - intros c. reflexivity.
  - intros tr. reflexivity.
  - reflexivity.
Defined.

(** ** shutdown *)

Lemma teardown_all_cons (sessionId : string) (ids : list string)
  (d : ProtectStreamingDelegate) :
  fst (teardown_all (sessionId :: ids) d)
  = fst (teardown_all ids (teardown_state d sessionId))
  /\ snd (teardown_all (sessionId :: ids) d)
     = teardown_trace d sessionId
         ++ snd (teardown_all ids (teardown_state d sessionId)).
Proof.
  cbn [teardown_all].
  destruct (teardown_all ids (teardown_state d sessionId)); auto.
Qed.

Lemma teardown_all_sessions (ids : list string)
  (d : ProtectStreamingDelegate) (k : string) :
  JsObject.get k (ongoingSessions (fst (teardown_all ids d)))
  = (if existsb (String.eqb k) ids then None
     else JsObject.get k (ongoingSessions d))
  /\ JsObject.get k (pendingSessions (fst (teardown_all ids d)))
     = (if existsb (String.eqb k) ids then None
        else JsObject.get k (pendingSessions d)).
Proof.
  revert d. induction ids as [| sessionId ids IH]; intros d.
  - cbn. auto.
  - destruct (teardown_all_cons sessionId ids d) as [Hf _]. rewrite Hf.
    destruct (IH (teardown_state d sessionId)) as [Ho Hp].
    rewrite Ho, Hp. clear Ho Hp IH Hf.
    destruct (teardown_state_fields d sessionId) as (Ho & Hp & _).
    rewrite Ho, Hp, !get_delete. cbn [existsb].
    rewrite (String.eqb_sym k sessionId).
    destruct (String.eqb sessionId k); cbn [orb];
      destruct (existsb (String.eqb k) ids); auto.
Qed.

(** The teardown of each identifier in the list is part of the trace, run on
    an object that still holds the records of that identifier. *)
Lemma teardown_all_includes (ids : list string)
  (d : ProtectStreamingDelegate) (k : string) :
  existsb (String.eqb k) ids = true ->
  exists d',
    JsObject.get k (ongoingSessions d') = JsObject.get k (ongoingSessions d)
    /\ JsObject.get k (pendingSessions d')
       = JsObject.get k (pendingSessions d)
    /\ forall e, In e (teardown_trace d' k) ->
                 In e (snd (teardown_all ids d)).
Proof.
  revert d. induction ids as [| sessionId ids IH]; intros d; cbn [existsb].
  - discriminate.
  - destruct (teardown_all_cons sessionId ids d) as [_ Hs]. rewrite Hs.
    destruct (String.eqb_spec k sessionId) as [E | N]; cbn [orb].
    + intros _. subst sessionId. exists d.
      split; [reflexivity |]. split; [reflexivity |].
      intros e He. apply in_or_app. left. exact He.
    + intros Hin.
      destruct (IH (teardown_state d sessionId) Hin) as (d' & Ho & Hp & Hev).
      destruct (teardown_state_fields d sessionId) as (Ho' & Hp' & _).
      rewrite Ho', get_delete in Ho. rewrite Hp', get_delete in Hp.
      destruct (String.eqb_spec sessionId k) as [E' | _]; [congruence |].
      exists d'. split; [exact Ho |]. split; [exact Hp |].
      intros e He. apply in_or_app. right. apply Hev, He.
Qed.

Lemma teardown_trace_ongoing (d : ProtectStreamingDelegate) (k : string)
  (o : OngoingSession) :
  JsObject.get k (ongoingSessions d) = Some o ->
  (forall h, In h (ffmpeg o) ->
             In (Called (FfmpegStop h) Returned) (teardown_trace d k))
  /\ (forall x, In x (rtpPortReservations o) ->
                In (Called (FreePort x) Returned) (teardown_trace d k)).
Proof.
  intros Hget. unfold teardown_trace. rewrite Hget. split.
  - intros h Hin. apply in_or_app. left. apply in_or_app. left.
    unfold stopped.
    apply in_map with (f := fun h => Called (FfmpegStop h) Returned).
    exact Hin.
  - intros x Hin. apply in_or_app. left. apply in_or_app. right.
    apply in_or_app. right. right. unfold freed.
    apply in_map with (f := fun x => Called (FreePort x) Returned).
    exact Hin.
Qed.

Lemma teardown_trace_pending (d : ProtectStreamingDelegate) (k : string)
  (p : SessionInfo.t) :
  JsObject.get k (pendingSessions d) = Some p ->
  forall x, In x (SessionInfo.rtpPortReservations p) ->
            In (Called (FreePort x) Returned) (teardown_trace d k).
Proof.
  intros Hget x Hin. unfold teardown_trace. rewrite Hget.
  apply in_or_app. right. apply in_or_app. left. unfold freed.
  apply in_map with (f := fun x => Called (FreePort x) Returned).
  exact Hin.
Qed.

Lemma get_some_key {V : Type} (k : string) (o : JsObject.t V) (v : V) :
  JsObject.get k o = Some v ->
  existsb (String.eqb k) (JsObject.keys o) = true.
Proof.
  intros H. destruct (existsb (String.eqb k) (JsObject.keys o)) eqn:E;
    [reflexivity |].
  rewrite (get_not_key k o E) in H. discriminate.
Qed.

Lemma shutdown_quiet (w : World) (s : State) :
  no_throws w ->
  forallb (fun k => negb (JsObject.inherited k))
    (JsObject.keys (ongoingSessions (this s))) = true ->
  shutdown w s
  = (Ok tt,
     {| this := fst (teardown_all (JsObject.keys (ongoingSessions (this s)))
                       (this s));
        trace := trace s
                   ++ snd (teardown_all
                             (JsObject.keys (ongoingSessions (this s)))
                             (this s));
        allocated := allocated s |}).
Proof.
  intros Hq Hkeys. unfold shutdown, bind, get. cbn [fst snd].
  apply (for_each_stopStream_quiet w Hq). exact Hkeys.
Qed.

Lemma in_freed (x : Z) (o : outcome) (l : list Z) :
  In (Called (FreePort x) o) (freed l) -> In x l.
Proof.
  unfold freed. intros H. apply in_map_iff in H.
  destruct H as (y & E & Hy). injection E as <- _. exact Hy.
Qed.

Lemma not_in_stopped (x : Z) (o : outcome) (l : list handle) :
  ~ In (Called (FreePort x) o) (stopped l).
Proof.
  unfold stopped. intros H. apply in_map_iff in H.
  destruct H as (y & E & _). discriminate.
Qed.

(** A port freed in a quiet teardown is a port of the ongoing or of the
    pending record of the identifier. *)
Lemma teardown_trace_frees (d : ProtectStreamingDelegate) (k : string)
  (x : Z) (o' : outcome) :
  In (Called (FreePort x) o') (teardown_trace d k) ->
  (exists o, JsObject.get k (ongoingSessions d) = Some o
             /\ In x (rtpPortReservations o))
  \/ (exists p, JsObject.get k (pendingSessions d) = Some p
                /\ In x (SessionInfo.rtpPortReservations p)).
Proof.
  unfold teardown_trace. intros H.
  apply in_app_or in H. destruct H as [H | H].
  - left. destruct (JsObject.get k (ongoingSessions d)) as [o |];
      [| destruct H].
    exists o. split; [reflexivity |].
    apply in_app_or in H. destruct H as [H | H];
      [exfalso; exact (not_in_stopped _ _ _ H) |].
    apply in_app_or in H. destruct H as [H | H].
    { destruct (rtpDemuxer o); [destruct H as [H | []]; discriminate |
                                destruct H]. }
    destruct H as [H | H]; [discriminate |].
    exact (in_freed _ _ _ H).
  - apply in_app_or in H. destruct H as [H | H].
    + right. destruct (JsObject.get k (pendingSessions d)) as [p |];
        [| destruct H].
      exists p. split; [reflexivity | exact (in_freed _ _ _ H)].
    + exfalso.
      destruct (Nat.eqb _ 0); [| destruct H].
      destruct (hksv_isRecording d); [destruct H as [H | []]; discriminate |].
      destruct (truthy (savedBitrate d)); [| destruct H].
      destruct (rtspEntry d); [destruct H as [H | []]; discriminate |
                               destruct H].
Qed.

Lemma teardown_all_frees (ids : list string) (d : ProtectStreamingDelegate)
  (x : Z) (o' : outcome) :
  In (Called (FreePort x) o') (snd (teardown_all ids d)) ->
  exists k,
    existsb (String.eqb k) ids = true
    /\ ((exists o, JsObject.get k (ongoingSessions d) = Some o
                   /\ In x (rtpPortReservations o))
        \/ (exists p, JsObject.get k (pendingSessions d) = Some p
                      /\ In x (SessionInfo.rtpPortReservations p))).
Proof.
  revert d. induction ids as [| k0 ids IH]; intros d H.
  - destruct H.
  - destruct (teardown_all_cons k0 ids d) as [_ Hs]. rewrite Hs in H.
    apply in_app_or in H. destruct H as [H | H].
    + exists k0. cbn [existsb]. rewrite String.eqb_refl. split; [reflexivity |].
      exact (teardown_trace_frees d k0 x o' H).
    + destruct (IH _ H) as (k & Hk & Hrec).
      exists k. cbn [existsb]. rewrite Hk, orb_true_r. split; [reflexivity |].
      destruct (teardown_state_fields d k0) as (Ho & Hp & _).
      rewrite Ho, Hp, !get_delete in Hrec.
      destruct (String.eqb k0 k).
      * destruct Hrec as [(o & E & _) | (p & E & _)]; discriminate.
      * exact Hrec.
Qed.

(** C7, as the code has it.  [shutdown] stops the sessions listed in
    [ongoingSessions], and only those.  When nothing raises, no ongoing
    session is kept under the name of a member every object inherits, and
    the session tables have the prototype they were made with:
    afterwards no ongoing session is left, every FFmpeg process of an
    ongoing session has been stopped and every port it reserved freed; a
    pending record is removed, and its ports freed, exactly when an ongoing
    session has the same identifier; every other pending record stays as it
    is, and no port is freed but those of the records under the identifier
    of an ongoing session. *)
Theorem shutdown_stops_ongoing (w : World) (s : State) :
  no_throws w ->
  plain_tables (this s) = true ->
  forallb (fun k => negb (JsObject.inherited k))
    (JsObject.keys (ongoingSessions (this s))) = true ->
  let d := this s in
  let s' := exec (shutdown w) s in
  let evs := events_of (shutdown w) s in
  ongoingSessions (this s') = []
  /\ (forall sessionId o,
        JsObject.get sessionId (ongoingSessions d) = Some o ->
        (forall h, In h (ffmpeg o) -> called (FfmpegStop h) evs)
        /\ (forall x, In x (rtpPortReservations o) ->
                      called (FreePort x) evs))
  /\ (forall sessionId,
        JsObject.get sessionId (pendingSessions (this s'))
        = if existsb (String.eqb sessionId) (JsObject.keys (ongoingSessions d))
          then None
          else JsObject.get sessionId (pendingSessions d))
  /\ (forall sessionId p x,
        existsb (String.eqb sessionId) (JsObject.keys (ongoingSessions d))
        = true ->
        JsObject.get sessionId (pendingSessions d) = Some p ->
        In x (SessionInfo.rtpPortReservations p) ->
        called (FreePort x) evs)
  /\ (forall x,
        called (FreePort x) evs ->
        exists sessionId,
          existsb (String.eqb sessionId) (JsObject.keys (ongoingSessions d))
          = true
          /\ ((exists o, JsObject.get sessionId (ongoingSessions d) = Some o
                         /\ In x (rtpPortReservations o))
              \/ (exists p,
                    JsObject.get sessionId (pendingSessions d) = Some p
                    /\ In x (SessionInfo.rtpPortReservations p)))).
Proof.
  intros Hq _ Hkeys d s' evs.
  set (ids := JsObject.keys (ongoingSessions d)).
  assert (Hthis : this s' = fst (teardown_all ids d)).
  { unfold s', exec. rewrite (shutdown_quiet w s Hq Hkeys). reflexivity. }
  assert (Hevs : evs = snd (teardown_all ids d)).
  { apply events_of_app. unfold exec. rewrite (shutdown_quiet w s Hq Hkeys).
    reflexivity. }
  rewrite Hthis, Hevs.
  split; [| split; [| split; [| split]]].
  - apply get_none_all. intros k.
    destruct (teardown_all_sessions ids d k) as [Ho _]. rewrite Ho.
    destruct (existsb (String.eqb k) ids) eqn:E; [reflexivity |].
    apply get_not_key, E.
  - intros sessionId o Hget.
    destruct (teardown_all_includes ids d sessionId
                (get_some_key _ _ _ Hget)) as (d' & Ho & _ & Hin).
    rewrite Hget in Ho.
    destruct (teardown_trace_ongoing d' sessionId o Ho) as [Hstop Hfree].
    split.
    + intros h Hh. apply called_returned, Hin, Hstop, Hh.
    + intros x Hx. apply called_returned, Hin, Hfree, Hx.
  - intros sessionId.
    destruct (teardown_all_sessions ids d sessionId) as [_ Hp]. exact Hp.
  - intros sessionId p x Hkey Hget Hx.
    destruct (teardown_all_includes ids d sessionId Hkey)
      as (d' & _ & Hp & Hin).
    rewrite Hget in Hp.
    apply called_returned, Hin.
    apply (teardown_trace_pending d' sessionId p Hp x Hx).
  - intros x (o' & Hin). exact (teardown_all_frees ids d x o' Hin).
Qed.

Lemma shutdown_stops_ongoing_witness :
  ongoingSessions (this (exec (shutdown quiet) intercom_streaming_quiet)) = [].
Proof.
  exact (proj1 (shutdown_stops_ongoing quiet intercom_streaming_quiet
                  quiet_no_throws eq_refl eq_refl)).
Defined.

(** C7 as stated fails, in two ways.  A session that was prepared and never
    started is not in [ongoingSessions], so [shutdown] does nothing for it;
    its record stays and its ports stay reserved.  And a session ongoing
    under ["constructor"] is stopped, but its record is not removed: the
    teardown fails on the inherited [pendingSessions["constructor"]] before
    it gets there. *)
Lemma shutdown_leaves_pending :
  (~ shutdown_complete quiet prepared_only
   /\ events_of (shutdown quiet) prepared_only = []
   /\ JsObject.keys
        (pendingSessions (this (exec (shutdown quiet) prepared_only)))
      = ["session-a"%string])
  /\ (~ shutdown_complete quiet constructor_streaming
      /\ JsObject.keys
           (ongoingSessions
              (this (exec (shutdown quiet) constructor_streaming)))
         = ["constructor"%string]).
Proof.
  split.
  - split; [| split; vm_compute; reflexivity].
    intros (_ & Hpending & _). vm_compute in Hpending. discriminate.
  - split; [| vm_compute; reflexivity].
    intros (Hongoing & _). vm_compute in Hongoing. discriminate.
Qed.

(** ** What prepareStream stores *)

Lemma returns_post {A : Type} (P : State -> Prop) (m : M A)
  (Q Q' : A -> State -> Prop) :
  returns P m Q' -> (forall a s, Q' a s -> Q a s) -> returns P m Q.
Proof.
  intros Hm Hq s Hs. destruct (Hm s Hs) as (a & E & H).
  exists a. split; [exact E | apply Hq, H].
Qed.

Lemma returns_assume {A : Type} (P : State -> Prop) (F : Prop) (m : M A)
  (Q : A -> State -> Prop) :
  (F -> returns P m Q) -> returns (fun s => P s /\ F) m Q.
Proof. intros H s [Hs Hf]. apply (H Hf), Hs. Qed.

Lemma returns_value {A : Type} (P : State -> Prop) (a : A)
  (Q : A -> State -> Prop) :
  (forall s, P s -> Q a s) -> returns P (ret a) Q.
Proof. intros H s Hs. exists a. split; [reflexivity | apply H, Hs]. Qed.

Lemma granted_app (a b : list event) :
  granted (a ++ b) = granted a ++ granted b.
Proof. unfold granted. apply flat_map_app. Qed.

Lemma freed_ports_app (a b : list event) :
  freed_ports (a ++ b) = freed_ports a ++ freed_ports b.
Proof. unfold freed_ports. apply flat_map_app. Qed.

Section Preparing.

Variable w : World.
Variable twoWay : bool.
Variable s0 : State.

Lemma preparing_event (l : list Z) (s : State) (e : event) :
  prepare_event twoWay e = true -> granted [e] = [] ->
  preparing twoWay s0 l s -> preparing twoWay s0 l (update_trace s e).
Proof.
  intros He Hg (Hthis & evs & Ht & Hl & Hp). split; [exact Hthis |].
  exists (evs ++ [e]). cbn [trace update_trace].
  rewrite Ht, app_assoc, granted_app, Hg, app_nil_r, forallb_app, Hp.
  cbn. rewrite He. auto.
Qed.

Lemma preparing_get_known {B : Type} (l : list Z)
  (k : ProtectStreamingDelegate -> M B) (Q : B -> State -> Prop) :
  returns (preparing twoWay s0 l) (k (this s0)) Q ->
  returns (preparing twoWay s0 l) (bind get k) Q.
Proof.
  intros Hk s Hs. unfold bind, get. cbn.
  destruct Hs as [Hthis Hrest]. rewrite Hthis.
  apply Hk. split; assumption.
Qed.

Lemma preparing_fresh (l : list Z) :
  returns (preparing twoWay s0 l) fresh (fun _ s => preparing twoWay s0 l s).
Proof. intros s Hs. exists (allocated s). split; [reflexivity | exact Hs]. Qed.

Lemma preparing_emit (l : list Z) (e : event) :
  prepare_event twoWay e = true -> granted [e] = [] ->
  returns (preparing twoWay s0 l) (emit e)
    (fun _ s => preparing twoWay s0 l s).
Proof.
  intros He Hg s Hs. exists tt. split; [reflexivity |].
  apply preparing_event; assumption.
Qed.

Lemma preparing_source (l : list Z) :
  returns (preparing twoWay s0 l) (ask_num w GenerateSynchronisationSource)
    (fun _ s => preparing twoWay s0 l s).
Proof.
  intros s Hs. eexists. split; [reflexivity |].
  apply preparing_event; [reflexivity | reflexivity | exact Hs].
Qed.

Lemma reservePort_preparing (captured : bool * list Z)
  (ipFamily : AddressVersion) (portCount : Z) :
  returns (preparing twoWay s0 (snd captured))
    (reservePort w captured ipFamily portCount)
    (fun r s => preparing twoWay s0 (snd (snd r)) s).
Proof.
  destruct captured as [[|] reservations]; intros s Hs; unfold reservePort.
  - eexists. split; [reflexivity | exact Hs].
  - unfold bind, ask_num, ret. cbn [fst snd].
    set (n := number w (trace s) (ReservePort ipFamily portCount)).
    destruct Hs as (Hthis & evs & Ht & Hl & Hp). cbn [snd] in Hl.
    destruct (Z.eqb_spec n (-1)) as [E | E]; eexists;
      (split; [reflexivity |]); cbn [snd];
      (split; [exact Hthis |]);
      exists (evs ++ [Called (ReservePort ipFamily portCount) (ReturnedNum n)]);
      cbn [trace update_trace];
      rewrite Ht, app_assoc, granted_app, forallb_app, Hp, <- Hl;
      (split; [reflexivity |]); (split; [| reflexivity]).
    + cbn. rewrite E. cbn. rewrite app_nil_r. reflexivity.
    + cbn. destruct (Z.eqb_spec n (-1)); [contradiction |].
      destruct (portCount =? 2); rewrite <- app_assoc; reflexivity.
Qed.

Lemma preparing_captured (p : Z) (captured : bool * list Z) :
  returns (preparing twoWay s0 (snd captured)) (ret (p, captured))
    (fun r s => preparing twoWay s0 (snd (snd r)) s).
Proof. intros s Hs. eexists. split; [reflexivity | exact Hs]. Qed.

End Preparing.

(** The whole of [prepareStream]: what it stores, and what it has done by
    the time it calls back. *)
Lemma prepareStream_records (w : World) (request : PrepareStreamRequest.t)
  (s0 : State) :
  exists info evs response,
    fst (prepareStream w request s0) = Ok tt
    /\ this (exec (prepareStream w request) s0)
       = with_pendingSessions
           (JsObject.set (PrepareStreamRequest.sessionID request) info
              (pendingSessions (this s0))) (this s0)
    /\ trace (exec (prepareStream w request) s0)
       = trace s0 ++ evs ++ [PrepareCallback response]
    /\ SessionInfo.rtpPortReservations info = granted evs
    /\ forallb (prepare_event (twoWayAudio_enabled (this s0))) evs = true
    /\ is_some (SessionInfo.rtpDemuxer info) = twoWayAudio_enabled (this s0)
    /\ SessionInfo.talkBack info = None.
Proof.
  set (tw := twoWayAudio_enabled (this s0)).
  assert (H :
    returns (preparing tw s0 []) (prepareStream w request)
      (fun _ s =>
         exists info evs response,
           this s
           = with_pendingSessions
               (JsObject.set (PrepareStreamRequest.sessionID request) info
                  (pendingSessions (this s0))) (this s0)
           /\ trace s = trace s0 ++ evs ++ [PrepareCallback response]
           /\ SessionInfo.rtpPortReservations info = granted evs
           /\ forallb (prepare_event tw) evs = true
           /\ is_some (SessionInfo.rtpDemuxer info) = tw
           /\ SessionInfo.talkBack info = None)).
  { unfold prepareStream. apply preparing_get_known. cbv zeta.
    eapply returns_bind;
      [apply (reservePort_preparing w tw s0 (false, []))
      | intros [p1 c1]; cbn [fst snd]].
    unfold tw, twoWayAudio_enabled.
    destruct (Nat.ltb 0
                (List.length (FfmpegOptions.audioEncoder
                                (ffmpegOptions (this s0)))));
      destruct (Hints.twoWayAudio
                  (CameraAccessory.hints (protectCamera (this s0))));
      cbn [andb negb].
    all: eapply returns_bind;
      [first [apply reservePort_preparing | apply preparing_captured]
      | intros [p2 c2]; cbn [fst snd]].
    all: eapply returns_bind;
      [first [apply reservePort_preparing | apply preparing_captured]
      | intros [p3 c3]; cbn [fst snd]].
    all: eapply returns_bind; [apply preparing_source | intros ssrc1; cbv beta].
    all: eapply returns_bind;
      [first [apply preparing_emit; reflexivity | apply returns_ret]
      | intros ?; cbv beta].
    all: match goal with
         | |- returns _ (bind (ret None) _) _ =>
             apply returns_bind
               with (Q1 := fun r s =>
                             preparing false s0 (snd c3) s
                             /\ is_some r = false);
             [apply returns_value; intros s Hs; split; [exact Hs | reflexivity]
             | intros x; apply returns_assume; intros Hx]
         | |- _ =>
             apply returns_bind
               with (Q1 := fun (r : option nat) s =>
                             preparing true s0 (snd c3) s
                             /\ is_some r = true);
             [eapply returns_bind; [apply preparing_fresh | intros y; cbv beta];
              eapply returns_bind;
              [unfold construct; apply preparing_emit; reflexivity
              | intros ?; cbv beta];
              eapply returns_bind;
              [apply preparing_emit; reflexivity | intros ?; cbv beta];
              apply returns_value; intros s Hs; split; [exact Hs | reflexivity]
             | intros x; apply returns_assume; intros Hx]
         end.
    all: eapply returns_bind;
      [apply reservePort_preparing | intros [p4 c4]; cbn [fst snd]].
    all: eapply returns_bind; [apply preparing_source | intros ssrc2; cbv beta].
    all: match goal with
         | |- context [preparing ?b ?s1 (snd ?c)] =>
             apply returns_bind
               with (Q1 := fun _ s => preparing b s1 (snd c) s);
             [destruct (fst c4);
              [apply preparing_emit; reflexivity | apply returns_ret]
             | intros ?; cbv beta]
         end.
    all: intros s (Hthis & evs & Ht & Hl & Hp); eexists;
      (split; [reflexivity |]);
      unfold bind, modify, emit; cbn [fst snd this trace allocated];
      eexists; exists evs; eexists;
      rewrite Hthis, Ht, <- app_assoc;
      (split; [reflexivity |]); (split; [reflexivity |]);
      cbn [SessionInfo.rtpPortReservations SessionInfo.rtpDemuxer
           SessionInfo.talkBack];
      auto. }
  destruct (H s0) as (a & E & info & evs & response & H1 & H2 & H3 & H4 & H5 & H6).
  { split; [reflexivity |]. exists []. rewrite app_nil_r. auto. }
  exists info, evs, response. destruct a. unfold exec. auto 10.
Qed.

Lemma get_set_same {V : Type} (k : string) (v : V) (o : JsObject.t V) :
  JsObject.get k (JsObject.set k v o) = Some v.
Proof.
  induction o as [| [k0 v0] o IH]; cbn.
  - rewrite String.eqb_refl. reflexivity.
  - destruct (String.eqb k k0) eqn:E; cbn.
    + rewrite String.eqb_refl. reflexivity.
    + rewrite E. exact IH.
Qed.

Lemma get_set_other {V : Type} (k k' : string) (v : V) (o : JsObject.t V) :
  k' <> k -> JsObject.get k' (JsObject.set k v o) = JsObject.get k' o.
Proof.
  intros N. induction o as [| [k0 v0] o IH]; cbn.
  - destruct (String.eqb_spec k' k); [contradiction | reflexivity].
  - destruct (String.eqb_spec k k0) as [E | E]; cbn.
    + subst k0. destruct (String.eqb_spec k' k); [contradiction | reflexivity].
    + destruct (String.eqb k' k0); [reflexivity | exact IH].
Qed.

Lemma get_delete_other {V : Type} (k k' : string) (o : JsObject.t V) :
  k' <> k -> JsObject.get k' (JsObject.delete k o) = JsObject.get k' o.
Proof.
  intros N. rewrite get_delete.
  destruct (String.eqb_spec k k'); [congruence | reflexivity].
Qed.

Lemma prepare_event_no_free (twoWay : bool) (evs : list event) :
  forallb (prepare_event twoWay) evs = true -> freed_ports evs = [].
Proof.
  unfold freed_ports.
  induction evs as [| e evs IH]; cbn [forallb flat_map]; [reflexivity |].
  intros H. apply andb_prop in H. destruct H as [He Hr]. rewrite (IH Hr).
  destruct e as [c o | | | | |]; try reflexivity.
  destruct c; try reflexivity. discriminate.
Qed.

Lemma prepare_event_no_demuxer (evs : list event) :
  forallb (prepare_event false) evs = true ->
  forall x ipFamily a b c o,
    ~ In (Called (NewRtpDemuxer x ipFamily a b c) o) evs.
Proof.
  intros H x ipFamily a b c o Hin.
  rewrite forallb_forall in H. specialize (H _ Hin). discriminate.
Qed.

Lemma prepareStream_granted (w : World)
  (request : PrepareStreamRequest.t) (s : State) :
  let sessionID := PrepareStreamRequest.sessionID request in
  let s' := exec (prepareStream w request) s in
  let evs := events_of (prepareStream w request) s in
  (exists info,
      JsObject.get sessionID (pendingSessions (this s')) = Some info
      /\ SessionInfo.rtpPortReservations info = granted evs
      /\ is_some (SessionInfo.rtpDemuxer info)
         = twoWayAudio_enabled (this s))
  /\ freed_ports evs = []
  /\ (forall k, k <> sessionID ->
        JsObject.get k (pendingSessions (this s'))
        = JsObject.get k (pendingSessions (this s)))
  /\ ongoingSessions (this s') = ongoingSessions (this s)
  /\ savedBitrate (this s') = savedBitrate (this s)
  /\ rtspEntry (this s') = rtspEntry (this s).
Proof.
  intros sessionID s' evs.
  destruct (prepareStream_records w request s)
    as (info & done & response & _ & Hthis & Ht & Hports & Hev & Hd & _).
  assert (Hevs : evs = done ++ [PrepareCallback response])
    by (apply events_of_app; exact Ht).
  fold s' in Hthis. rewrite Hthis, Hevs. cbn [pendingSessions
    with_pendingSessions ongoingSessions savedBitrate rtspEntry].
  split; [| split; [| split; [| auto]]].
  - exists info. rewrite get_set_same, granted_app. cbn.
    rewrite app_nil_r. auto.
  - rewrite freed_ports_app, (prepare_event_no_free _ _ Hev). reflexivity.
  - intros k Hk. apply get_set_other, Hk.
Qed.

(** X1.  For an identifier other than [__proto__] (under which an
    assignment stores nothing), [prepareStream] stores the session under the
    identifier of the request with exactly the ports the reservoir granted
    during this call, in the order granted; it gives no port back, also not
    when it replaces an earlier pending record of the same identifier, and it
    leaves every other record and the settings of the object as they were. *)
Theorem prepareStream_stores_granted_ports (w : World)
  (request : PrepareStreamRequest.t) (s : State) :
  PrepareStreamRequest.sessionID request <> "__proto__"%string ->
  let sessionID := PrepareStreamRequest.sessionID request in
  let s' := exec (prepareStream w request) s in
  let evs := events_of (prepareStream w request) s in
  (exists info,
      JsObject.get sessionID (pendingSessions (this s')) = Some info
      /\ SessionInfo.rtpPortReservations info = granted evs
      /\ is_some (SessionInfo.rtpDemuxer info)
         = twoWayAudio_enabled (this s))
  /\ freed_ports evs = []
  /\ (forall k, k <> sessionID ->
        JsObject.get k (pendingSessions (this s'))
        = JsObject.get k (pendingSessions (this s)))
  /\ ongoingSessions (this s') = ongoingSessions (this s)
  /\ savedBitrate (this s') = savedBitrate (this s)
  /\ rtspEntry (this s') = rtspEntry (this s).
Proof.
  intros _ sessionID s' evs.
  destruct (prepareStream_records w request s)
    as (info & done & response & _ & Hthis & Ht & Hports & Hev & Hd & _).
  assert (Hevs : evs = done ++ [PrepareCallback response])
    by (apply events_of_app; exact Ht).
  fold s' in Hthis. rewrite Hthis, Hevs. cbn [pendingSessions
    with_pendingSessions ongoingSessions savedBitrate rtspEntry].
  split; [| split; [| split; [| auto]]].
  - exists info. rewrite get_set_same, granted_app. cbn.
    rewrite app_nil_r. auto.
  - rewrite freed_ports_app, (prepare_event_no_free _ _ Hev). reflexivity.
  - intros k Hk. apply get_set_other, Hk.
Qed.

Lemma prepareStream_stores_granted_ports_witness :
  freed_ports (events_of (prepareStream quiet living_room) intercom_delegate)
  = [].
Proof.
  refine (proj1 (proj2 (prepareStream_stores_granted_ports quiet living_room
                          intercom_delegate _))).
  discriminate.
Defined.

(** X2.  When two-way audio is off (no audio encoder, or the camera hint is
    off), [prepareStream] builds no RTP demuxer and stores none with the
    session. *)
Theorem prepareStream_one_way (w : World)
  (request : PrepareStreamRequest.t) (s : State) :
  twoWayAudio_enabled (this s) = false ->
  (forall x ipFamily a b c o,
      ~ In (Called (NewRtpDemuxer x ipFamily a b c) o)
          (events_of (prepareStream w request) s))
  /\ exists info,
      JsObject.get (PrepareStreamRequest.sessionID request)
        (pendingSessions (this (exec (prepareStream w request) s)))
      = Some info
      /\ SessionInfo.rtpDemuxer info = None.
Proof.
  intros Htw.
  destruct (prepareStream_records w request s)
    as (info & done & response & _ & Hthis & Ht & _ & Hev & Hd & _).
  rewrite Htw in Hev, Hd.
  rewrite (events_of_app _ _ _ Ht), Hthis. split.
  - intros x ipFamily a b c o Hin. apply in_app_or in Hin.
    destruct Hin as [Hin | [Hin | []]]; [| discriminate].
    exact (prepare_event_no_demuxer done Hev x ipFamily a b c o Hin).
  - exists info. cbn [pendingSessions with_pendingSessions].
    rewrite get_set_same. split; [reflexivity |].
    destruct (SessionInfo.rtpDemuxer info); [discriminate | reflexivity].
Qed.

Lemma prepareStream_one_way_witness :
  exists info,
    JsObject.get "session-a" (pendingSessions (this prepared_only)) = Some info
    /\ SessionInfo.rtpDemuxer info = None.
Proof.
  exact (proj2 (prepareStream_one_way quiet living_room fresh_delegate
                  eq_refl)).
Defined.

(** ** From pending to ongoing *)

Lemma startStream_launch_quiet (w : World) (request : StartStreamRequest.t)
  (info : SessionInfo.t) (hints : Hints.t) (channelId : Z) (s : State) :
  no_throws w ->
  let sessionID := StartStreamRequest.sessionID request in
  let s' := snd (startStream_launch w request info hints channelId s) in
  fst (startStream_launch w request info hints channelId s) = Ok tt
  /\ JsObject.get sessionID (ongoingSessions (this s'))
     = Some {| ffmpeg :=
                 allocated s
                   :: (if launches_return_audio info hints
                       then [S (allocated s)] else []);
               rtpDemuxer := SessionInfo.rtpDemuxer info;
               rtpPortReservations := SessionInfo.rtpPortReservations info |}
  /\ pendingSessions (this s')
     = JsObject.delete sessionID (pendingSessions (this s))
  /\ (forall k, k <> sessionID ->
        JsObject.get k (ongoingSessions (this s'))
        = JsObject.get k (ongoingSessions (this s)))
  /\ savedBitrate (this s') = savedBitrate (this s)
  /\ rtspEntry (this s') = rtspEntry (this s)
  /\ exists evs,
      trace s' = trace s ++ evs
      /\ launched evs
         = allocated s
             :: (if launches_return_audio info hints
                 then [S (allocated s)] else [])
      /\ bitrate_calls evs
         = [StartStreamRequest.video_max_bit_rate request * 1000]
      /\ freed_ports evs = [].
Proof.
  intros Hq sessionID s'. subst s'.
  remember (startStream_launch w request info hints channelId s) as r eqn:E.
  unfold startStream_launch, launches_return_audio in *.
  unfold bind at 1 in E. rewrite (invoke_quiet w Hq) in E.
  unfold launchReturnAudio, talkbackUnavailable, construct in E.
  unfold bind, get, emit, fresh, modify, ret, try_catch, raise in E.
  cbn [fst snd this trace allocated add_events] in E.
  fold sessionID in E.
  destruct (SessionInfo.hasAudioSupport info);
    destruct (Hints.twoWayAudio hints); cbn [andb negb orb] in *;
    try destruct (SessionInfo.talkBack info) as [endpoint |];
    try destruct (SessionInfo.rtpDemuxer info) as [x |];
    cbn [is_some negb fst snd this trace allocated ongoingSessions
         pendingSessions with_ongoingSessions with_pendingSessions] in E;
    rewrite ?get_set_same in E;
    subst r;
    cbn [is_some negb fst snd this trace allocated ongoingSessions
         pendingSessions with_ongoingSessions with_pendingSessions
         savedBitrate rtspEntry ffmpeg rtpDemuxer rtpPortReservations app];
    rewrite ?get_set_same;
    (split; [reflexivity |]); (split; [reflexivity |]);
    (split; [reflexivity |]);
    (split;
     [intros k Hk; rewrite ?get_set_other by exact Hk; reflexivity |]);
    (split; [reflexivity |]); (split; [reflexivity |]);
    eexists; rewrite <- ?app_assoc; (split; [reflexivity |]);
    cbn; auto.
Qed.

Lemma startStream_saveBitrate_frame (w : World) (channelId : Z) (s : State) :
  no_throws w ->
  let s' := snd (startStream_saveBitrate w channelId s) in
  fst (startStream_saveBitrate w channelId s) = Ok tt
  /\ ongoingSessions (this s') = ongoingSessions (this s)
  /\ pendingSessions (this s') = pendingSessions (this s)
  /\ rtspEntry (this s') = rtspEntry (this s)
  /\ allocated s' = allocated s
  /\ exists evs,
      trace s' = trace s ++ evs
      /\ launched evs = [] /\ freed_ports evs = [].
Proof.
  intros Hq s'. subst s'.
  unfold startStream_saveBitrate, bind, get, invoke_num, modify, ret.
  cbn [fst snd]. destruct (truthy (savedBitrate (this s))); cbn [negb].
  - repeat split. exists []. rewrite app_nil_r. auto.
  - rewrite Hq.
    destruct (number w (trace s) (GetBitrate channelId) <? 0); cbn;
      repeat split; eexists; split; try reflexivity; auto.
Qed.

Lemma startStream_looks_up (w : World) (request : StartStreamRequest.t)
  (s : State) (sessionInfo : SessionInfo.t) (profile : RtspEntry.t) :
  no_throws w ->
  JsObject.get (StartStreamRequest.sessionID request)
    (pendingSessions (this s)) = Some sessionInfo ->
  CameraAccessory.isOnline (protectCamera (this s)) = true ->
  (forall c, rtsp w (trace s) c = Some profile) ->
  exists width height maxPixels,
    startStream w request s
    = (startStream_saveBitrate w (Channel.id (RtspEntry.channel profile)) ;;
       startStream_launch w request sessionInfo
         (CameraAccessory.hints (protectCamera (this s)))
         (Channel.id (RtspEntry.channel profile)))
        {| this := with_rtspEntry (Some profile) (this s);
           trace := trace s
                      ++ [Called (FindRtsp width height maxPixels)
                            (ReturnedRtsp (Some profile))];
           allocated := allocated s |}.
Proof.
  intros Hq Hp Ho Hr. unfold startStream.
  unfold bind at 1. unfold get at 1. cbv zeta. rewrite Hp, Ho. cbn [negb].
  unfold bind at 1. unfold invoke_rtsp at 1. rewrite Hq, Hr.
  unfold bind at 1. unfold modify at 1. cbn [this trace allocated update_trace].
  do 3 eexists. reflexivity.
Qed.

Lemma startStream_succeeds (w : World) (request : StartStreamRequest.t)
  (s : State) (info : SessionInfo.t) (profile : RtspEntry.t) :
  no_throws w ->
  JsObject.get (StartStreamRequest.sessionID request)
    (pendingSessions (this s)) = Some info ->
  CameraAccessory.isOnline (protectCamera (this s)) = true ->
  (forall c, rtsp w (trace s) c = Some profile) ->
  let sessionID := StartStreamRequest.sessionID request in
  let hints := CameraAccessory.hints (protectCamera (this s)) in
  let s' := exec (startStream w request) s in
  let processes :=
    allocated s
      :: (if launches_return_audio info hints then [S (allocated s)] else [])
  in
  fst (startStream w request s) = Ok tt
  /\ JsObject.get sessionID (ongoingSessions (this s'))
     = Some {| ffmpeg := processes;
               rtpDemuxer := SessionInfo.rtpDemuxer info;
               rtpPortReservations := SessionInfo.rtpPortReservations info |}
  /\ pendingSessions (this s')
     = JsObject.delete sessionID (pendingSessions (this s))
  /\ (forall k, k <> sessionID ->
        JsObject.get k (ongoingSessions (this s'))
        = JsObject.get k (ongoingSessions (this s)))
  /\ rtspEntry (this s') = Some profile
  /\ launched (events_of (startStream w request) s) = processes
  /\ freed_ports (events_of (startStream w request) s) = [].
Proof.
  intros Hq Hp Ho Hr sessionID hints s' processes.
  destruct (startStream_looks_up w request s info profile Hq Hp Ho Hr)
    as (width & height & maxPixels & E).
  set (c := FindRtsp width height maxPixels) in *.
  set (ch := Channel.id (RtspEntry.channel profile)) in *.
  set (s1 := {| this := with_rtspEntry (Some profile) (this s);
                trace := trace s ++ [Called c (ReturnedRtsp (Some profile))];
                allocated := allocated s |}) in E.
  destruct (startStream_saveBitrate_frame w ch s1 Hq)
    as (F1 & F2 & F3 & F4 & F5 & evs1 & F6 & F7 & F8).
  unfold bind in E.
  destruct (startStream_saveBitrate w ch s1) as [r s2].
  cbn [fst snd] in F1, F2, F3, F4, F5, F6. subst r.
  destruct (startStream_launch_quiet w request info hints ch s2 Hq)
    as (L1 & L2 & L3 & L4 & _ & L6 & evs2 & L7 & L8 & _ & L10).
  fold hints in E.
  assert (Hexec :
    s' = snd (startStream_launch w request info hints ch s2))
    by (unfold s', exec; rewrite E; reflexivity).
  assert (Hevs :
    events_of (startStream w request) s
    = [Called c (ReturnedRtsp (Some profile))] ++ evs1 ++ evs2).
  { apply events_of_app. fold s'. rewrite Hexec, L7, F6. unfold s1.
    cbn [trace]. rewrite <- !app_assoc. reflexivity. }
  assert (A : allocated s2 = allocated s) by (rewrite F5; reflexivity).
  rewrite A in L2, L8.
  split; [rewrite E; exact L1 |].
  split; [rewrite Hexec; exact L2 |].
  split; [rewrite Hexec, L3, F3; reflexivity |].
  split; [intros k Hk; rewrite Hexec, (L4 k Hk), F2; reflexivity |].
  split; [rewrite Hexec, L6, F4; reflexivity |].
  rewrite Hevs. split.
  - unfold launched in *. rewrite !flat_map_app, F7, L8. reflexivity.
  - unfold freed_ports in *. rewrite !flat_map_app, F8, L10. reflexivity.
Qed.

(** X3.  A start that goes through (nothing raises, the camera is online, a
    stream profile is found, and the identifier is not the name of a member
    every object inherits) moves the session from pending to ongoing with
    the ports and the demuxer it was prepared with.  It launches one FFmpeg
    process, and the return audio process as well only when two-way audio is
    on and the session has no demuxer to wait for; it frees no port and
    leaves the ongoing sessions of other identifiers alone. *)
Theorem startStream_pending_to_ongoing (w : World)
  (request : StartStreamRequest.t) (s : State) (info : SessionInfo.t)
  (profile : RtspEntry.t) :
  no_throws w ->
  JsObject.inherited (StartStreamRequest.sessionID request) = false ->
  JsObject.get (StartStreamRequest.sessionID request)
    (pendingSessions (this s)) = Some info ->
  CameraAccessory.isOnline (protectCamera (this s)) = true ->
  (forall c, rtsp w (trace s) c = Some profile) ->
  let sessionID := StartStreamRequest.sessionID request in
  let hints := CameraAccessory.hints (protectCamera (this s)) in
  let s' := exec (startStream w request) s in
  (exists o,
      JsObject.get sessionID (ongoingSessions (this s')) = Some o
      /\ rtpPortReservations o = SessionInfo.rtpPortReservations info
      /\ rtpDemuxer o = SessionInfo.rtpDemuxer info
      /\ ffmpeg o = launched (events_of (startStream w request) s)
      /\ List.length (ffmpeg o)
         = if launches_return_audio info hints then 2%nat else 1%nat)
  /\ JsObject.get sessionID (pendingSessions (this s')) = None
  /\ (forall k, k <> sessionID ->
        JsObject.get k (ongoingSessions (this s'))
        = JsObject.get k (ongoingSessions (this s))
        /\ JsObject.get k (pendingSessions (this s'))
           = JsObject.get k (pendingSessions (this s)))
  /\ freed_ports (events_of (startStream w request) s) = [].
Proof.
  intros Hq _ Hp Ho Hr sessionID hints s'.
  destruct (startStream_succeeds w request s info profile Hq Hp Ho Hr)
    as (_ & H2 & H3 & H4 & _ & H6 & H7).
  fold sessionID hints s' in H2, H3, H4, H6.
  split; [| split; [| split; [| exact H7]]].
  - eexists. split; [exact H2 |]. cbn [rtpPortReservations rtpDemuxer ffmpeg].
    rewrite H6. repeat split.
    destruct (launches_return_audio info hints); reflexivity.
  - rewrite H3. apply get_delete_same.
  - intros k Hk. split; [apply H4, Hk |].
    rewrite H3. apply get_delete_other, Hk.
Qed.

Lemma startStream_pending_to_ongoing_witness :
  JsObject.get "session-a"
    (pendingSessions (this (exec (startStream quiet watch) prepared_only)))
  = None.
Proof.
  refine (proj1 (proj2
            (startStream_pending_to_ongoing quiet watch prepared_only _
               main_profile quiet_no_throws eq_refl _ _ _))).
  - vm_compute. reflexivity.
  - reflexivity.
  - intros c. reflexivity.
Defined.

(** ** Ports: from the reservoir and back *)

Lemma freed_ports_stopped (l : list handle) : freed_ports (stopped l) = [].
Proof. induction l as [| x l IH]; [reflexivity | exact IH]. Qed.

Lemma freed_ports_freed (l : list Z) : freed_ports (freed l) = l.
Proof.
  induction l as [| x l IH]; [reflexivity |].
  unfold freed_ports, freed in *. cbn. f_equal. exact IH.
Qed.

Lemma freed_ports_teardown (d : ProtectStreamingDelegate)
  (sessionId : string) :
  freed_ports (teardown_trace d sessionId)
  = (match JsObject.get sessionId (ongoingSessions d) with
     | Some o => rtpPortReservations o
     | None => []
     end)
      ++ (match JsObject.get sessionId (pendingSessions d) with
          | Some p => SessionInfo.rtpPortReservations p
          | None => []
          end).
Proof.
  unfold teardown_trace. rewrite !freed_ports_app.
  assert (E3 :
    freed_ports
      (if Nat.eqb
            (List.length
               (JsObject.keys (JsObject.delete sessionId (ongoingSessions d))))
            0
       then
         if hksv_isRecording d then [Called RestartTimeshifting Returned]
         else if truthy (savedBitrate d) then
           match rtspEntry d with
           | Some profile =>
               [Called (SetBitrate (Channel.id (RtspEntry.channel profile))
                          (savedBitrate d)) Returned]
           | None => []
           end
         else []
       else []) = []).
  { destruct (Nat.eqb _ 0); [| reflexivity].
    destruct (hksv_isRecording d); [reflexivity |].
    destruct (truthy (savedBitrate d)); [| reflexivity].
    destruct (rtspEntry d); reflexivity. }
  rewrite E3, app_nil_r. f_equal.
  - destruct (JsObject.get sessionId (ongoingSessions d)) as [o |];
      [| reflexivity].
    rewrite !freed_ports_app, freed_ports_stopped, freed_ports_freed.
    destruct (rtpDemuxer o); reflexivity.
  - destruct (JsObject.get sessionId (pendingSessions d));
      [apply freed_ports_freed | reflexivity].
Qed.

(** X4.  Prepare, start, stop, for an identifier that is not the name of a
    member every object inherits, on session tables that have the prototype
    they were made with: when nothing raises, the camera is online
    and a stream profile is found, [stopStream] gives back exactly the ports
    that
    [prepareStream] was granted for the session, each once and in the order
    granted; neither [prepareStream] nor [startStream] gives a port back, and
    after the stop the identifier is neither pending nor ongoing. *)
Theorem ports_granted_are_freed (w : World)
  (prepare : PrepareStreamRequest.t) (start : StartStreamRequest.t)
  (s : State) (profile : RtspEntry.t) :
  no_throws w ->
  plain_tables (this s) = true ->
  JsObject.inherited (PrepareStreamRequest.sessionID prepare) = false ->
  StartStreamRequest.sessionID start = PrepareStreamRequest.sessionID prepare ->
  CameraAccessory.isOnline (protectCamera (this s)) = true ->
  (forall tr c, rtsp w tr c = Some profile) ->
  let sessionID := PrepareStreamRequest.sessionID prepare in
  let s1 := exec (prepareStream w prepare) s in
  let s2 := exec (startStream w start) s1 in
  let s3 := exec (stopStream w sessionID) s2 in
  freed_ports (events_of (stopStream w sessionID) s2)
  = granted (events_of (prepareStream w prepare) s)
  /\ freed_ports (events_of (prepareStream w prepare) s) = []
  /\ freed_ports (events_of (startStream w start) s1) = []
  /\ JsObject.get sessionID (ongoingSessions (this s3)) = None
  /\ JsObject.get sessionID (pendingSessions (this s3)) = None.
Proof.
  intros Hq _ Hname Hid Ho Hr sessionID s1 s2 s3.
  destruct (prepareStream_granted w prepare s)
    as ((info & Hget & Hports & _) & Hfree1 & _).
  fold s1 in Hget.
  destruct (prepareStream_records w prepare s)
    as (info' & _ & _ & _ & Hthis & _).
  fold s1 in Hthis.
  assert (Ho1 : CameraAccessory.isOnline (protectCamera (this s1)) = true)
    by (rewrite Hthis; exact Ho).
  rewrite <- Hid in Hget.
  destruct (startStream_succeeds w start s1 info profile Hq Hget Ho1
              (Hr (trace s1)))
    as (_ & H2 & H3 & _ & _ & _ & Hfree2).
  fold s2 in H2, H3. rewrite Hid in H2, H3. fold sessionID in H2, H3.
  fold s1 in Hfree2.
  split; [| split; [exact Hfree1 | split; [exact Hfree2 |]]].
  - rewrite (stopStream_events w Hq) by exact Hname.
    rewrite freed_ports_teardown, H2, H3, get_delete_same, app_nil_r.
    exact Hports.
  - unfold s3. rewrite (stopStream_this w Hq) by exact Hname.
    destruct (teardown_state_fields (this s2) sessionID) as (E1 & E2 & _).
    rewrite E1, E2, !get_delete_same. auto.
Qed.

Lemma ports_granted_are_freed_witness :
  freed_ports
    (events_of (stopStream quiet "session-a")
       (exec (startStream quiet watch)
          (exec (prepareStream quiet living_room) intercom_delegate)))
  = granted (events_of (prepareStream quiet living_room) intercom_delegate).
Proof.
  exact (proj1 (ports_granted_are_freed quiet living_room watch
                  intercom_delegate main_profile quiet_no_throws eq_refl
                  eq_refl eq_refl eq_refl (fun _ _ => eq_refl))).
Defined.

(** X5.  Prepare, then stop without a start, for an identifier that is not
    the name of a member every object inherits, on session tables that have
    the prototype they were made with: when nothing raises,
    [stopStream] gives back the ports of the ongoing session that already had
    this identifier, if there was one, and then exactly the ports that
    [prepareStream] was granted; the identifier is then neither pending nor
    ongoing. *)
Theorem prepared_ports_are_freed (w : World)
  (prepare : PrepareStreamRequest.t) (s : State) :
  no_throws w ->
  plain_tables (this s) = true ->
  JsObject.inherited (PrepareStreamRequest.sessionID prepare) = false ->
  let sessionID := PrepareStreamRequest.sessionID prepare in
  let s1 := exec (prepareStream w prepare) s in
  let s2 := exec (stopStream w sessionID) s1 in
  freed_ports (events_of (stopStream w sessionID) s1)
  = (match JsObject.get sessionID (ongoingSessions (this s)) with
     | Some o => rtpPortReservations o
     | None => []
     end)
      ++ granted (events_of (prepareStream w prepare) s)
  /\ JsObject.get sessionID (ongoingSessions (this s2)) = None
  /\ JsObject.get sessionID (pendingSessions (this s2)) = None.
Proof.
  intros Hq _ Hname sessionID s1 s2.
  destruct (prepareStream_granted w prepare s)
    as ((info & Hget & Hports & _) & _ & _ & Hon & _).
  fold sessionID s1 in Hget, Hon.
  split.
  - rewrite (stopStream_events w Hq) by exact Hname.
    rewrite freed_ports_teardown, Hget, Hon, Hports.
    reflexivity.
  - unfold s2. rewrite (stopStream_this w Hq) by exact Hname.
    destruct (teardown_state_fields (this s1) sessionID) as (E1 & E2 & _).
    rewrite E1, E2, !get_delete_same. auto.
Qed.

Lemma prepared_ports_are_freed_witness :
  JsObject.get "session-a"
    (pendingSessions
       (this (exec (stopStream quiet "session-a") prepared_only)))
  = None.
Proof.
  exact (proj2 (proj2 (prepared_ports_are_freed quiet living_room
                         fresh_delegate quiet_no_throws eq_refl eq_refl))).
Defined.

(** ** Starts that do not go through *)

(** X6.  When the camera is offline, [startStream] reports it: it logs the
    error, calls the callback once with an error, and returns.  It asks the
    camera nothing and launches nothing, and it leaves the object as it was,
    so the session stays pending with its ports reserved. *)
Theorem startStream_camera_offline (w : World)
  (request : StartStreamRequest.t) (s : State) (info : SessionInfo.t) :
  JsObject.get (StartStreamRequest.sessionID request)
    (pendingSessions (this s)) = Some info ->
  CameraAccessory.isOnline (protectCamera (this s)) = false ->
  fst (startStream w request s) = Ok tt
  /\ this (exec (startStream w request) s) = this s
  /\ events_of (startStream w request) s
     = [LogError "Unable to start video stream: the camera is offline or unavailable.";
        StreamCallback
          (Some (String.append (CameraAccessory.name (protectCamera (this s)))
                   ": Unable to start video stream: the camera is offline or unavailable."))].
Proof.
  intros Hp Ho.
  assert (E :
    startStream w request s
    = (Ok tt,
       add_events s
         [LogError "Unable to start video stream: the camera is offline or unavailable.";
          StreamCallback
            (Some (String.append
                     (CameraAccessory.name (protectCamera (this s)))
                     ": Unable to start video stream: the camera is offline or unavailable."))])).
  { unfold startStream, bind, get, emit. cbn [fst snd]. rewrite Hp, Ho.
    cbn [negb]. unfold add_events. cbn. rewrite <- app_assoc. reflexivity. }
  split; [rewrite E; reflexivity |].
  split; [unfold exec; rewrite E; reflexivity |].
  apply events_of_app. unfold exec. rewrite E. reflexivity.
Qed.

Lemma startStream_camera_offline_witness :
  this (exec (startStream quiet watch) prepared_then_unplugged)
  = this prepared_then_unplugged.
Proof.
  refine (proj1 (proj2 (startStream_camera_offline quiet watch
                          prepared_then_unplugged _ _ _))).
  - vm_compute. reflexivity.
  - reflexivity.
Defined.

(** X7.  When the camera has no matching stream profile, [startStream] logs
    the error and calls the callback once with an error.  It has by then set
    [rtspEntry] to null, and changed nothing else: the session stays pending
    with its ports reserved, the saved bitrate is untouched, no bitrate is
    read or pushed, and no process is launched. *)
Theorem startStream_no_profile (w : World)
  (request : StartStreamRequest.t) (s : State) (info : SessionInfo.t) :
  JsObject.get (StartStreamRequest.sessionID request)
    (pendingSessions (this s)) = Some info ->
  CameraAccessory.isOnline (protectCamera (this s)) = true ->
  (forall c, throws w (trace s) c = false) ->
  (forall c, rtsp w (trace s) c = None) ->
  fst (startStream w request s) = Ok tt
  /\ this (exec (startStream w request) s) = with_rtspEntry None (this s)
  /\ exists width height maxPixels,
      events_of (startStream w request) s
      = [Called (FindRtsp width height maxPixels) (ReturnedRtsp None);
         LogError "%s %sx%s, %s fps, %s kbps.";
         StreamCallback
           (Some (String.append
                    (CameraAccessory.name (protectCamera (this s)))
                    ": Unable to start video stream: no valid RTSP stream profile was found."))].
Proof.
  intros Hp Ho Hq Hr.
  assert (E : exists width height maxPixels,
    startStream w request s
    = (Ok tt,
       {| this := with_rtspEntry None (this s);
          trace :=
            trace s
              ++ [Called (FindRtsp width height maxPixels) (ReturnedRtsp None);
                  LogError "%s %sx%s, %s fps, %s kbps.";
                  StreamCallback
                    (Some (String.append
                             (CameraAccessory.name (protectCamera (this s)))
                             ": Unable to start video stream: no valid RTSP stream profile was found."))];
          allocated := allocated s |})).
  { unfold startStream. unfold bind at 1. unfold get at 1. cbv zeta.
    rewrite Hp, Ho. cbn [negb].
    unfold bind at 1. unfold invoke_rtsp at 1. rewrite Hq, Hr.
    unfold bind, modify, emit, update_trace. cbn [fst snd this trace allocated].
    do 3 eexists. rewrite <- !app_assoc. reflexivity. }
  destruct E as (width & height & maxPixels & E).
  split; [rewrite E; reflexivity |].
  split; [unfold exec; rewrite E; reflexivity |].
  exists width, height, maxPixels.
  apply events_of_app. unfold exec. rewrite E. reflexivity.
Qed.

Lemma startStream_no_profile_witness :
  this (exec (startStream no_profile watch) prepared_only)
  = with_rtspEntry None (this prepared_only).
Proof.
  refine (proj1 (proj2 (startStream_no_profile no_profile watch
                          prepared_only _ _ _ _ _))).
  - vm_compute. reflexivity.
  - reflexivity.
  - intros c. reflexivity.
  - intros c. reflexivity.
Defined.

(** ** A bitrate already saved *)

Lemma startStream_inherited_keeps_saved (w : World)
  (request : StartStreamRequest.t) (v : Z) (tr0 : list event) :
  v <> 0 ->
  preserves (tracked (fun d => savedBitrate d = v) no_getBitrate tr0)
    (startStream_inherited w request).
Proof.
  intros Hv. unfold startStream_inherited. cbv zeta.
  apply preserves_bind; [apply preserves_get | intros d].
  destruct (negb (CameraAccessory.isOnline (protectCamera d))); [track |].
  apply preserves_bind;
    [unfold invoke_rtsp; intros s Hs;
     destruct (throws w (trace s) _);
     apply tracked_event; auto | intros entry].
  apply preserves_bind; [track | intros _].
  destruct entry as [profile |]; [| track].
  apply preserves_bind.
  - unfold startStream_saveBitrate. apply preserves_get_bind.
    intros s Hs. destruct Hs as [Hsaved Hrest].
    assert (T : truthy (savedBitrate (this s)) = true).
    { unfold truthy. rewrite Hsaved.
      destruct (Z.eqb_spec v 0); [contradiction | reflexivity]. }
    rewrite T. cbn [negb]. split; assumption.
  - intros _. track.
Qed.

Lemma startStream_keeps_saved (w : World) (request : StartStreamRequest.t)
  (v : Z) (tr0 : list event) :
  v <> 0 ->
  preserves (tracked (fun d => savedBitrate d = v) no_getBitrate tr0)
    (startStream w request).
Proof.
  intros Hv. unfold startStream. cbv zeta.
  apply preserves_bind; [apply preserves_get | intros d].
  destruct (JsObject.get _ (pendingSessions d)) as [info |];
    [| destruct (JsObject.inherited _);
       [apply startStream_inherited_keeps_saved; exact Hv
       | apply preserves_raise]].
  destruct (negb (CameraAccessory.isOnline (protectCamera d))); [track |].
  apply preserves_bind;
    [unfold invoke_rtsp; intros s Hs;
     destruct (throws w (trace s) _);
     apply tracked_event; auto | intros entry].
  apply preserves_bind; [track | intros _].
  destruct entry as [profile |]; [| track].
  apply preserves_bind.
  - unfold startStream_saveBitrate. apply preserves_get_bind.
    intros s Hs. destruct Hs as [Hsaved Hrest].
    assert (T : truthy (savedBitrate (this s)) = true).
    { unfold truthy. rewrite Hsaved.
      destruct (Z.eqb_spec v 0); [contradiction | reflexivity]. }
    rewrite T. cbn [negb]. split; assumption.
  - intros _.
    unfold startStream_launch, launchReturnAudio, talkbackUnavailable. track.
Qed.

(** X8.  A start that finds a bitrate already saved (a nonzero value) does
    not ask the camera for its bitrate and leaves the saved value alone,
    whatever the start runs into: only the first stream saves. *)
Theorem startStream_saves_once (w : World) (request : StartStreamRequest.t)
  (s : State) :
  savedBitrate (this s) <> 0 ->
  savedBitrate (this (exec (startStream w request) s)) = savedBitrate (this s)
  /\ forall channelId o,
      ~ In (Called (GetBitrate channelId) o)
          (events_of (startStream w request) s).
Proof.
  intros Hv.
  destruct (startStream_keeps_saved w request (savedBitrate (this s))
              (trace s) Hv s) as (Hsaved & evs & Ht & Hp).
  { split; [reflexivity |]. exists []. rewrite app_nil_r. auto. }
  split; [exact Hsaved |].
  intros channelId o Hin. rewrite (events_of_app _ _ evs Ht) in Hin.
  rewrite forallb_forall in Hp. specialize (Hp _ Hin). discriminate.
Qed.

Lemma startStream_saves_once_witness :
  savedBitrate (this (exec (startStream profile_lost watch_kitchen)
                        second_viewer_rejected))
  = savedBitrate (this second_viewer_rejected).
Proof.
  refine (proj1 (startStream_saves_once profile_lost watch_kitchen
                   second_viewer_rejected _)).
  vm_compute. discriminate.
Defined.

(** ** Reconfigure and stop requests *)

(** X9.  A reconfigure request never changes the object.  With no stream
    profile selected it only logs and calls back; with one selected it pushes
    the requested bitrate (in bits per second) to the camera and then calls
    back, and if that push raises, the exception leaves the handler and the
    callback is not called. *)
Theorem handleStreamRequest_reconfigure (w : World) (sessionID : string)
  (video_max_bit_rate : Z) (s : State) :
  let m := handleStreamRequest w (RECONFIGURE sessionID video_max_bit_rate) in
  let push profile :=
    SetBitrate (Channel.id (RtspEntry.channel profile))
      (video_max_bit_rate * 1000) in
  let line :=
    LogInfo "Streaming parameters adjustment requested by HomeKit: %sx%s, %s fps, %s kbps." in
  this (exec m s) = this s
  /\ (rtspEntry (this s) = None ->
      fst (m s) = Ok tt /\ events_of m s = [line; StreamCallback None])
  /\ (forall profile,
        rtspEntry (this s) = Some profile ->
        if throws w (trace s ++ [line]) (push profile)
        then fst (m s) = Throw (Thrown (push profile))
             /\ events_of m s = [line; Called (push profile) Threw]
        else fst (m s) = Ok tt
             /\ events_of m s
                = [line; Called (push profile) Returned; StreamCallback None]).
Proof.
  intros m push line.
  assert (E :
    m s
    = match rtspEntry (this s) with
      | None => (Ok tt, add_events s [line; StreamCallback None])
      | Some profile =>
          if throws w (trace s ++ [line]) (push profile)
          then (Throw (Thrown (push profile)),
                add_events s [line; Called (push profile) Threw])
          else (Ok tt,
                add_events s
                  [line; Called (push profile) Returned; StreamCallback None])
      end).
  { subst m push line. unfold handleStreamRequest, bind, get, emit, invoke,
      update_trace, add_events, ret.
    cbn [fst snd this trace allocated].
    destruct (rtspEntry (this s)) as [profile |].
    - destruct (throws w _ _); cbn; rewrite <- ?app_assoc; reflexivity.
    - cbn. rewrite <- ?app_assoc. reflexivity. }
  split; [| split].
  - unfold exec. rewrite E.
    destruct (rtspEntry (this s)) as [profile |]; [| reflexivity].
    destruct (throws w (trace s ++ [line]) (push profile)); reflexivity.
  - intros N. rewrite N in E. split; [rewrite E; reflexivity |].
    apply events_of_app. unfold exec. rewrite E. reflexivity.
  - intros profile P. rewrite P in E.
    destruct (throws w (trace s ++ [line]) (push profile));
      (split; [rewrite E; reflexivity |]);
      apply events_of_app; unfold exec; rewrite E; reflexivity.
Qed.

Lemma handleStreamRequest_reconfigure_witness :
  events_of (handleStreamRequest quiet (RECONFIGURE "session-a" 132))
    fresh_delegate
  = [LogInfo "Streaming parameters adjustment requested by HomeKit: %sx%s, %s fps, %s kbps.";
     StreamCallback None].
Proof.
  exact (proj2 (proj1 (proj2 (handleStreamRequest_reconfigure quiet
                                "session-a" 132 fresh_delegate)) eq_refl)).
Defined.

Lemma stopStream_extends (w : World) (sessionId : string) (s : State) :
  exists evs, trace (exec (stopStream w sessionId) s) = trace s ++ evs.
Proof.
  assert (H :
    preserves (tracked (fun _ => True) any_event (trace s))
      (stopStream w sessionId)).
  { unfold stopStream, stopStream_try, stopStream_catch. track. }
  destruct (H s) as (_ & evs & Ht & _).
  { split; [exact I |]. exists []. rewrite app_nil_r. auto. }
  exists evs. exact Ht.
Qed.

(** X10.  A stop request always completes: whatever raises during the
    teardown, the handler returns normally and its last act is to call the
    callback, without an error, after everything [stopStream] did. *)
Theorem handleStreamRequest_stop (w : World) (sessionID : string)
  (s : State) :
  fst (handleStreamRequest w (STOP sessionID) s) = Ok tt
  /\ events_of (handleStreamRequest w (STOP sessionID)) s
     = events_of (stopStream w sessionID) s ++ [StreamCallback None]
  /\ this (exec (handleStreamRequest w (STOP sessionID)) s)
     = this (exec (stopStream w sessionID) s).
Proof.
  destruct (stopStream_catches w sessionID s) as [Hok _].
  destruct (stopStream_extends w sessionID s) as (evs & Ht).
  unfold handleStreamRequest, bind, exec in *.
  destruct (stopStream w sessionID s) as [r s1] eqn:E.
  cbn [fst snd] in Hok, Ht. subst r.
  split; [reflexivity |]. split; [| reflexivity].
  unfold events_of, exec. rewrite E. cbn [fst snd emit trace].
  rewrite Ht, <- app_assoc, !skipn_app, !skipn_all, Nat.sub_diag.
  reflexivity.
Qed.

(** ** The return audio, once the first packet is in *)

(** X11.  When [startStream] resumes after the first packet of the demuxer,
    it never raises.  If the demuxer has been closed in the meantime it
    launches nothing and leaves the object alone.  If it still runs, it
    launches the return audio process and adds it to the processes of the
    session, whose ports and demuxer stay; but if the session has been
    stopped by then, the process is launched all the same, no record holds
    it, and the error is logged. *)
Theorem startStream_resume_cases (w : World) (sessionID : string)
  (x : demuxer) (ws : bool) (s : State) :
  let m := startStream_resume w sessionID x ws in
  fst (m s) = Ok tt
  /\ (running w (trace s) x = false ->
      this (exec m s) = this s /\ launched (events_of m s) = [])
  /\ (running w (trace s) x = true ->
      launched (events_of m s) = [allocated s]
      /\ match JsObject.get sessionID (ongoingSessions (this s)) with
         | Some o =>
             this (exec m s)
             = with_ongoingSessions
                 (JsObject.set sessionID
                    {| ffmpeg := ffmpeg o ++ [allocated s];
                       rtpDemuxer := rtpDemuxer o;
                       rtpPortReservations := rtpPortReservations o |}
                    (ongoingSessions (this s))) (this s)
         | None =>
             this (exec m s) = this s
             /\ In (LogError "Unable to connect to the return audio channel: %s")
                  (events_of m s)
         end).
Proof.
  intros m.
  set (probe := Called (DemuxerIsRunning x)
                  (ReturnedBool (running w (trace s) x))).
  set (spawn := Called (NewFfmpegStreamingProcess (allocated s) sessionID
                          None None) Returned).
  assert (E :
    m s
    = if running w (trace s) x
      then
        match JsObject.get sessionID (ongoingSessions (this s)) with
        | Some o =>
            (Ok tt,
             {| this :=
                  with_ongoingSessions
                    (JsObject.set sessionID
                       {| ffmpeg := ffmpeg o ++ [allocated s];
                          rtpDemuxer := rtpDemuxer o;
                          rtpPortReservations := rtpPortReservations o |}
                       (ongoingSessions (this s))) (this s);
                trace := trace s ++ [probe; spawn];
                allocated := S (allocated s) |})
        | None =>
            (Ok tt,
             {| this := this s;
                trace :=
                  trace s
                    ++ [probe; spawn;
                        LogError "Unable to connect to the return audio channel: %s"];
                allocated := S (allocated s) |})
        end
      else
        (Ok tt,
         {| this := this s;
            trace := trace s
                       ++ probe :: (if ws
                                    then [Called WebSocketTerminate Returned]
                                    else []);
            allocated := allocated s |})).
  { subst m probe spawn.
    unfold startStream_resume, try_catch, bind, isRunning, launchReturnAudio,
      construct, talkbackUnavailable, bind, get, fresh, emit, modify, raise,
      ret, update_trace.
    cbn [fst snd this trace allocated].
    destruct (running w (trace s) x); cbn [negb].
    - cbn [fst snd this trace allocated].
      destruct (JsObject.get sessionID (ongoingSessions (this s)));
        cbn; rewrite <- ?app_assoc; reflexivity.
    - destruct ws; cbn; rewrite <- ?app_assoc; reflexivity. }
  split; [| split].
  - rewrite E. destruct (running w (trace s) x);
      [destruct (JsObject.get sessionID (ongoingSessions (this s))) |];
      reflexivity.
  - intros R. rewrite R in E. unfold exec. rewrite E.
    split; [reflexivity |].
    rewrite (events_of_app m s
               (probe :: (if ws then [Called WebSocketTerminate Returned]
                          else [])));
      [destruct ws; reflexivity | unfold exec; rewrite E; reflexivity].
  - intros R. rewrite R in E.
    destruct (JsObject.get sessionID (ongoingSessions (this s))) as [o |].
    + rewrite (events_of_app m s [probe; spawn]);
        [| unfold exec; rewrite E; reflexivity].
      split; [reflexivity |]. unfold exec. rewrite E. reflexivity.
    + rewrite (events_of_app m s
                 [probe; spawn;
                  LogError "Unable to connect to the return audio channel: %s"]);
        [| unfold exec; rewrite E; reflexivity].
      split; [reflexivity |]. split; [unfold exec; rewrite E; reflexivity |].
      right. right. left. reflexivity.
Qed.

Lemma startStream_resume_cases_witness :
  this (exec (startStream_resume demuxers_closed "session-a" 0%nat false)
          intercom_streaming_quiet)
  = this intercom_streaming_quiet.
Proof.
  exact (proj1 (proj1 (proj2 (startStream_resume_cases demuxers_closed
                                "session-a" 0%nat false
                                intercom_streaming_quiet)) eq_refl)).
Defined.

(** ** One session at a time *)

Ltac isolate_step k :=
  first
    [ apply preserves_modify;
      let d := fresh "d" in let H := fresh "H" in
      intros d H; unfold records_of in *;
      cbn [ongoingSessions pendingSessions with_ongoingSessions
           with_pendingSessions with_rtspEntry with_savedBitrate
           with_protectCamera with_hksv with_probesizeOverride
           with_probesizeOverrideCount with_probesizeOverrideTimeout];
      rewrite ?get_set_other, ?get_delete_other by assumption;
      exact H
    | apply reservePort_frame
    | frame_step ].

Lemma stopStream_isolated (w : World) (sessionId k : string)
  (r : option OngoingSession * option SessionInfo.t) :
  k <> sessionId ->
  preserves (on_this (fun d => records_of k d = r)) (stopStream w sessionId).
Proof.
  intros Hk. unfold stopStream, stopStream_try, stopStream_catch.
  repeat isolate_step k.
Qed.

Lemma launchReturnAudio_isolated (sessionID k : string)
  (r : option OngoingSession * option SessionInfo.t) :
  k <> sessionID ->
  preserves (on_this (fun d => records_of k d = r))
    (launchReturnAudio sessionID).
Proof.
  intros Hk. unfold launchReturnAudio.
  apply preserves_bind; [apply preserves_fresh | intros h].
  apply preserves_bind; [apply preserves_construct | intros _].
  apply preserves_get_bind. intros s Hs.
  destruct (JsObject.get sessionID (ongoingSessions (this s))) as [o |];
    [| exact Hs].
  unfold on_this, records_of in *.
  cbn [snd modify this ongoingSessions pendingSessions with_ongoingSessions].
  rewrite get_set_other by exact Hk. exact Hs.
Qed.

Lemma perform_isolated (w : World) (op : operation) (sessionID k : string)
  (r : option OngoingSession * option SessionInfo.t) :
  session_of op = Some sessionID -> k <> sessionID ->
  preserves (on_this (fun d => records_of k d = r)) (perform w op).
Proof.
  intros Hop Hk. destruct op; try discriminate; cbn [perform].
  - injection Hop as Hop. subst sessionID.
    unfold prepareStream. repeat isolate_step k.
  - destruct request as [request | sid rate | sid]; injection Hop as Hop;
      subst sessionID; cbn [handleStreamRequest].
    + unfold startStream, startStream_inherited, startStream_saveBitrate,
        startStream_launch, talkbackUnavailable.
      repeat first [apply launchReturnAudio_isolated; exact Hk
                   | isolate_step k].
    + repeat isolate_step k.
    + repeat first [apply stopStream_isolated; exact Hk | isolate_step k].
  - injection Hop as Hop. subst sessionID0.
    unfold startStream_resume, talkbackUnavailable.
    repeat first [apply launchReturnAudio_isolated; exact Hk
                 | isolate_step k].
Qed.

Lemma perform_no_session (w : World) (op : operation) (k : string)
  (r : option OngoingSession * option SessionInfo.t) :
  session_of op = None -> is_shutdown op = false ->
  preserves (on_this (fun d => records_of k d = r)) (perform w op).
Proof.
  intros Hop Hs. destruct op; try discriminate; cbn [perform].
  - destruct request; discriminate.
  - unfold handleSnapshotRequest. repeat isolate_step k.
  - unfold adjustProbeSize. repeat isolate_step k.
  - unfold timer_fires, probesizeOverrideTimeout_callback.
    repeat isolate_step k.
  - repeat isolate_step k.
  - repeat isolate_step k.
Qed.

(** X12.  What is done for one session does not touch another: whatever
    raises, a prepare, start, reconfigure, stop or resumption for one
    identifier, other than [__proto__], leaves the ongoing and the pending
    record of every other identifier exactly as they were; and a snapshot
    request, a probe-size adjustment, its timer, and changes of the camera
    or of the recording state touch no record at all. *)
Theorem sessions_are_isolated (w : World) (op : operation) (k : string)
  (s : State) :
  is_shutdown op = false ->
  session_of op <> Some "__proto__"%string ->
  session_of op <> Some k ->
  records_of k (this (exec (perform w op) s)) = records_of k (this s).
Proof.
  intros Hs _ Hk.
  destruct (session_of op) as [sessionID |] eqn:E.
  - apply (perform_isolated w op sessionID k (records_of k (this s)) E);
      [congruence | reflexivity].
  - apply (perform_no_session w op k (records_of k (this s)) E Hs).
    reflexivity.
Qed.

Lemma sessions_are_isolated_witness :
  records_of "session-a"
    (this (exec (perform stop_fails (HandleStreamRequest (STOP "session-b")))
             intercom_streaming))
  = records_of "session-a" (this intercom_streaming).
Proof.
  refine (sessions_are_isolated stop_fails
            (HandleStreamRequest (STOP "session-b")) "session-a"
            intercom_streaming eq_refl _ _); discriminate.
Defined.

(** ** The probe-size state, from the constructor on *)

Lemma perform_probe_invariant (w : World) (op : operation) (s : State) :
  probe_invariant (this s) -> probe_invariant (this (exec (perform w op) s)).
Proof.
  intros [Hcap Htimer]. unfold probe_invariant.
  destruct (is_adjustment op) eqn:Ha.
  - destruct op; try discriminate. cbn [perform].
    destruct (adjustProbeSize_fields s) as (_ & Hc & Ho & Ht & _).
    rewrite Hc, Ho, Ht. split; [lia |].
    intros delay.
    destruct (Z.ltb_spec (probesizeOverrideCount (this s) + 1) 10);
      [| discriminate].
    intros E. injection E as E. split; lia.
  - assert (Hcases : op = TimerFires \/ op <> TimerFires).
    { destruct op; try (right; discriminate). left. reflexivity. }
    destruct Hcases as [E | N].
    + subst op. cbn [perform].
      destruct (timer_fires_fields s) as (_ & Ht & Ho & _).
      rewrite Ht, Ho. split; [| discriminate].
      destruct (probesizeOverrideTimeout (this s)); lia.
    + destruct (perform_probe_state w op s Ha N) as (Ho & Hc & Ht).
      rewrite Ho, Hc, Ht. split; assumption.
Qed.

(** X13.  From the constructor on, whatever happens to the delegate and
    whatever raises: the probe-size override never exceeds 5,000,000, and a
    decay timer is only ever armed with a delay of ten minutes and while
    fewer than ten failures have been counted. *)
Theorem probe_state_invariant (w : World) (camera : CameraAccessory.t)
  (options : FfmpegOptions.t) (recording : option ProtectRecordingDelegate.t)
  (ops : list operation) :
  probe_invariant
    (this (run w ops (initial (constructor camera options recording)))).
Proof.
  assert (H : forall s, probe_invariant (this s) ->
                        probe_invariant (this (run w ops s))).
  { induction ops as [| op ops IH]; intros s Hs; cbn [run];
      [exact Hs | apply IH, perform_probe_invariant, Hs]. }
  apply H. split; [cbn; lia | cbn; discriminate].
Qed.

(** ** Teardown when something raises *)

Lemma extends_tracked {A : Type} (m : M A) :
  (forall tr0, preserves (tracked (fun _ => True) any_event tr0) m) ->
  extends m.
Proof.
  intros H s. destruct (H (trace s) s) as (_ & evs & Ht & _).
  - split; [exact I |]. exists []. rewrite app_nil_r. auto.
  - exists evs. exact Ht.
Qed.

Lemma starts_with_invoke (w : World) (c : call) : starts_with c (invoke w c).
Proof.
  intros s. unfold invoke.
  destruct (throws w (trace s) c); eexists; exists []; reflexivity.
Qed.

Lemma starts_with_bind {A B : Type} (c : call) (m : M A) (k : A -> M B) :
  starts_with c m -> (forall a, extends (k a)) -> starts_with c (bind m k).
Proof.
  intros Hm Hk s. unfold bind. destruct (Hm s) as (o & evs & Ht).
  destruct (m s) as [[a | e] s1]; cbn [snd] in *.
  - destruct (Hk a s1) as (evs' & Ht'). exists o, (evs ++ evs').
    rewrite Ht', Ht, <- app_assoc. reflexivity.
  - exists o, evs. exact Ht.
Qed.

Lemma starts_with_try_catch {A : Type} (c : call) (m : M A)
  (handler : exn -> M A) :
  starts_with c m -> (forall e, extends (handler e)) ->
  starts_with c (try_catch m handler).
Proof.
  intros Hm Hh s. unfold try_catch. destruct (Hm s) as (o & evs & Ht).
  destruct (m s) as [[a | e] s1]; cbn [snd] in *.
  - exists o, evs. exact Ht.
  - destruct (Hh e s1) as (evs' & Ht'). exists o, (evs ++ evs').
    rewrite Ht', Ht, <- app_assoc. reflexivity.
Qed.

Lemma stopStream_starts (w : World) (sessionId : string) (s : State)
  (o : OngoingSession) (h : handle) (rest : list handle) :
  JsObject.get sessionId (ongoingSessions (this s)) = Some o ->
  ffmpeg o = h :: rest ->
  exists outcome evs,
    trace (exec (stopStream w sessionId) s)
    = trace s ++ Called (FfmpegStop h) outcome :: evs.
Proof.
  intros Hget Hff.
  assert (H :
    starts_with (FfmpegStop h)
      (try_catch
         ((for_each (ffmpeg o) (fun p => invoke w (FfmpegStop p)) ;;
           (match rtpDemuxer o with
            | Some x => invoke w (DemuxerClose x)
            | None => ret tt
            end) ;;
           emit (LogInfo "Stopped video streaming session.") ;;
           for_each (rtpPortReservations o) (fun x => invoke w (FreePort x))) ;;
          (match JsObject.get sessionId (pendingSessions (this s)) with
           | Some p =>
               for_each (SessionInfo.rtpPortReservations p)
                 (fun x => invoke w (FreePort x))
           | None =>
               if JsObject.inherited sessionId
               then raise (TypeError "Cannot read properties of undefined (reading 'map')")
               else ret tt
           end) ;;
          modify (fun d =>
                    with_pendingSessions
                      (JsObject.delete sessionId (pendingSessions d)) d) ;;
          modify (fun d =>
                    with_ongoingSessions
                      (JsObject.delete sessionId (ongoingSessions d)) d) ;;
          d <- get ;;
          if Nat.eqb (List.length (JsObject.keys (ongoingSessions d))) 0 then
            if hksv_isRecording d
            then invoke w RestartTimeshifting
            else if truthy (savedBitrate d) then
              (match rtspEntry d with
               | Some profile =>
                   invoke w (SetBitrate (Channel.id (RtspEntry.channel profile))
                               (savedBitrate d))
               | None => ret tt
               end) ;;
              modify (with_savedBitrate 0)
            else ret tt
          else ret tt)
         stopStream_catch)).
  { apply starts_with_try_catch;
      [| intros e; apply extends_tracked; intros tr0;
         unfold stopStream_catch; track].
    apply starts_with_bind;
      [| intros _; apply extends_tracked; intros tr0; track].
    rewrite Hff. cbn [for_each].
    apply starts_with_bind;
      [| intros _; apply extends_tracked; intros tr0; track].
    apply starts_with_bind;
      [apply starts_with_invoke
      | intros _; apply extends_tracked; intros tr0; track]. }
  destruct (H s) as (outcome & evs & Ht).
  exists outcome, evs. rewrite <- Ht.
  unfold exec, stopStream, stopStream_try, try_catch.
  unfold bind at 1. unfold get at 1. cbn [fst snd]. rewrite Hget.
  reflexivity.
Qed.

Lemma for_each_stopStream_any (w : World) (ids : list string) (s : State) :
  fst (for_each ids (stopStream w) s) = Ok tt
  /\ exists evs, trace (snd (for_each ids (stopStream w) s)) = trace s ++ evs.
Proof.
  revert s. induction ids as [| k ids IH]; intros s; cbn [for_each].
  - split; [reflexivity |]. exists []. cbn. rewrite app_nil_r. reflexivity.
  - unfold bind.
    destruct (stopStream_catches w k s) as [Hok _].
    destruct (stopStream_extends w k s) as (evs1 & Ht1). unfold exec in Ht1.
    destruct (stopStream w k s) as [r s1]. cbn [fst snd] in *. subst r.
    destruct (IH s1) as (Hok2 & evs2 & Ht2).
    split; [exact Hok2 |]. exists (evs1 ++ evs2).
    rewrite Ht2, Ht1, <- app_assoc. reflexivity.
Qed.

Lemma for_each_stopStream_reaches (w : World) (ids : list string)
  (s : State) (k : string) (o : OngoingSession) (h : handle)
  (rest : list handle) :
  existsb (String.eqb k) ids = true ->
  JsObject.get k (ongoingSessions (this s)) = Some o ->
  ffmpeg o = h :: rest ->
  exists before outcome after,
    trace (snd (for_each ids (stopStream w) s))
    = trace s ++ before ++ Called (FfmpegStop h) outcome :: after.
Proof.
  revert s. induction ids as [| k0 ids IH]; intros s Hin Hget Hff;
    cbn [existsb for_each] in *; [discriminate |].
  unfold bind.
  destruct (stopStream_catches w k0 s) as [Hok _].
  destruct (String.eqb_spec k k0) as [E | N]; cbn [orb] in Hin.
  - subst k0.
    destruct (stopStream_starts w k s o h rest Hget Hff)
      as (outcome & evs & Ht). unfold exec in Ht.
    destruct (stopStream w k s) as [r s1]. cbn [fst snd] in *. subst r.
    destruct (for_each_stopStream_any w ids s1) as (_ & evs2 & Ht2).
    exists [], outcome, (evs ++ evs2).
    rewrite Ht2, Ht, <- app_assoc. reflexivity.
  - pose proof (stopStream_isolated w k0 k
                  (records_of k (this s)) N s eq_refl) as Hiso.
    destruct (stopStream_extends w k0 s) as (evs1 & Ht1). unfold exec in Ht1.
    destruct (stopStream w k0 s) as [r s1]. cbn [fst snd] in *. subst r.
    unfold on_this, records_of in Hiso. injection Hiso as Hiso _.
    rewrite Hget in Hiso.
    destruct (IH s1 Hin Hiso Hff) as (before & outcome & after & Ht).
    exists (evs1 ++ before), outcome, after.
    rewrite Ht, Ht1, <- !app_assoc. reflexivity.
Qed.

(** X14.  [shutdown] gets to every ongoing session, whatever raises on the
    way: it never raises itself, and for each ongoing session that has an
    FFmpeg process, the stop of its first process is called, also after the
    teardown of an earlier session has been cut short by an exception.  The
    sessions are those [Object.keys] lists: the own properties of
    [ongoingSessions], which [__proto__] never is. *)
Theorem shutdown_reaches_every_session (w : World) (s : State) :
  fst (shutdown w s) = Ok tt
  /\ forall sessionId o h rest,
      sessionId <> "__proto__"%string ->
      JsObject.get sessionId (ongoingSessions (this s)) = Some o ->
      ffmpeg o = h :: rest ->
      called (FfmpegStop h) (events_of (shutdown w) s).
Proof.
  split.
  - unfold shutdown, bind, get. cbn [fst snd]. apply for_each_stopStream_any.
  - intros sessionId o h rest _ Hget Hff.
    destruct (for_each_stopStream_reaches w
                (JsObject.keys (ongoingSessions (this s))) s sessionId o h
                rest (get_some_key _ _ _ Hget) Hget Hff)
      as (before & outcome & after & Ht).
    exists outcome.
    rewrite (events_of_app (shutdown w) s
               (before ++ Called (FfmpegStop h) outcome :: after)).
    + apply in_or_app. right. left. reflexivity.
    + unfold exec, shutdown, bind, get. cbn [fst snd]. exact Ht.
Qed.

Lemma shutdown_reaches_every_session_witness :
  called (FfmpegStop 1%nat) (events_of (shutdown first_stop_fails) two_viewers).
Proof.
  refine (proj2 (shutdown_reaches_every_session first_stop_fails two_viewers)
            "session-b"%string _ 1%nat [] _ _ _).
  - discriminate.
  - vm_compute. reflexivity.
  - reflexivity.
Defined.

Lemma restore_steps_shape (d : ProtectStreamingDelegate)
  (sessionId : string) :
  restore_steps d sessionId = []
  \/ exists c, restore_steps d sessionId = [Called c Returned].
Proof.
  unfold restore_steps.
  destruct (Nat.eqb _ 0); [| left; reflexivity].
  destruct (hksv_isRecording d); [right; eexists; reflexivity |].
  destruct (truthy (savedBitrate d)); [| left; reflexivity].
  destruct (rtspEntry d); [right; eexists; reflexivity | left; reflexivity].
Qed.

Lemma session_gone_removed (d : ProtectStreamingDelegate)
  (sessionId : string) :
  session_gone sessionId (records_removed d sessionId)
  /\ session_gone sessionId (teardown_state d sessionId).
Proof.
  unfold session_gone.
  destruct (teardown_state_fields d sessionId) as (Ho & Hp & _).
  rewrite Ho, Hp. unfold records_removed.
  cbn [ongoingSessions pendingSessions with_ongoingSessions
       with_pendingSessions].
  rewrite !get_delete_same. auto.
Qed.

(** What [stopStream] comes to once every call before the removal of the
    records has returned. *)
Lemma stopStream_removes (w : World) (sessionId : string) (s : State) :
  JsObject.inherited sessionId = false ->
  passes w (trace s) (teardown_steps (this s) sessionId) = true ->
  let steps := teardown_steps (this s) sessionId in
  let restore := restore_steps (this s) sessionId in
  (passes w (trace s ++ steps) restore = true ->
   stopStream w sessionId s
   = (Ok tt,
      {| this := teardown_state (this s) sessionId;
         trace := trace s ++ steps ++ restore;
         allocated := allocated s |}))
  /\ (passes w (trace s ++ steps) restore = false ->
      exists c,
        restore = [Called c Returned]
        /\ stopStream w sessionId s
           = (Ok tt,
              {| this := records_removed (this s) sessionId;
                 trace := trace s ++ steps ++ [Called c Threw; teardown_error];
                 allocated := allocated s |})).
Proof.
  intros Hname Hpass steps restore.
  assert (E : stopStream_try w sessionId s
              = stopStream_restore w sessionId (add_events s steps))
    by (apply stopStream_try_removes; assumption).
  unfold stopStream, try_catch. rewrite E, stopStream_restore_run.
  cbn [this trace allocated add_events]. fold restore.
  destruct (restore_steps_shape (this s) sessionId) as [R | (c & R)];
    fold restore in R; rewrite R; cbn [passes andb].
  - split; [| discriminate]. intros _. rewrite <- app_assoc. reflexivity.
  - destruct (throws w (trace s ++ steps) c); cbn [negb andb].
    + split; [discriminate |]. intros _. exists c. split; [reflexivity |].
      unfold stopStream_catch, emit, teardown_error. cbn.
      rewrite <- !app_assoc. reflexivity.
    + split; [| discriminate]. intros _. rewrite <- app_assoc. reflexivity.
Qed.

(** X15.  [stopStream] removes the records of a session together or not at
    all, in every world, for an identifier that is not the name of a member
    every object inherits and session tables that have the prototype they
    were made with.  When stopping a process, closing the demuxer or
    freeing a port raises, nothing that comes after that call is done, the
    error is logged, and the whole object is exactly as it was before: the
    session is still tracked.  When all of these calls return, both records
    are removed, also if restoring the bitrate or restarting the timeshift
    buffer then raises; what such an exception leaves undone is the clearing
    of the saved bitrate. *)
Theorem stopStream_all_or_nothing (w : World) (sessionId : string)
  (s : State) :
  plain_tables (this s) = true ->
  JsObject.inherited sessionId = false ->
  let d := this s in
  let s' := exec (stopStream w sessionId) s in
  let evs := events_of (stopStream w sessionId) s in
  let steps := teardown_steps d sessionId in
  let restore := restore_steps d sessionId in
  (forall pre c o post,
      steps = pre ++ Called c o :: post ->
      passes w (trace s) pre = true ->
      throws w (trace s ++ pre) c = true ->
      this s' = d /\ evs = pre ++ [Called c Threw; teardown_error])
  /\ (passes w (trace s) steps = true ->
      session_gone sessionId (this s')
      /\ (passes w (trace s ++ steps) restore = true ->
          this s' = teardown_state d sessionId /\ evs = steps ++ restore)
      /\ (passes w (trace s ++ steps) restore = false ->
          this s' = records_removed d sessionId
          /\ exists c,
              restore = [Called c Returned]
              /\ evs = steps ++ [Called c Threw; teardown_error]))
  /\ (session_gone sessionId (this s') \/ this s' = d).
Proof.
  intros _ Hname d s' evs steps restore.
  assert (Hfail : forall pre c o post,
            steps = pre ++ Called c o :: post ->
            passes w (trace s) pre = true ->
            throws w (trace s ++ pre) c = true ->
            this s' = d /\ evs = pre ++ [Called c Threw; teardown_error]).
  { intros pre c o post Hsplit Hpre Ht.
    pose proof (stopStream_throws w sessionId s pre post c o Hname Hsplit
                  Hpre Ht) as E.
    split.
    - unfold s', exec. rewrite E. reflexivity.
    - apply events_of_app. unfold exec. rewrite E. reflexivity. }
  assert (Hpass : passes w (trace s) steps = true ->
            session_gone sessionId (this s')
            /\ (passes w (trace s ++ steps) restore = true ->
                this s' = teardown_state d sessionId
                /\ evs = steps ++ restore)
            /\ (passes w (trace s ++ steps) restore = false ->
                this s' = records_removed d sessionId
                /\ exists c,
                    restore = [Called c Returned]
                    /\ evs = steps ++ [Called c Threw; teardown_error])).
  { intros Hsteps.
    destruct (stopStream_removes w sessionId s Hname Hsteps) as [Hyes Hno].
    fold d steps restore in Hyes, Hno.
    destruct (session_gone_removed d sessionId) as [G1 G2].
    assert (Hthen : passes w (trace s ++ steps) restore = true ->
              this s' = teardown_state d sessionId /\ evs = steps ++ restore).
    { intros Hr. specialize (Hyes Hr). split.
      - unfold s', exec. rewrite Hyes. reflexivity.
      - apply events_of_app. unfold exec. rewrite Hyes. reflexivity. }
    assert (Helse : passes w (trace s ++ steps) restore = false ->
              this s' = records_removed d sessionId
              /\ exists c,
                  restore = [Called c Returned]
                  /\ evs = steps ++ [Called c Threw; teardown_error]).
    { intros Hr. destruct (Hno Hr) as (c & R & E). split.
      - unfold s', exec. rewrite E. reflexivity.
      - exists c. split; [exact R |].
        apply events_of_app. unfold exec. rewrite E. reflexivity. }
    split; [| split; assumption].
    destruct (passes w (trace s ++ steps) restore) eqn:Hr.
    - rewrite (proj1 (Hthen eq_refl)). exact G2.
    - rewrite (proj1 (Helse eq_refl)). exact G1. }
  split; [exact Hfail |]. split; [exact Hpass |].
  destruct (passes w (trace s) steps) eqn:Hsteps.
  - left. apply (Hpass eq_refl).
  - right. destruct (passes_split w steps (trace s) Hsteps)
      as (pre & c & o & post & Hsplit & Hpre & Ht).
    apply (Hfail pre c o post Hsplit Hpre Ht).
Qed.

Lemma stopStream_all_or_nothing_witness :
  session_gone "session-a"
    (this (exec (stopStream stop_fails "session-a") intercom_streaming))
  \/ this (exec (stopStream stop_fails "session-a") intercom_streaming)
     = this intercom_streaming.
Proof.
  exact (proj2 (proj2 (stopStream_all_or_nothing stop_fails "session-a"
                         intercom_streaming eq_refl eq_refl))).
Defined.

(** ** The security system accessory *)

Lemma targetMode_cases (config : SecuritySystem.Config) (value : Z) :
  0 <= value <= 3 ->
  value = 0 \/ value = 1 \/ value = 2 \/ value = 3.
Proof. lia. Qed.

(** X16.  Setting a HomeKit state and reading it back: for a HomeKit state
    [v] from 0 to 3, converting the Eufy mode configured for [v] gives the
    smallest HomeKit state configured with that same mode, so it gives [v]
    itself whenever the four configured modes differ from one another. *)
Theorem convertMode_of_targetMode (config : SecuritySystem.Config) (v : Z) :
  0 <= v <= 3 ->
  exists hk,
    SecuritySystem.convertMode config (SecuritySystem.targetMode config v)
    = Ok hk
    /\ 0 <= hk <= v
    /\ SecuritySystem.targetMode config hk
       = SecuritySystem.targetMode config v
    /\ (forall hk', 0 <= hk' < hk ->
          SecuritySystem.targetMode config hk'
          <> SecuritySystem.targetMode config v)
    /\ (NoDup [SecuritySystem.hkHome config; SecuritySystem.hkAway config;
               SecuritySystem.hkNight config; SecuritySystem.hkOff config] ->
        hk = v).
Proof.
  intros Hv.
  assert (Hsmall : exists hk,
    SecuritySystem.convertMode config (SecuritySystem.targetMode config v)
    = Ok hk
    /\ 0 <= hk <= v
    /\ SecuritySystem.targetMode config hk
       = SecuritySystem.targetMode config v
    /\ (forall hk', 0 <= hk' < hk ->
          SecuritySystem.targetMode config hk'
          <> SecuritySystem.targetMode config v)).
  { destruct config as [a b c d].
    unfold SecuritySystem.convertMode, SecuritySystem.modes,
      SecuritySystem.targetMode.
    cbn [SecuritySystem.hkHome SecuritySystem.hkAway SecuritySystem.hkNight
         SecuritySystem.hkOff filter snd fst].
    destruct (targetMode_cases {| SecuritySystem.hkHome := a;
                                  SecuritySystem.hkAway := b;
                                  SecuritySystem.hkNight := c;
                                  SecuritySystem.hkOff := d |} v Hv)
      as [E | [E | [E | E]]]; subst v; cbn [Z.eqb Pos.eqb];
      repeat match goal with
             | |- context [?x =? ?y] =>
                 destruct (Z.eqb_spec x y); cbn [filter snd fst]
             end;
      try lia;
      eexists; (split; [reflexivity |]); (split; [lia |]);
      (split; [cbn; congruence |]);
      intros hk' Hhk';
      assert (Hc : hk' = 0 \/ hk' = 1 \/ hk' = 2) by lia;
      destruct Hc as [Hc | [Hc | Hc]]; subst hk'; cbn; try lia;
      congruence. }
  destruct Hsmall as (hk & E & Hr & Ht & Hmin).
  exists hk. repeat (split; [assumption |]).
  intros Hnd.
  destruct (Z.eq_dec hk v) as [| N]; [assumption | exfalso].
  destruct config as [a b c d].
  unfold SecuritySystem.targetMode in Ht.
  cbn [SecuritySystem.hkHome SecuritySystem.hkAway SecuritySystem.hkNight
       SecuritySystem.hkOff] in *.
  inversion Hnd as [| x1 l1 N1 Hnd1]; subst.
  inversion Hnd1 as [| x2 l2 N2 Hnd2]; subst.
  inversion Hnd2 as [| x3 l3 N3 Hnd3]; subst.
  cbn in N1, N2, N3.
  assert (Hc : (hk = 0 \/ hk = 1 \/ hk = 2 \/ hk = 3)
               /\ (v = 0 \/ v = 1 \/ v = 2 \/ v = 3)) by lia.
  destruct Hc as [[H | [H | [H | H]]] [H' | [H' | [H' | H']]]];
    subst hk v; cbn in Ht; try lia; intuition congruence.
Qed.

Lemma convertMode_of_targetMode_witness :
  exists hk,
    SecuritySystem.convertMode SecuritySystem.usual
      (SecuritySystem.targetMode SecuritySystem.usual 2) = Ok hk
    /\ 0 <= hk <= 2.
Proof.
  destruct (convertMode_of_targetMode SecuritySystem.usual 2 ltac:(lia))
    as (hk & E & Hr & _).
  exists hk. split; assumption.
Defined.

Lemma convertMode_sound (config : SecuritySystem.Config) (code hk : Z) :
  SecuritySystem.convertMode config code = Ok hk ->
  0 <= hk <= 3 /\ SecuritySystem.targetMode config hk = code.
Proof.
  destruct config as [a b c d].
  unfold SecuritySystem.convertMode, SecuritySystem.modes,
    SecuritySystem.targetMode.
  cbn [SecuritySystem.hkHome SecuritySystem.hkAway SecuritySystem.hkNight
       SecuritySystem.hkOff filter snd fst].
  destruct (Z.eqb_spec a code); cbn [filter snd fst];
    [intros E; injection E as E; subst hk; cbn; split; [lia | assumption] |].
  destruct (Z.eqb_spec b code); cbn [filter snd fst];
    [intros E; injection E as E; subst hk; cbn; split; [lia | assumption] |].
  destruct (Z.eqb_spec c code); cbn [filter snd fst];
    [intros E; injection E as E; subst hk; cbn; split; [lia | assumption] |].
  destruct (Z.eqb_spec d code); cbn [filter snd fst];
    [intros E; injection E as E; subst hk; cbn; split; [lia | assumption] |].
  discriminate.
Qed.

Lemma convertMode_unconfigured (config : SecuritySystem.Config) (code : Z) :
  code <> SecuritySystem.hkHome config ->
  code <> SecuritySystem.hkAway config ->
  code <> SecuritySystem.hkNight config ->
  code <> SecuritySystem.hkOff config ->
  exists msg, SecuritySystem.convertMode config code = Throw (TypeError msg).
Proof.
  intros H1 H2 H3 H4. destruct config as [a b c d].
  unfold SecuritySystem.convertMode, SecuritySystem.modes.
  cbn [SecuritySystem.hkHome SecuritySystem.hkAway SecuritySystem.hkNight
       SecuritySystem.hkOff filter snd fst] in *.
  destruct (Z.eqb_spec a code); [congruence |].
  destruct (Z.eqb_spec b code); [congruence |].
  destruct (Z.eqb_spec c code); [congruence |].
  destruct (Z.eqb_spec d code); [congruence |].
  eexists. reflexivity.
Qed.

(** X17.  Reading the guard mode of the station as a HomeKit state.  A state
    that is reported is one of 0 to 3 and is configured with exactly the
    guard mode that was read.  A guard mode outside the eight the function
    knows (0 to 5, 47, 63) gives no state at all ([undefined]), also when it
    is one of the configured modes.  A known guard mode that is configured
    for no HomeKit state raises a [TypeError]. *)
Theorem convertStatusCodeToHomekit_cases (config : SecuritySystem.Config)
  (code : Z) :
  (forall hk,
      SecuritySystem.convertStatusCodeToHomekit config code = Ok (Some hk) ->
      0 <= hk <= 3 /\ SecuritySystem.targetMode config hk = code)
  /\ (~ In code [0; 1; 2; 3; 4; 5; 47; 63] ->
      SecuritySystem.convertStatusCodeToHomekit config code = Ok None)
  /\ (In code [0; 1; 2; 3; 4; 5; 47; 63] ->
      ~ In code [SecuritySystem.hkHome config; SecuritySystem.hkAway config;
                 SecuritySystem.hkNight config; SecuritySystem.hkOff config] ->
      exists msg,
        SecuritySystem.convertStatusCodeToHomekit config code
        = Throw (TypeError msg)).
Proof.
  unfold SecuritySystem.convertStatusCodeToHomekit.
  split; [| split].
  - intros hk.
    destruct (SecuritySystem.convertMode config code) as [hk0 | e] eqn:E.
    + intros H.
      assert (Hk : hk0 = hk).
      { repeat match type of H with
               | (if ?b then _ else _) = _ => destruct b
               end; congruence. }
      subst hk0. apply convertMode_sound, E.
    + intros H.
      repeat match type of H with
             | (if ?b then _ else _) = _ => destruct b
             end; discriminate.
  - intros Hout. cbn [In] in Hout.
    repeat match goal with
           | |- context [code =? ?n] =>
               destruct (Z.eqb_spec code n); [exfalso; apply Hout; lia |]
           end.
    reflexivity.
  - intros Hin Hconf. cbn [In] in Hconf.
    destruct (convertMode_unconfigured config code) as (msg & E);
      try (intros N; apply Hconf; rewrite N; tauto).
    exists msg. rewrite E. cbn [In] in Hin.
    repeat match goal with
           | |- context [code =? ?n] =>
               destruct (Z.eqb_spec code n); [reflexivity |]
           end.
    exfalso. lia.
Qed.

Lemma convertStatusCodeToHomekit_cases_witness :
  (exists msg,
      SecuritySystem.convertStatusCodeToHomekit SecuritySystem.usual 2
      = Throw (TypeError msg))
  /\ SecuritySystem.convertStatusCodeToHomekit
       {| SecuritySystem.hkHome := 1; SecuritySystem.hkAway := 0;
          SecuritySystem.hkNight := 6; SecuritySystem.hkOff := 63 |} 6
     = Ok None.
Proof.
  split.
  - refine (proj2 (proj2 (convertStatusCodeToHomekit_cases
                            SecuritySystem.usual 2)) _ _).
    + cbn. tauto.
    + cbn. intros [H | [H | [H | [H | []]]]]; discriminate.
  - refine (proj1 (proj2 (convertStatusCodeToHomekit_cases _ 6)) _).
    cbn. intros [H | [H | [H | [H | [H | [H | [H | [H | []]]]]]]]];
      discriminate.
Defined.

(** X18.  Setting the target state always answers HomeKit: the callback is
    called exactly once, as the last thing, whatever the value is and
    whatever raises.  The station is asked for a guard mode exactly when the
    value is a HomeKit state from 0 to 3 whose configured mode is not -1, and
    then for that configured mode; the current state is updated only when
    that call did not raise. *)
Theorem targetStateSet_always_calls_back (config : SecuritySystem.Config)
  (setThrows updateThrows : bool) (value : Z) :
  let actions :=
    SecuritySystem.handleSecuritySystemTargetStateSet config setThrows
      updateThrows value in
  let mode := SecuritySystem.targetMode config value in
  (exists before,
      actions = before ++ [SecuritySystem.Callback]
      /\ forallb (fun a => negb (SecuritySystem.is_callback a)) before = true)
  /\ SecuritySystem.station_modes actions
     = (if mode =? -1 then [] else [mode])
  /\ (In (SecuritySystem.UpdateCharacteristic value) actions <->
      mode <> -1 /\ setThrows = false)
  /\ (~ 0 <= value <= 3 -> SecuritySystem.station_modes actions = []).
Proof.
  intros actions mode. subst actions.
  unfold SecuritySystem.handleSecuritySystemTargetStateSet. fold mode.
  split; [| split; [| split]].
  - eexists. split; [reflexivity |].
    destruct (mode =? -1); [reflexivity |].
    destruct setThrows; [reflexivity |].
    destruct updateThrows; reflexivity.
  - destruct (mode =? -1); [reflexivity |].
    destruct setThrows; [reflexivity |].
    destruct updateThrows; reflexivity.
  - destruct (Z.eqb_spec mode (-1)) as [E | E].
    + cbn. split; [intros [H | [H | []]]; discriminate | tauto].
    + destruct setThrows.
      * cbn. split;
          [intros [H | [H | [H | []]]]; discriminate
          | intros [_ H]; discriminate].
      * destruct updateThrows; cbn; split; auto.
  - intros Hout.
    assert (E : mode = -1).
    { unfold mode, SecuritySystem.targetMode.
      repeat match goal with
             | |- context [value =? ?n] =>
                 destruct (Z.eqb_spec value n); [lia |]
             end.
      reflexivity. }
    rewrite E. reflexivity.
Qed.

Lemma targetStateSet_always_calls_back_witness :
  SecuritySystem.station_modes
    (SecuritySystem.handleSecuritySystemTargetStateSet SecuritySystem.usual
       false false 7) = [].
Proof.
  refine (proj2 (proj2 (proj2 (targetStateSet_always_calls_back
                                 SecuritySystem.usual false false 7))) _).
  lia.
Defined.

(** ** The livestream manager *)

Lemma listeners_with_stream (n : nat) (l : Livestream.t)
  (current : Livestream.StationStream) :
  Livestream.stationStream l = Some current ->
  Livestream.listeners n l
  = ({| Livestream.stationStream := Livestream.stationStream l;
        Livestream.livestreamStartedAt := Livestream.livestreamStartedAt l;
        Livestream.livestreamIsStarting :=
          match n with
          | O => Livestream.livestreamIsStarting l
          | S _ => false
          end;
        Livestream.serial := Livestream.serial l;
        Livestream.waiting := Livestream.waiting l |},
     repeat (Livestream.Resolved current) n).
Proof.
  revert l. induction n as [| n IH]; intros l Hs.
  - destruct l. reflexivity.
  - cbn [Livestream.listeners]. unfold Livestream.listener. rewrite Hs.
    cbv iota beta.
    rewrite IH by reflexivity.
    cbn. destruct n; reflexivity.
Qed.

Lemma onStationLivestreamStart_run (stationName deviceSerial : string)
  (streamMetadata : Z) (video audio : nat) (checked started created : Z)
  (l : Livestream.t) :
  deviceSerial = Livestream.serial l ->
  (forall current,
      Livestream.stationStream l = Some current ->
      5000 <= checked - Livestream.createdAt current) ->
  let fresh_stream :=
    {| Livestream.station := stationName;
       Livestream.device := deviceSerial;
       Livestream.metadata := streamMetadata;
       Livestream.videostream := video;
       Livestream.audiostream := audio;
       Livestream.createdAt := created |} in
  Livestream.onStationLivestreamStart stationName deviceSerial streamMetadata
    video audio checked started created l
  = ({| Livestream.stationStream := Some fresh_stream;
        Livestream.livestreamStartedAt := Some started;
        Livestream.livestreamIsStarting :=
          match Livestream.waiting l with
          | O => Livestream.livestreamIsStarting l
          | S _ => false
          end;
        Livestream.serial := Livestream.serial l;
        Livestream.waiting := O |},
     snd (Livestream.initialize l)
       ++ repeat (Livestream.Resolved fresh_stream) (Livestream.waiting l)).
Proof.
  intros Hserial Hold fresh_stream.
  unfold Livestream.onStationLivestreamStart.
  replace (String.eqb deviceSerial (Livestream.serial l)) with true
    by (symmetry; apply String.eqb_eq; exact Hserial).
  assert (Hcheck :
    match Livestream.stationStream l with
    | Some current => checked - Livestream.createdAt current <? 5000
    | None => false
    end = false).
  { destruct (Livestream.stationStream l) as [current |] eqn:E;
      [| reflexivity].
    specialize (Hold current eq_refl). apply Z.ltb_ge. exact Hold. }
  rewrite Hcheck.
  unfold Livestream.initialize, Livestream.emit_livestream_start.
  cbn [Livestream.waiting Livestream.stationStream
       Livestream.livestreamStartedAt Livestream.livestreamIsStarting
       Livestream.serial].
  fold fresh_stream.
  rewrite listeners_with_stream with (current := fresh_stream)
    by reflexivity.
  cbn [snd Livestream.waiting Livestream.stationStream
       Livestream.livestreamStartedAt Livestream.livestreamIsStarting
       Livestream.serial].
  reflexivity.
Qed.

Lemma resolved_repeat (x : Livestream.StationStream) (n : nat) :
  Livestream.resolved (repeat (Livestream.Resolved x) n) = repeat x n.
Proof.
  induction n as [| n IH]; [reflexivity |].
  unfold Livestream.resolved in *. cbn. f_equal. exact IH.
Qed.

(** X19.  A livestream start of this camera that is not a repeat (no stream
    is held, or the one held is at least five seconds old) first unpipes and
    destroys the streams held, then stores the new stream, and every caller
    of [getLocalLivestream] that was waiting gets this new stream; none is
    left waiting, and the start that was under way counts as done.  A start
    within five seconds of the stream held changes nothing and answers
    nobody, and so does a start of another camera. *)
Theorem onStationLivestreamStart_cases (stationName deviceSerial : string)
  (streamMetadata : Z) (video audio : nat) (checked started created : Z)
  (l : Livestream.t) :
  let result :=
    Livestream.onStationLivestreamStart stationName deviceSerial
      streamMetadata video audio checked started created l in
  let fresh_stream :=
    {| Livestream.station := stationName;
       Livestream.device := deviceSerial;
       Livestream.metadata := streamMetadata;
       Livestream.videostream := video;
       Livestream.audiostream := audio;
       Livestream.createdAt := created |} in
  (deviceSerial = Livestream.serial l ->
   (forall current,
       Livestream.stationStream l = Some current ->
       5000 <= checked - Livestream.createdAt current) ->
   Livestream.stationStream (fst result) = Some fresh_stream
   /\ Livestream.livestreamStartedAt (fst result) = Some started
   /\ Livestream.waiting (fst result) = O
   /\ (Livestream.waiting l <> O ->
       Livestream.livestreamIsStarting (fst result) = false)
   /\ snd result
      = snd (Livestream.initialize l)
          ++ repeat (Livestream.Resolved fresh_stream) (Livestream.waiting l)
   /\ Livestream.resolved (snd result)
      = repeat fresh_stream (Livestream.waiting l))
  /\ (forall current,
        Livestream.stationStream l = Some current ->
        checked - Livestream.createdAt current < 5000 ->
        fst result = l /\ Livestream.resolved (snd result) = [])
  /\ (deviceSerial <> Livestream.serial l -> result = (l, [])).
Proof.
  intros result fresh_stream. split; [| split].
  - intros Hserial Hold. unfold result.
    rewrite (onStationLivestreamStart_run stationName deviceSerial
               streamMetadata video audio checked started created l
               Hserial Hold).
    cbn [fst snd Livestream.stationStream Livestream.livestreamStartedAt
         Livestream.waiting Livestream.livestreamIsStarting].
    fold fresh_stream.
    split; [reflexivity |]. split; [reflexivity |]. split; [reflexivity |].
    split; [destruct (Livestream.waiting l); [congruence | reflexivity] |].
    split; [reflexivity |].
    unfold Livestream.resolved. rewrite flat_map_app.
    fold (Livestream.resolved
            (repeat (Livestream.Resolved fresh_stream) (Livestream.waiting l))).
    rewrite resolved_repeat.
    unfold Livestream.initialize. cbn [snd].
    destruct (Livestream.stationStream l); reflexivity.
  - intros current Hcur Hrecent. unfold result,
      Livestream.onStationLivestreamStart.
    rewrite Hcur. apply Z.ltb_lt in Hrecent. rewrite Hrecent.
    destruct (String.eqb deviceSerial (Livestream.serial l)); auto.
  - intros Hother. unfold result, Livestream.onStationLivestreamStart.
    destruct (String.eqb_spec deviceSerial (Livestream.serial l));
      [contradiction | reflexivity].
Qed.

Lemma onStationLivestreamStart_cases_witness :
  Livestream.resolved
    (snd (Livestream.onStationLivestreamStart "Homebase" "T8410" 0 1%nat 2%nat
            1000 1001 1002
            (fst (Livestream.run
                    [Livestream.GetLocalLivestream;
                     Livestream.GetLocalLivestream]
                    (Livestream.constructor "T8410")))))
  = repeat {| Livestream.station := "Homebase";
              Livestream.device := "T8410";
              Livestream.metadata := 0;
              Livestream.videostream := 1%nat;
              Livestream.audiostream := 2%nat;
              Livestream.createdAt := 1002 |} 2.
Proof.
  refine (proj2 (proj2 (proj2 (proj2 (proj2
            (proj1 (onStationLivestreamStart_cases "Homebase" "T8410" 0
                      1%nat 2%nat 1000 1001 1002 _) _ _)))))).
  - reflexivity.
  - intros current H. discriminate.
Defined.

Lemma onStationLivestreamStart_split (stationName deviceSerial : string)
  (streamMetadata : Z) (video audio : nat) (checked started created : Z)
  (l : Livestream.t) :
  let result :=
    Livestream.onStationLivestreamStart stationName deviceSerial
      streamMetadata video audio checked started created l in
  result = (l, [])
  \/ result
     = (l, [Livestream.LogWarn
              "Second livestream was started from station. Ignore."])
  \/ (deviceSerial = Livestream.serial l
      /\ result
         = ({| Livestream.stationStream :=
                 Some {| Livestream.station := stationName;
                         Livestream.device := deviceSerial;
                         Livestream.metadata := streamMetadata;
                         Livestream.videostream := video;
                         Livestream.audiostream := audio;
                         Livestream.createdAt := created |};
               Livestream.livestreamStartedAt := Some started;
               Livestream.livestreamIsStarting :=
                 match Livestream.waiting l with
                 | O => Livestream.livestreamIsStarting l
                 | S _ => false
                 end;
               Livestream.serial := Livestream.serial l;
               Livestream.waiting := O |},
            snd (Livestream.initialize l)
              ++ repeat
                   (Livestream.Resolved
                      {| Livestream.station := stationName;
                         Livestream.device := deviceSerial;
                         Livestream.metadata := streamMetadata;
                         Livestream.videostream := video;
                         Livestream.audiostream := audio;
                         Livestream.createdAt := created |})
                   (Livestream.waiting l))).
Proof.
  intros result.
  destruct (String.eqb_spec deviceSerial (Livestream.serial l)) as [Hs | Hs].
  - destruct (match Livestream.stationStream l with
              | Some current => checked - Livestream.createdAt current <? 5000
              | None => false
              end) eqn:Hcheck.
    + right. left. unfold result, Livestream.onStationLivestreamStart.
      rewrite Hcheck.
      destruct (String.eqb deviceSerial (Livestream.serial l)) eqn:E;
        [reflexivity |].
      apply String.eqb_neq in E. contradiction.
    + right. right. split; [exact Hs |].
      apply onStationLivestreamStart_run; [exact Hs |].
      intros current Hcur. rewrite Hcur in Hcheck.
      apply Z.ltb_ge. exact Hcheck.
  - left. unfold result, Livestream.onStationLivestreamStart.
    destruct (String.eqb_spec deviceSerial (Livestream.serial l));
      [contradiction | reflexivity].
Qed.

Lemma livestream_run_cons (op : Livestream.operation)
  (ops : list Livestream.operation) (l : Livestream.t) :
  Livestream.run (op :: ops) l
  = (fst (Livestream.run ops (fst (Livestream.perform op l))),
     snd (Livestream.perform op l)
       ++ snd (Livestream.run ops (fst (Livestream.perform op l)))).
Proof.
  cbn [Livestream.run].
  destruct (Livestream.perform op l) as [l1 out1]. cbn [fst snd].
  destruct (Livestream.run ops l1) as [l2 out2]. reflexivity.
Qed.

Lemma perform_stream_invariant (op : Livestream.operation)
  (l : Livestream.t) :
  (Livestream.stationStream l = None
   <-> Livestream.livestreamStartedAt l = None) ->
  (forall current,
      Livestream.stationStream l = Some current ->
      Livestream.device current = Livestream.serial l) ->
  let l' := fst (Livestream.perform op l) in
  (Livestream.stationStream l' = None
   <-> Livestream.livestreamStartedAt l' = None)
  /\ (forall current,
        Livestream.stationStream l' = Some current ->
        Livestream.device current = Livestream.serial l')
  /\ Livestream.serial l' = Livestream.serial l.
Proof.
  intros Hiff Hdev l'. subst l'.
  destruct op as [| | deviceSerial
                  | stationName deviceSerial streamMetadata video audio
                      checked started created];
    cbn [Livestream.perform].
  - unfold Livestream.getLocalLivestream.
    destruct (Livestream.stationStream l) as [current |] eqn:E.
    + cbn [fst]. rewrite E. auto.
    + unfold Livestream.startAndGetLocalLiveStream.
      destruct (negb (Livestream.livestreamIsStarting l));
        cbn; rewrite E; (split; [exact Hiff | split; [discriminate | reflexivity]]).
  - unfold Livestream.stopLocalLiveStream, Livestream.initialize. cbn.
    split; [tauto | split; [discriminate | reflexivity]].
  - unfold Livestream.onStationLivestreamStop, Livestream.initialize.
    destruct (String.eqb deviceSerial (Livestream.serial l)); cbn.
    + split; [tauto | split; [discriminate | reflexivity]].
    + auto.
  - destruct (onStationLivestreamStart_split stationName deviceSerial
                streamMetadata video audio checked started created l)
      as [E | [E | [Hs E]]]; cbv zeta in E; rewrite E; cbn [fst].
    + auto.
    + auto.
    + cbn. split; [split; discriminate |].
      split; [| reflexivity].
      intros current Hcur. injection Hcur as <-. cbn. exact Hs.
Qed.

(** X20.  Whatever is done with a livestream manager after its constructor,
    the time a livestream started is recorded exactly when a stream is held
    (so [getLocalLivestream] never reads a missing time), and the stream held
    is one of this camera. *)
Theorem livestream_invariant (ops : list Livestream.operation)
  (deviceSerial : string) :
  let l := fst (Livestream.run ops (Livestream.constructor deviceSerial)) in
  (Livestream.stationStream l = None
   <-> Livestream.livestreamStartedAt l = None)
  /\ (forall current,
        Livestream.stationStream l = Some current ->
        Livestream.device current = deviceSerial)
  /\ Livestream.serial l = deviceSerial.
Proof.
  cbv zeta.
  assert (H : forall l0,
    (Livestream.stationStream l0 = None
     <-> Livestream.livestreamStartedAt l0 = None) ->
    (forall current,
        Livestream.stationStream l0 = Some current ->
        Livestream.device current = Livestream.serial l0) ->
    let l := fst (Livestream.run ops l0) in
    (Livestream.stationStream l = None
     <-> Livestream.livestreamStartedAt l = None)
    /\ (forall current,
          Livestream.stationStream l = Some current ->
          Livestream.device current = Livestream.serial l)
    /\ Livestream.serial l = Livestream.serial l0).
  { induction ops as [| op ops IH]; intros l0 Hiff Hdev; cbv zeta.
    - cbn. auto.
    - rewrite livestream_run_cons. cbn [fst].
      destruct (perform_stream_invariant op l0 Hiff Hdev)
        as (Hiff1 & Hdev1 & Hser1).
      destruct (IH _ Hiff1 Hdev1) as (Hiff2 & Hdev2 & Hser2).
      split; [exact Hiff2 |]. split; [exact Hdev2 |].
      rewrite Hser2. exact Hser1. }
  destruct (H (Livestream.constructor deviceSerial)) as (Hiff & Hdev & Hser).
  - cbn. tauto.
  - cbn. discriminate.
  - split; [exact Hiff |]. split; [| exact Hser].
    intros current Hcur. rewrite (Hdev current Hcur). exact Hser.
Qed.

Lemma starts_answered_app (b : bool) (out1 out2 : list Livestream.action) :
  Livestream.starts_answered b (out1 ++ out2)
  = Livestream.starts_answered b out1
    && Livestream.starts_answered (Livestream.outstanding_after b out1) out2.
Proof.
  revert b. induction out1 as [| a out1 IH]; intros b; [reflexivity |].
  destruct a; cbn; rewrite ?IH; try reflexivity.
  rewrite andb_assoc. reflexivity.
Qed.

Lemma outstanding_after_app (b : bool) (out1 out2 : list Livestream.action) :
  Livestream.outstanding_after b (out1 ++ out2)
  = Livestream.outstanding_after (Livestream.outstanding_after b out1) out2.
Proof.
  revert b. induction out1 as [| a out1 IH]; intros b; [reflexivity |].
  destruct a; cbn; rewrite ?IH; reflexivity.
Qed.

Lemma starts_answered_resolved (b : bool) (x : Livestream.StationStream)
  (n : nat) :
  Livestream.starts_answered b (repeat (Livestream.Resolved x) n) = true
  /\ Livestream.outstanding_after b (repeat (Livestream.Resolved x) n)
     = match n with O => b | S _ => false end.
Proof.
  revert b. induction n as [| n IH]; intros b; [split; reflexivity |].
  cbn. destruct (IH false) as [H1 H2]. split; [exact H1 |].
  rewrite H2. destruct n; reflexivity.
Qed.

Lemma starts_answered_initialize (b : bool) (l : Livestream.t) :
  Livestream.starts_answered b (snd (Livestream.initialize l)) = true
  /\ Livestream.outstanding_after b (snd (Livestream.initialize l)) = b.
Proof.
  unfold Livestream.initialize. cbn [snd].
  destruct (Livestream.stationStream l); split; reflexivity.
Qed.

Lemma perform_starts_answered (op : Livestream.operation)
  (l : Livestream.t) (b : bool) :
  (Livestream.livestreamIsStarting l = false -> b = false) ->
  Livestream.starts_answered b (snd (Livestream.perform op l)) = true
  /\ (Livestream.livestreamIsStarting (fst (Livestream.perform op l)) = false
      -> Livestream.outstanding_after b (snd (Livestream.perform op l))
         = false).
Proof.
  intros Hb.
  destruct op as [| | deviceSerial
                  | stationName deviceSerial streamMetadata video audio
                      checked started created];
    cbn [Livestream.perform].
  - unfold Livestream.getLocalLivestream.
    destruct (Livestream.stationStream l) as [current |].
    + cbn. auto.
    + unfold Livestream.startAndGetLocalLiveStream.
      destruct (Livestream.livestreamIsStarting l) eqn:E; cbn.
      * split; [reflexivity | discriminate].
      * rewrite (Hb eq_refl). split; [reflexivity | discriminate].
  - unfold Livestream.stopLocalLiveStream.
    destruct (starts_answered_initialize b l) as [H1 H2].
    destruct (Livestream.initialize l) as [l1 out] eqn:E.
    cbn [fst snd] in *. cbn.
    split; [exact H1 |]. rewrite H2.
    unfold Livestream.initialize in E. injection E as <- _. cbn. exact Hb.
  - unfold Livestream.onStationLivestreamStop.
    destruct (String.eqb deviceSerial (Livestream.serial l)).
    + destruct (starts_answered_initialize b l) as [H1 H2].
      split; [exact H1 |]. rewrite H2. cbn. exact Hb.
    + cbn. auto.
  - destruct (onStationLivestreamStart_split stationName deviceSerial
                streamMetadata video audio checked started created l)
      as [E | [E | [Hs E]]]; cbv zeta in E; rewrite E; cbn [fst snd].
    + cbn. auto.
    + cbn. auto.
    + rewrite starts_answered_app, outstanding_after_app.
      destruct (starts_answered_initialize b l) as [H1 H2].
      rewrite H1, H2.
      match goal with
      | |- context [repeat (Livestream.Resolved ?x) ?n] =>
          destruct (starts_answered_resolved b x n) as [H3 H4]
      end.
      rewrite H3, H4. split; [reflexivity |].
      cbn. destruct (Livestream.waiting l); auto.
Qed.

(** X21.  Whatever is done with a livestream manager after its constructor,
    the station is never asked to start the livestream while an earlier
    request to start it has not been answered by a livestream given to a
    waiting caller. *)
Theorem livestream_one_start_at_a_time (ops : list Livestream.operation)
  (deviceSerial : string) :
  Livestream.starts_answered false
    (snd (Livestream.run ops (Livestream.constructor deviceSerial))) = true.
Proof.
  assert (H : forall l b,
    (Livestream.livestreamIsStarting l = false -> b = false) ->
    Livestream.starts_answered b (snd (Livestream.run ops l)) = true).
  { induction ops as [| op ops IH]; intros l b Hb; [reflexivity |].
    rewrite livestream_run_cons. cbn [snd].
    rewrite starts_answered_app.
    destruct (perform_starts_answered op l b Hb) as [H1 H2].
    rewrite H1. cbn [andb]. apply IH. exact H2. }
  apply H. reflexivity.
Qed.

Lemma perform_hands_out (op : Livestream.operation) (l : Livestream.t)
  (a : Livestream.action) :
  (forall current,
      Livestream.stationStream l = Some current ->
      Livestream.device current = Livestream.serial l) ->
  In a (snd (Livestream.perform op l)) ->
  match a with
  | Livestream.Rejected _ => False
  | Livestream.Returned stream | Livestream.Resolved stream =>
      Livestream.device stream = Livestream.serial l
  | _ => True
  end.
Proof.
  intros Hdev.
  destruct op as [| | deviceSerial
                  | stationName deviceSerial streamMetadata video audio
                      checked started created];
    cbn [Livestream.perform].
  - unfold Livestream.getLocalLivestream.
    destruct (Livestream.stationStream l) as [current |] eqn:E.
    + cbn. intros [<- | []]. apply Hdev. reflexivity.
    + unfold Livestream.startAndGetLocalLiveStream.
      destruct (negb (Livestream.livestreamIsStarting l)); cbn;
        [intros [<- | []]; exact I | intros []].
  - unfold Livestream.stopLocalLiveStream, Livestream.initialize.
    destruct (Livestream.stationStream l); cbn; intros H;
      repeat (destruct H as [<- | H]; [exact I |]); destruct H.
  - unfold Livestream.onStationLivestreamStop, Livestream.initialize.
    destruct (String.eqb deviceSerial (Livestream.serial l));
      destruct (Livestream.stationStream l); cbn; intros H;
      repeat (destruct H as [<- | H]; [exact I |]); destruct H.
  - destruct (onStationLivestreamStart_split stationName deviceSerial
                streamMetadata video audio checked started created l)
      as [E | [E | [Hs E]]]; cbv zeta in E; rewrite E; cbn [snd].
    + intros [].
    + intros [<- | []]. exact I.
    + intros H. apply in_app_or in H. destruct H as [H | H].
      * unfold Livestream.initialize in H. cbn [snd] in H.
        destruct (Livestream.stationStream l); cbn in H;
          repeat (destruct H as [<- | H]; [exact I |]); destruct H.
      * apply repeat_spec in H. subst a. cbn. exact Hs.
Qed.

(** X22.  Whatever is done with a livestream manager after its constructor,
    every stream it hands to a caller, at once or after waiting, is a stream
    of its own camera, and no waiting caller is ever rejected. *)
Theorem livestream_hands_out_own_stream (ops : list Livestream.operation)
  (deviceSerial : string) (a : Livestream.action) :
  In a (snd (Livestream.run ops (Livestream.constructor deviceSerial))) ->
  match a with
  | Livestream.Rejected _ => False
  | Livestream.Returned stream | Livestream.Resolved stream =>
      Livestream.device stream = deviceSerial
  | _ => True
  end.
Proof.
  assert (H : forall l,
    (Livestream.stationStream l = None
     <-> Livestream.livestreamStartedAt l = None) ->
    (forall current,
        Livestream.stationStream l = Some current ->
        Livestream.device current = Livestream.serial l) ->
    In a (snd (Livestream.run ops l)) ->
    match a with
    | Livestream.Rejected _ => False
    | Livestream.Returned stream | Livestream.Resolved stream =>
        Livestream.device stream = Livestream.serial l
    | _ => True
    end).
  { induction ops as [| op ops IH]; intros l Hiff Hdev Hin; [destruct Hin |].
    rewrite livestream_run_cons in Hin. cbn [snd] in Hin.
    apply in_app_or in Hin. destruct Hin as [Hin | Hin].
    - exact (perform_hands_out op l a Hdev Hin).
    - destruct (perform_stream_invariant op l Hiff Hdev)
        as (Hiff1 & Hdev1 & Hser1).
      specialize (IH _ Hiff1 Hdev1 Hin). rewrite Hser1 in IH. exact IH. }
  intros Hin.
  apply (H (Livestream.constructor deviceSerial)); cbn;
    [tauto | discriminate | exact Hin].
Qed.

Lemma livestream_hands_out_own_stream_witness :
  Livestream.device
    {| Livestream.station := "Homebase";
       Livestream.device := "T8410";
       Livestream.metadata := 0;
       Livestream.videostream := 1%nat;
       Livestream.audiostream := 2%nat;
       Livestream.createdAt := 1002 |}
  = "T8410"%string.
Proof.
  exact (livestream_hands_out_own_stream
           [Livestream.GetLocalLivestream;
            Livestream.StationLivestreamStart "Homebase" "T8410" 0 1%nat 2%nat
              1000 1001 1002]
           "T8410"
           (Livestream.Resolved
              {| Livestream.station := "Homebase";
                 Livestream.device := "T8410";
                 Livestream.metadata := 0;
                 Livestream.videostream := 1%nat;
                 Livestream.audiostream := 2%nat;
                 Livestream.createdAt := 1002 |})
           (or_intror (or_introl eq_refl))).
Defined.

(** X23.  While a start of the livestream is under way and no stream is held,
    nothing but a livestream start of the station ends the wait: through any
    calls of [getLocalLivestream] and [stopLocalLiveStream] and any stop
    events, the station is not asked to start again, no caller gets a stream,
    every new caller is added to the waiting ones, and the start still counts
    as under way, also after the livestream was stopped. *)
Theorem livestream_start_stays_pending (ops : list Livestream.operation)
  (l : Livestream.t) :
  Livestream.livestreamIsStarting l = true ->
  Livestream.stationStream l = None ->
  (forall op, In op ops ->
     match op with
     | Livestream.StationLivestreamStart _ _ _ _ _ _ _ _ => False
     | _ => True
     end) ->
  let result := Livestream.run ops l in
  Livestream.livestreamIsStarting (fst result) = true
  /\ Livestream.stationStream (fst result) = None
  /\ Livestream.waiting (fst result)
     = (Livestream.waiting l
        + List.length
            (filter (fun op => match op with
                               | Livestream.GetLocalLivestream => true
                               | _ => false
                               end) ops))%nat
  /\ (forall a, In a (snd result) ->
        a = Livestream.StopStationLivestream (Livestream.serial l)).
Proof.
  revert l. induction ops as [| op ops IH]; intros l Hflag Hnone Hops;
    cbv zeta.
  - cbn. repeat split; auto. intros a [].
  - rewrite livestream_run_cons. cbn [fst snd].
    assert (Hrest : forall op', In op' ops ->
              match op' with
              | Livestream.StationLivestreamStart _ _ _ _ _ _ _ _ => False
              | _ => True
              end) by (intros op' Hin; apply Hops; right; exact Hin).
    assert (Hop := Hops op (or_introl eq_refl)).
    assert (Hstep :
      Livestream.livestreamIsStarting (fst (Livestream.perform op l)) = true
      /\ Livestream.stationStream (fst (Livestream.perform op l)) = None
      /\ Livestream.serial (fst (Livestream.perform op l))
         = Livestream.serial l
      /\ Livestream.waiting (fst (Livestream.perform op l))
         = (Livestream.waiting l
            + match op with
              | Livestream.GetLocalLivestream => 1
              | _ => 0
              end)%nat
      /\ (forall a, In a (snd (Livestream.perform op l)) ->
            a = Livestream.StopStationLivestream (Livestream.serial l))).
    { destruct op as [| | deviceSerial | ]; [| | | destruct Hop];
        cbn [Livestream.perform].
      - unfold Livestream.getLocalLivestream,
          Livestream.startAndGetLocalLiveStream.
        rewrite Hnone, Hflag. cbn.
        repeat split; auto; try lia; intros a [].
      - unfold Livestream.stopLocalLiveStream, Livestream.initialize.
        rewrite Hnone. cbn.
        repeat split; auto; try lia; intros a [<- | []]; reflexivity.
      - unfold Livestream.onStationLivestreamStop, Livestream.initialize.
        rewrite Hnone.
        destruct (String.eqb deviceSerial (Livestream.serial l)); cbn;
          repeat split; auto; try lia; intros a []. }
    destruct Hstep as (Hflag1 & Hnone1 & Hser1 & Hwait1 & Hout1).
    destruct (IH _ Hflag1 Hnone1 Hrest) as (Hflag2 & Hnone2 & Hwait2 & Hout2).
    split; [exact Hflag2 |]. split; [exact Hnone2 |]. split.
    + rewrite Hwait2, Hwait1. cbn [filter].
      destruct op; cbn [List.length]; lia.
    + intros a Hin. apply in_app_or in Hin. destruct Hin as [Hin | Hin].
      * apply Hout1. exact Hin.
      * rewrite <- Hser1. apply Hout2. exact Hin.
Qed.

Lemma livestream_start_stays_pending_witness :
  Livestream.waiting
    (fst (Livestream.run
            [Livestream.StopLocalLiveStream; Livestream.GetLocalLivestream]
            (fst (Livestream.getLocalLivestream
                    (Livestream.constructor "T8410")))))
  = 2%nat.
Proof.
  refine (proj1 (proj2 (proj2
            (livestream_start_stays_pending
               [Livestream.StopLocalLiveStream; Livestream.GetLocalLivestream]
               (fst (Livestream.getLocalLivestream
                       (Livestream.constructor "T8410")))
               eq_refl eq_refl _)))).
  intros op [<- | [<- | []]]; exact I.
Defined.
